(** * TaskMaster: a shallow embedding of the task manager's core logic

    The development follows the TypeScript sources:
    - the main application script (tasks, activity log, CSV/JSON import and
      export, [addTask], [toggleTask], [editTaskTitle], [removeTask],
      [clearDone], [resetAll], the tags, [visibleTasks]);
    - [assets/js/notifications.ts] (class [InternalNotificationManager]:
      reminder timers, the notification feed and its texts);
    - [assets/js/user-profile.ts] (the statistics: productivity score,
      streak days, [getDetailedStatistics]; [sanitizeString]).

    Conventions of the model.
    - A JavaScript string is the list of its UTF-16 code units.
    - Instants are epoch milliseconds.  The numbers the code stores in tasks
      are integers or [NaN] (the time value of an invalid [Date]).
    - The arithmetic of the productivity score is done on binary64 floats.
    - Each event handler runs at one instant [now]: every [Date.now()] of one
      call reads the same clock value.  [addTask] is the exception: the
      clock that [scheduleReminder] reads when [addTask] calls it is an
      instant of its own, [later], since the reminder was checked against
      the earlier reading.
    - The DOM and [localStorage] are left out: [renderHistory], [saveTasks],
      [saveNotifications] and [updateNotificationUI] change neither the
      tasks, the logs nor the reminders.  The one thing [render] can change
      in the state is the order of the task array, which [visibleTasks]
      sorts in place in the unfiltered view; the handlers that end in
      [render()] do so in the model.  What the handlers show to the user
      ([showError], [showToast], ...) is kept as a log.
    - [String.prototype.toLowerCase], the zone of the local time and the
      texts of dates are functions of the platform. *)

From Stdlib Require Import ZArith NArith List Bool String Ascii Lia DecimalString.
From Stdlib Require Import Floats.
From Stdlib Require Import Sorted.
From stdpp Require Import gmap list.

#[local] Set Warnings "-inexact-float".

Import ListNotations.

Local Open Scope Z_scope.

(** ** JavaScript values and built-ins used by the sources *)

Module JS.

(** A string, as its UTF-16 code units. *)
Definition jsstring : Type := list N.

(** An ASCII literal as a JavaScript string. *)
Definition str (s : string) : jsstring := map N_of_ascii (list_ascii_of_string s).

Definition DQUOTE : N := 34%N.
Definition COMMA : N := 44%N.
Definition SEMICOLON : N := 59%N.
Definition LF : N := 10%N.

(** The numbers kept in task records. *)
Inductive number : Type :=
| NaN
| Int (z : Z).

(** ToBoolean on numbers and strings. *)
Definition truthy (n : number) : bool :=
  match n with
  | NaN => false
  | Int z => negb (z =? 0)
  end.

Definition nonEmpty (s : jsstring) : bool :=
  match s with
  | [] => false
  | _ :: _ => true
  end.

(** [a > b] on numbers: false as soon as one side is [NaN]. *)
Definition gt (a b : number) : bool :=
  match a, b with
  | Int x, Int y => y <? x
  | _, _ => false
  end.

(** WhiteSpace and LineTerminator code units, as [String.prototype.trim]
    strips them. *)
Definition isWhiteSpace (c : N) : bool :=
  (existsb (N.eqb c)
     [9; 10; 11; 12; 13; 32; 160; 5760; 8232; 8233; 8239; 8287; 12288; 65279]
   || ((8192 <=? c) && (c <=? 8202)))%N.

Fixpoint trimStart (s : jsstring) : jsstring :=
  match s with
  | [] => []
  | c :: s' => if isWhiteSpace c then trimStart s' else s
  end.

Definition trimEnd (s : jsstring) : jsstring := rev (trimStart (rev s)).

Definition trim (s : jsstring) : jsstring := trimEnd (trimStart s).

(** [s.split(sep)] for a separator of one code unit; the result is never
    empty (splitting the empty string gives one empty piece). *)
Fixpoint split (sep : N) (s : jsstring) : list jsstring :=
  match s with
  | [] => [[]]
  | c :: s' =>
      if (c =? sep)%N then [] :: split sep s'
      else match split sep s' with
           | [] => [[c]]
           | w :: ws => (c :: w) :: ws
           end
  end.

(** [parts.join(sep)]. *)
Fixpoint join (sep : jsstring) (parts : list jsstring) : jsstring :=
  match parts with
  | [] => []
  | [p] => p
  | p :: ps => p ++ sep ++ join sep ps
  end.

(** [replace] with the global pattern of one double quote and the
    replacement of two: every double quote is doubled. *)
Definition doubleQuotes (s : jsstring) : jsstring :=
  flat_map (fun c => if (c =? DQUOTE)%N then [DQUOTE; DQUOTE] else [c]) s.

(** [replace] with the same pattern and the empty replacement: every double
    quote is removed. *)
Definition removeQuotes (s : jsstring) : jsstring :=
  List.filter (fun c => negb (c =? DQUOTE)%N) s.

(** [replace] with the global pattern (a double quote at the start, or a
    double quote at the end) and the empty replacement: one quote at the
    start and one quote at the end are removed; the two matches cannot
    overlap, so the string made of a single quote becomes empty at the first
    match. *)
Definition stripQuotes (s : jsstring) : jsstring :=
  let s1 := match s with
            | c :: r => if (c =? DQUOTE)%N then r else s
            | [] => []
            end in
  match rev s1 with
  | c :: r => if (c =? DQUOTE)%N then rev r else s1
  | [] => s1
  end.

Fixpoint startsWith (p s : jsstring) : bool :=
  match p, s with
  | [], _ => true
  | _ :: _, [] => false
  | a :: p', b :: s' => (a =? b)%N && startsWith p' s'
  end.

(** [s.includes(sub)]. *)
Fixpoint includes (sub s : jsstring) : bool :=
  startsWith sub s ||
  match s with
  | [] => false
  | _ :: s' => includes sub s'
  end.

(** The lower-case mapping of Basic Latin and Latin-1 Supplement, code unit
    by code unit; other code units are kept.  On a string of Basic Latin
    code units this is what [s.toLowerCase()] gives; the method itself, which
    maps every cased letter of Unicode, is a function of the platform
    ([toLowerCase] below). *)
Definition lowerUnit (c : N) : N :=
  (if (65 <=? c) && (c <=? 90) then c + 32
   else if (192 <=? c) && (c <=? 222) && negb (c =? 215) then c + 32
   else c)%N.

Definition lowerLatin (s : jsstring) : jsstring := map lowerUnit s.

(** A string of Basic Latin code units. *)
Definition basicLatin (s : jsstring) : Prop := Forall (fun c => (c < 128)%N) s.

(** The decimal text of an integer, as [String(n)] gives it. *)
Definition showZ (z : Z) : jsstring := str (NilZero.string_of_int (Z.to_int z)).

Definition showNat (n : nat) : jsstring := showZ (Z.of_nat n).

(** [a.slice(0, n)] on arrays. *)
Definition slice0 {A : Type} (n : nat) (l : list A) : list A := firstn n l.

(** [s.slice(i, j)] on strings, for [0 <= i <= j]. *)
Definition sliceStr (i j : nat) (s : jsstring) : jsstring := firstn (j - i) (skipn i s).

(** *** Numbers as binary64 floats *)

(** The Number whose value is the integer [z]. *)
Definition ofZ (z : Z) : float := SF2Prim (binary_normalize prec emax z 0 false).

Definition ofNat (n : nat) : float := ofZ (Z.of_nat n).

(** [Math.min(a, b)]: [NaN] when one argument is [NaN], the negative zero
    before the positive one, the smaller argument otherwise. *)
Definition Math_min (a b : float) : float :=
  match Prim2SF a, Prim2SF b with
  | S754_nan, _ | _, S754_nan => nan
  | S754_zero sa, S754_zero _ => if sa then a else b
  | _, _ => if (b <? a)%float then b else a
  end.

(** [Math.round(x)]: [x] itself when it is not finite or is an integer,
    the integer [floor(x + 1/2)] (computed exactly) otherwise, with the sign
    of [x] when that integer is zero. *)
Definition Math_round (x : float) : float :=
  match Prim2SF x with
  | S754_finite s m e =>
      if 0 <=? e then x
      else SF2Prim (binary_normalize prec emax
                      ((cond_Zopp s (Zpos m) * 2 + 2 ^ (- e)) / 2 ^ (- e + 1)) 0 s)
  | _ => x
  end.

(** [s.replace(pat, '')] for a pattern that is a string: the first
    occurrence of [pat] is removed. *)
Fixpoint removeFirst (pat s : jsstring) : jsstring :=
  if startsWith pat s then skipn (length pat) s
  else match s with
       | [] => []
       | c :: s' => c :: removeFirst pat s'
       end.

(** [s.substring(0, n)]: a negative [n] counts as 0, one beyond the length
    as the length. *)
Definition substring0 (n : Z) (s : jsstring) : jsstring := firstn (Z.to_nat n) s.

(** [a.includes(x)] on an array of strings. *)
Definition includesStr (x : jsstring) (a : list jsstring) : bool :=
  existsb (fun y => bool_decide (y = x)) a.

(** [a.splice(a.indexOf(x), 1)] when [x] occurs in the array: its first
    occurrence is removed. *)
Fixpoint spliceFirst (x : jsstring) (a : list jsstring) : list jsstring :=
  match a with
  | [] => []
  | y :: r => if bool_decide (y = x) then r else y :: spliceFirst x r
  end.

End JS.

Export JS.

(** ** The data model (interfaces [Task], [Activity], [Notification],
    [ActiveReminder]) *)

Module Reminder.
Record t : Type := mk {
  datetime : Z;
  notified : bool
}.
End Reminder.

Inductive Priority : Type := low | medium | high.

Module Task.
Record t : Type := mk {
  id : jsstring;
  title : jsstring;
  done : bool;
  createdAt : number;
  completedAt : option number;
  priority : option Priority;
  tags : option (list jsstring);
  reminder : option Reminder.t
}.

(** [{ ...t, done: d, completedAt: c }] *)
Definition withCompletion (x : t) (d : bool) (c : option number) : t :=
  mk (id x) (title x) d (createdAt x) c (priority x) (tags x) (reminder x).

(** [{ ...x, title: s }] *)
Definition withTitle (x : t) (s : jsstring) : t :=
  mk (id x) s (done x) (createdAt x) (completedAt x) (priority x) (tags x) (reminder x).

(** [{ ...task, createdAt: c, completedAt: d }] *)
Definition withDates (x : t) (c : number) (d : option number) : t :=
  mk (id x) (title x) (done x) c d (priority x) (tags x) (reminder x).
End Task.

Module ActivityType.
Inductive t : Type :=
| create | edit | complete | uncomplete | delete | clear_done | reset_all
| export | import.
End ActivityType.

Module Activity.
Record t : Type := mk {
  id : jsstring;
  type : ActivityType.t;
  taskId : option jsstring;
  taskTitle : option jsstring;
  timestamp : number;
  details : option jsstring
}.
End Activity.

Module NotificationType.
Inductive t : Type :=
| reminder | task_completed | system | warning | info.
End NotificationType.

Module ActionStyle.
Inductive t : Type := primary | secondary | success | danger | warning.
End ActionStyle.

Module NotificationAction.
Record t : Type := mk {
  label : jsstring;
  action : jsstring;
  style : option ActionStyle.t
}.
End NotificationAction.

Module Notification.
Record t : Type := mk {
  id : jsstring;
  type : NotificationType.t;
  title : jsstring;
  message : jsstring;
  timestamp : Z;
  read : bool;
  taskId : option jsstring;
  actions : option (list NotificationAction.t)
}.
End Notification.

Module ActiveReminder.
Record t : Type := mk {
  taskId : jsstring;
  taskTitle : jsstring;
  datetime : Z;
  timeoutId : N
}.
End ActiveReminder.

(** The view settings of [state]: the state filter, the search text and
    the tag filter. *)
Module Filter.
Inductive t : Type := all | active | done | recent | old.
End Filter.

Module View.
Record t : Type := mk {
  filter : Filter.t;
  searchQuery : jsstring;
  tagFilter : jsstring
}.
End View.

(** ** The browser around the scripts *)

(** A pending [setTimeout] of [scheduleReminder]: the variables its callback
    closes over and the instant at which it is due. *)
Module Timer.
Record t : Type := mk {
  taskId : jsstring;
  taskTitle : jsstring;
  due : Z
}.
End Timer.

(** What the handlers show to the user. *)
Inductive Shown : Type :=
| showError (title message : jsstring)
| showToast (message kind : jsstring)
| showSuccess (title message : jsstring).

(** Functions of the platform whose results the scripts only pass on or
    search in. *)
Class Platform : Type := {
  (** [new Date(n).toLocaleString()] *)
  toLocaleString : number -> jsstring;
  (** [new Date(s).getTime()] *)
  parseDate : jsstring -> number;
  (** [Math.random().toString(36)] at the n-th draw *)
  random36 : nat -> jsstring;
  (** [s.toLowerCase()], and what it is on Basic Latin *)
  toLowerCase : jsstring -> jsstring;
  toLowerCase_basicLatin : forall s, basicLatin s -> toLowerCase s = lowerLatin s
}.

(** The local time zone: what the two [Date] operations of the streak give
    for an instant.  With a fixed offset from UTC local midnights are 24
    hours apart; across a change of the clocks they are 23 or 25. *)
Class Zone : Type := {
  (** [d.setHours(0, 0, 0, 0)]: the local midnight before the instant *)
  startOfDay : Z -> Z;
  (** [d.setDate(d.getDate() - 1)]: the same local time a day earlier *)
  previousDay : Z -> Z
}.

(** The page: the [state] object of the main script (its view settings are
    the field [view]), the fields of the notification manager, the timer
    table of the window, the number of random draws made so far and what
    was shown. *)
Record World : Type := mkWorld {
  tasks : list Task.t;
  selectedTags : list jsstring;
  availableTags : list jsstring;
  activities : list Activity.t;
  notifications : list Notification.t;
  activeReminders : gmap jsstring ActiveReminder.t;
  timers : gmap N Timer.t;
  nextTimeoutId : N;
  draws : nat;
  shown : list Shown;
  view : View.t
}.

Definition setTasks (v : list Task.t) (w : World) : World :=
  mkWorld v (selectedTags w) (availableTags w) (activities w) (notifications w)
    (activeReminders w) (timers w) (nextTimeoutId w) (draws w) (shown w) (view w).

Definition setSelectedTags (v : list jsstring) (w : World) : World :=
  mkWorld (tasks w) v (availableTags w) (activities w) (notifications w)
    (activeReminders w) (timers w) (nextTimeoutId w) (draws w) (shown w) (view w).

Definition setAvailableTags (v : list jsstring) (w : World) : World :=
  mkWorld (tasks w) (selectedTags w) v (activities w) (notifications w)
    (activeReminders w) (timers w) (nextTimeoutId w) (draws w) (shown w) (view w).

Definition setActivities (v : list Activity.t) (w : World) : World :=
  mkWorld (tasks w) (selectedTags w) (availableTags w) v (notifications w)
    (activeReminders w) (timers w) (nextTimeoutId w) (draws w) (shown w) (view w).

Definition setNotifications (v : list Notification.t) (w : World) : World :=
  mkWorld (tasks w) (selectedTags w) (availableTags w) (activities w) v
    (activeReminders w) (timers w) (nextTimeoutId w) (draws w) (shown w) (view w).

Definition setActiveReminders (v : gmap jsstring ActiveReminder.t) (w : World) : World :=
  mkWorld (tasks w) (selectedTags w) (availableTags w) (activities w) (notifications w)
    v (timers w) (nextTimeoutId w) (draws w) (shown w) (view w).

Definition setTimers (v : gmap N Timer.t) (w : World) : World :=
  mkWorld (tasks w) (selectedTags w) (availableTags w) (activities w) (notifications w)
    (activeReminders w) v (nextTimeoutId w) (draws w) (shown w) (view w).

Definition setNextTimeoutId (v : N) (w : World) : World :=
  mkWorld (tasks w) (selectedTags w) (availableTags w) (activities w) (notifications w)
    (activeReminders w) (timers w) v (draws w) (shown w) (view w).

Definition setDraws (v : nat) (w : World) : World :=
  mkWorld (tasks w) (selectedTags w) (availableTags w) (activities w) (notifications w)
    (activeReminders w) (timers w) (nextTimeoutId w) v (shown w) (view w).

Definition setView (v : View.t) (w : World) : World :=
  mkWorld (tasks w) (selectedTags w) (availableTags w) (activities w) (notifications w)
    (activeReminders w) (timers w) (nextTimeoutId w) (draws w) (shown w) v.

(** The handlers append to the log of what was shown. *)
Definition show (e : Shown) (w : World) : World :=
  mkWorld (tasks w) (selectedTags w) (availableTags w) (activities w) (notifications w)
    (activeReminders w) (timers w) (nextTimeoutId w) (draws w) (shown w ++ [e]) (view w).

(** The page as the scripts create it: [state] of the main script and a
    fresh [InternalNotificationManager]. *)
Definition initialWorld : World :=
  mkWorld [] [] [str "Trabajo"; str "Personal"; str "Estudio"; str "Urgente"] []
    [] ∅ ∅ 1%N 0%nat [] (View.mk Filter.all [] (str "all")).

(** ** [assets/js/notifications.ts]: class [InternalNotificationManager] *)

Module Notifications.
Section Manager.
Context {P : Platform}.

Definition MAX_NOTIFICATIONS : nat := 50.

(** [addNotification]: [unshift], then keep the first [MAX_NOTIFICATIONS]
    when there are more. *)
Definition addNotification (n : Notification.t) (w : World) : World :=
  let l := n :: notifications w in
  setNotifications
    (if (MAX_NOTIFICATIONS <? length l)%nat then slice0 MAX_NOTIFICATIONS l else l) w.

(** [generateId]: the prefix, nine characters of a random draw from index
    2, an underscore and the clock. *)
Definition generateId (now : Z) (w : World) : jsstring * World :=
  (str "notif_" ++ sliceStr 2 11 (random36 (draws w)) ++ str "_" ++ showZ now,
   setDraws (S (draws w)) w).

(** [cancelReminder]: clear the timer of the entry kept for [taskId], if
    there is one, and delete the entry. *)
Definition cancelReminder (taskId : jsstring) (w : World) : World :=
  match activeReminders w !! taskId with
  | Some r =>
      setActiveReminders (base.delete taskId (activeReminders w))
        (setTimers (base.delete (ActiveReminder.timeoutId r) (timers w)) w)
  | None => w
  end.

(** [window.setTimeout]: a fresh handle for a new pending timer. *)
Definition setTimeout (t : Timer.t) (w : World) : N * World :=
  (nextTimeoutId w,
   setNextTimeoutId (N.succ (nextTimeoutId w))
     (setTimers (<[nextTimeoutId w := t]> (timers w)) w)).

(** [scheduleReminder] *)
Definition scheduleReminder (now : Z) (taskId taskTitle : jsstring) (datetime : Z)
  (w : World) : bool * World :=
  let delay := datetime - now in
  if delay <=? 0 then
    (false,
     show (showError (str "Fecha inv" ++ [225%N] ++ str "lida")
             (str "El recordatorio debe ser programado para una fecha futura")) w)
  else
    let w1 := cancelReminder taskId w in
    let '(timeoutId, w2) := setTimeout (Timer.mk taskId taskTitle (now + delay)) w1 in
    let w3 := setActiveReminders
                (<[taskId := ActiveReminder.mk taskId taskTitle datetime timeoutId]>
                   (activeReminders w2)) w2 in
    (true,
     show (showToast (str "Recordatorio programado para " ++ toLocaleString (Int datetime))
             (str "success")) w3).

(** [createReminderNotification] (the bell animation is not modelled). *)
Definition createReminderNotification (now : Z) (taskId taskTitle : jsstring)
  (w : World) : World :=
  let '(nid, w1) := generateId now w in
  addNotification
    (Notification.mk nid NotificationType.reminder
       ([55357%N; 56596%N] ++ str " Recordatorio de Tarea")
       (str "Es hora de: " ++ taskTitle) now false (Some taskId)
       (Some [NotificationAction.mk (str "Ver tarea") (str "view_task")
                (Some ActionStyle.primary);
              NotificationAction.mk (str "Posponer 10 min") (str "snooze")
                (Some ActionStyle.secondary)]))
    w1.

(** The callback of a reminder timer, run by the window at [now] for the
    pending handle [h]: the timer is spent, the notification is created and
    the entry of the task is deleted. *)
Definition fireTimer (now : Z) (h : N) (w : World) : World :=
  match timers w !! h with
  | Some t =>
      let w1 := setTimers (base.delete h (timers w)) w in
      let w2 := createReminderNotification now (Timer.taskId t) (Timer.taskTitle t) w1 in
      setActiveReminders (base.delete (Timer.taskId t) (activeReminders w2)) w2
  | None => w
  end.

(** [createSystemNotification] *)
Definition createSystemNotification (now : Z) (title message : jsstring)
  (type : NotificationType.t) (w : World) : World :=
  let '(nid, w1) := generateId now w in
  addNotification (Notification.mk nid type title message now false None None) w1.

(** [createTaskCompletedNotification] *)
Definition createTaskCompletedNotification (now : Z) (taskTitle : jsstring)
  (w : World) : World :=
  let '(nid, w1) := generateId now w in
  addNotification
    (Notification.mk nid NotificationType.task_completed
       ([9989%N] ++ str " Tarea Completada")
       ([161%N] ++ str "Felicidades! Has completado: " ++ taskTitle)
       now false None None)
    w1.

(** [snoozeReminder] *)
Definition snoozeReminder (now : Z) (taskId taskTitle : jsstring) (minutes : Z)
  (w : World) : bool * World :=
  let snoozeTime := now + minutes * 60 * 1000 in
  scheduleReminder now taskId taskTitle snoozeTime
    (show (showToast (str "Recordatorio pospuesto " ++ showZ minutes ++ str " minutos")
             (str "info")) w).

(** [removeNotification] *)
Definition removeNotification (notificationId : jsstring) (w : World) : World :=
  setNotifications
    (List.filter (fun n => negb (bool_decide (Notification.id n = notificationId)))
       (notifications w)) w.

(** [markAllAsRead] *)
Definition markAllAsRead (w : World) : World :=
  setNotifications
    (map (fun n => Notification.mk (Notification.id n) (Notification.type n)
                     (Notification.title n) (Notification.message n)
                     (Notification.timestamp n) true (Notification.taskId n)
                     (Notification.actions n))
       (notifications w)) w.

(** [clearAllNotifications] *)
Definition clearAllNotifications (w : World) : World :=
  show (showToast (str "Todas las notificaciones han sido eliminadas") (str "info"))
    (setNotifications [] w).

(** [getUnreadCount] *)
Definition getUnreadCount (w : World) : nat :=
  length (List.filter (fun n => negb (Notification.read n)) (notifications w)).

(** [hasActiveReminder] *)
Definition hasActiveReminder (taskId : jsstring) (w : World) : bool :=
  bool_decide (is_Some (activeReminders w !! taskId)).

(** [clearAllReminders]: the timer of every recorded reminder is cleared,
    then the record is emptied. *)
Definition clearAllReminders (w : World) : World :=
  setActiveReminders ∅
    (setTimers
       (map_fold (fun _ r tm => base.delete (ActiveReminder.timeoutId r) tm)
          (timers w) (activeReminders w))
       w).

(** [getTimeAgo] *)
Definition getTimeAgo (now timestamp : Z) : jsstring :=
  let diff := now - timestamp in
  let minutes := diff / 60000 in
  let hours := diff / 3600000 in
  let days := diff / 86400000 in
  if minutes <? 1 then str "Ahora mismo"
  else if minutes <? 60 then str "Hace " ++ showZ minutes ++ str "m"
  else if hours <? 24 then str "Hace " ++ showZ hours ++ str "h"
  else str "Hace " ++ showZ days ++ str "d".

(** [truncateText] *)
Definition truncateText (text : jsstring) (maxLength : Z) : jsstring :=
  if Z.of_nat (length text) <=? maxLength then text
  else substring0 (maxLength - 3) text ++ str "...".

(** [handleNotificationAction]; [focusTask] only scrolls the page. *)
Definition handleNotificationAction (now : Z) (n : Notification.t) (action : jsstring)
  (w : World) : World :=
  let hasTask := match Notification.taskId n with
                 | Some t => nonEmpty t
                 | None => false
                 end in
  if bool_decide (action = str "view_task") then
    if hasTask then removeNotification (Notification.id n) w else w
  else if bool_decide (action = str "snooze") then
    match Notification.taskId n with
    | Some t =>
        if nonEmpty t then
          removeNotification (Notification.id n)
            (snd (snoozeReminder now t
                    (removeFirst (str "Es hora de: ") (Notification.message n)) 10 w))
        else w
    | None => w
    end
  else w.

(** [window.scheduleTaskReminder] and [window.cancelTaskReminder], the
    globals through which the main script reaches the manager. *)
Definition scheduleTaskReminder := scheduleReminder.
Definition cancelTaskReminder := cancelReminder.

End Manager.
End Notifications.

(** ** The main script: activity log, CSV and JSON, task operations *)

(** A task or activity object of an imported JSON file, read at the types of
    the interfaces; a date field may hold a string, a number, or be absent. *)
Module Json.
Inductive date : Type :=
| absent
| text (s : jsstring)
| num (n : number).

Record task : Type := mkTask {
  fields : Task.t;
  createdAt : date;
  completedAt : date
}.

Record file : Type := mkFile {
  tasks : option (list task);
  availableTags : option (list jsstring);
  activities : option (list (Activity.t * date))
}.
End Json.

Module App.
Section Script.
Context {P : Platform}.

(** [uid]: eight characters of a random draw, from index 2. *)
Definition uid (w : World) : jsstring * World :=
  (sliceStr 2 10 (random36 (draws w)), setDraws (S (draws w)) w).

(** [addActivity]: [unshift], then keep the first 100 when there are more. *)
Definition addActivity (now : Z) (type : ActivityType.t) (taskId taskTitle : option jsstring)
  (details : option jsstring) (w : World) : World :=
  let '(aid, w1) := uid w in
  let l := Activity.mk aid type taskId taskTitle (Int now) details :: activities w1 in
  setActivities (if (100 <? length l)%nat then slice0 100 l else l) w1.

(** *** The visible tasks and the redrawing of the page *)

(** The comparator of [visibleTasks], [b.createdAt - a.createdAt]; a [NaN]
    result is read as 0, as the sort reads it. *)
Definition byCreation (a b : Task.t) : Z :=
  match Task.createdAt a, Task.createdAt b with
  | Int x, Int y => y - x
  | _, _ => 0
  end.

(** [sort] with that comparator: a stable sort, latest creation first.  (With
    a [NaN] among the dates the comparator is not consistent and the order
    the engine gives is not determined; the properties about the order
    assume there is none.) *)
Fixpoint insertByCreation (a : Task.t) (l : list Task.t) : list Task.t :=
  match l with
  | [] => [a]
  | b :: r => if byCreation a b <=? 0 then a :: l else b :: insertByCreation a r
  end.

Definition sortByCreation (l : list Task.t) : list Task.t :=
  fold_right insertByCreation [] l.

Definition createdBefore (bound : Z) (t : Task.t) : bool :=
  match Task.createdAt t with
  | Int z => z <? bound
  | NaN => false
  end.

Definition hasTag (tag : jsstring) (t : Task.t) : bool :=
  match Task.tags t with
  | Some ts => includesStr tag ts
  | None => false
  end.

Definition hasSomeTagOf (selected : list jsstring) (t : Task.t) : bool :=
  match Task.tags t with
  | Some ts => existsb (fun tag => includesStr tag selected) ts
  | None => false
  end.

(** The array [filtered] of [visibleTasks] before it is sorted, and whether
    it is still the array [state.tasks] itself ([filter] makes a new array,
    the unfiltered view does not). *)
Definition filteredTasks (v : View.t) (now : Z) (w : World) : list Task.t * bool :=
  let '(f1, own1) :=
    match View.filter v with
    | Filter.active => (List.filter (fun t => negb (Task.done t)) (tasks w), false)
    | Filter.done => (List.filter Task.done (tasks w), false)
    | Filter.recent =>
        (List.filter (fun t => gt (Task.createdAt t) (Int (now - 24 * 60 * 60 * 1000)))
           (tasks w), false)
    | Filter.old =>
        (List.filter (createdBefore (now - 7 * 24 * 60 * 60 * 1000)) (tasks w), false)
    | Filter.all => (tasks w, true)
    end in
  let '(f2, own2) :=
    if nonEmpty (View.searchQuery v)
    then (List.filter (fun t => includes (toLowerCase (View.searchQuery v))
                                  (toLowerCase (Task.title t))) f1, false)
    else (f1, own1) in
  let '(f3, own3) :=
    if nonEmpty (View.tagFilter v) && negb (bool_decide (View.tagFilter v = str "all"))
    then (List.filter (hasTag (View.tagFilter v)) f2, false)
    else (f2, own2) in
  if (0 <? length (selectedTags w))%nat
  then (List.filter (hasSomeTagOf (selectedTags w)) f3, false)
  else (f3, own3).

(** [visibleTasks] for the view settings [v] (the fields [filter],
    [searchQuery] and [tagFilter] of [state]): the sorted array, and the
    page afterwards: [sort] works in place, so the unfiltered view leaves
    [state.tasks] sorted. *)
Definition visibleTasks (v : View.t) (now : Z) (w : World) : list Task.t * World :=
  let '(filtered, own) := filteredTasks v now w in
  let sorted := sortByCreation filtered in
  (sorted, if own then setTasks sorted w else w).

(** What [render] changes in the state: it calls [visibleTasks].  The
    handlers call it on the page with the view settings of the page,
    [render (view w) now w]. *)
Definition render (v : View.t) (now : Z) (w : World) : World :=
  snd (visibleTasks v now w).

(** [setFilter], [setSearchQuery] and [setTagFilter] *)
Definition setFilter (now : Z) (f : Filter.t) (w : World) : World :=
  let w1 := setView (View.mk f (View.searchQuery (view w)) (View.tagFilter (view w))) w in
  render (view w1) now w1.

Definition setSearchQuery (now : Z) (query : jsstring) (w : World) : World :=
  let w1 := setView (View.mk (View.filter (view w)) (trim query) (View.tagFilter (view w))) w in
  render (view w1) now w1.

Definition setTagFilter (now : Z) (tagName : jsstring) (w : World) : World :=
  let w1 := setView (View.mk (View.filter (view w)) (View.searchQuery (view w)) tagName) w in
  render (view w1) now w1.

(** *** CSV export *)

Definition csvHeaders : list jsstring :=
  [str "ID"; str "T" ++ [237%N] ++ str "tulo"; str "Estado"; str "Creada";
   str "Completada"; str "Etiquetas"].

(** The title between double quotes, its own double quotes doubled. *)
Definition csvTitleField (task : Task.t) : jsstring :=
  [DQUOTE] ++ doubleQuotes (Task.title task) ++ [DQUOTE].

(** The array [row] that [exportToCSV] builds for one task. *)
Definition csvRow (task : Task.t) : list jsstring :=
  [ Task.id task;
    csvTitleField task;
    if Task.done task then str "Completada" else str "Activa";
    toLocaleString (Task.createdAt task);
    match Task.completedAt task with
    | Some c => if truthy c then toLocaleString c else []
    | None => []
    end;
    match Task.tags task with
    | Some ts => [DQUOTE] ++ join (str "; ") ts ++ [DQUOTE]
    | None => []
    end ].

Definition csvContent (ts : list Task.t) : jsstring :=
  join [LF] (join [COMMA] csvHeaders :: map (fun t => join [COMMA] (csvRow t)) ts).

(** [exportToCSV]: the text offered for download and the page afterwards. *)
Definition exportToCSV (now : Z) (w : World) : jsstring * World :=
  (csvContent (tasks w),
   addActivity now ActivityType.export None None
     (Some (str "Datos exportados en formato CSV")) w).

(** *** CSV import *)

(** [values[i]] as a condition: defined and not empty. *)
Definition field (values : list jsstring) (i : nat) : option jsstring :=
  match nth_error values i with
  | Some v => if nonEmpty v then Some v else None
  | None => None
  end.

(** The object literal [task] of [importFromCSV] for the fields of one line. *)
Definition csvTask (now : Z) (values : list jsstring) (w : World) : Task.t * World :=
  let '(i, w1) := match field values 0 with
                  | Some v => (v, w)
                  | None => uid w
                  end in
  (Task.mk i
     (match field values 1 with
      | Some v => v
      | None => str "Tarea sin t" ++ [237%N] ++ str "tulo"
      end)
     (match nth_error values 2 with
      | Some v => includes (str "completada") (toLowerCase v)
      | None => false
      end)
     (match field values 3 with
      | Some v => parseDate v
      | None => Int now
      end)
     (match field values 4 with
      | Some v => Some (parseDate v)
      | None => None
      end)
     None
     (Some (match field values 5 with
            | Some v => List.filter nonEmpty (map trim (split SEMICOLON v))
            | None => []
            end))
     None,
   w1).

(** The loop of [importFromCSV] over the lines after the header. *)
Fixpoint csvLines (now : Z) (lines : list jsstring) (w : World) : list Task.t * World :=
  match lines with
  | [] => ([], w)
  | l :: rest =>
      let line := trim l in
      if negb (nonEmpty line) then csvLines now rest w
      else
        let values := map (fun v => stripQuotes (trim v)) (split COMMA line) in
        if (length values <? 3)%nat then csvLines now rest w
        else
          let '(t, w1) := csvTask now values w in
          let '(ts, w2) := csvLines now rest w1 in
          (t :: ts, w2)
  end.

(** The tasks that [importFromCSV] reads from a file, or [None] when it
    throws for a header of less than three columns. *)
Definition csvParse (now : Z) (content : jsstring) (w : World) : option (list Task.t * World) :=
  let lines := split LF content in
  let headers := map (fun h => removeQuotes (trim h)) (split COMMA (hd [] lines)) in
  if (length headers <? 3)%nat then None
  else Some (csvLines now (tl lines) w).

(** [importFromCSV]; [confirmed] is the answer to the dialog. *)
Definition importFromCSV (now : Z) (content : jsstring) (confirmed : bool) (w : World)
  : option World :=
  match csvParse now content w with
  | None => None
  | Some (ts, w1) =>
      if negb confirmed then Some w1
      else
        let w2 := setTasks ts w1 in
        let w3 := render (view w2) now w2 in
        let w4 := addActivity now ActivityType.import None None
                    (Some (showNat (length ts) ++ str " tareas importadas desde CSV")) w3 in
        Some (show (showSuccess ([161%N] ++ str "Importaci" ++ [243%N] ++ str "n exitosa!")
                      (str "Se importaron " ++ showNat (length ts) ++ str " tareas desde CSV"))
                w4)
  end.

(** *** JSON import *)

(** The number a date field is turned into; an absent field is read as
    [NaN], which compares and converts to a boolean as [undefined] does. *)
Definition jsonDate (d : Json.date) : number :=
  match d with
  | Json.text s => parseDate s
  | Json.num n => n
  | Json.absent => NaN
  end.

Definition jsonTruthy (d : Json.date) : bool :=
  match d with
  | Json.text s => nonEmpty s
  | Json.num n => truthy n
  | Json.absent => false
  end.

(** The object that [importFromJSON] makes of one task of the file. *)
Definition jsonTask (t : Json.task) : Task.t :=
  Task.withDates (Json.fields t) (jsonDate (Json.createdAt t))
    (if jsonTruthy (Json.completedAt t) then Some (jsonDate (Json.completedAt t)) else None).

Definition jsonActivity (a : Activity.t * Json.date) : Activity.t :=
  Activity.mk (Activity.id (fst a)) (Activity.type (fst a)) (Activity.taskId (fst a))
    (Activity.taskTitle (fst a))
    (match snd a with
     | Json.text s => parseDate s
     | _ => Activity.timestamp (fst a)
     end)
    (Activity.details (fst a)).

(** [importFromJSON] on the parsed file; [None] when it throws for a
    missing array of tasks. *)
Definition importFromJSON (now : Z) (data : Json.file) (confirmed : bool) (w : World)
  : option World :=
  match Json.tasks data with
  | None => None
  | Some ts =>
      if negb confirmed then Some w
      else
        let w1 := setTasks (map jsonTask ts) w in
        let w2 := match Json.availableTags data with
                  | Some tags => setAvailableTags tags w1
                  | None => w1
                  end in
        let w3 := match Json.activities data with
                  | Some acts => setActivities (map jsonActivity acts) w2
                  | None => w2
                  end in
        let w4 := render (view w3) now w3 in
        let w5 := addActivity now ActivityType.import None None
                    (Some (showNat (length ts) ++ str " tareas importadas desde JSON")) w4 in
        Some (show (showSuccess ([161%N] ++ str "Importaci" ++ [243%N] ++ str "n exitosa!")
                      (str "Se importaron " ++ showNat (length (tasks w5)) ++ str " tareas, "
                       ++ showNat (length (availableTags w5)) ++ str " etiquetas y "
                       ++ showNat (length (activities w5)) ++ str " actividades"))
                w5)
  end.

(** *** Task operations *)

(** [getReminderDatetime], on the values of the date and time inputs. *)
Definition getReminderDatetime (now : Z) (dateValue timeValue : jsstring) : option Z :=
  if negb (nonEmpty dateValue) || negb (nonEmpty timeValue) then None
  else match parseDate (dateValue ++ str "T" ++ timeValue) with
       | NaN => None
       | Int z => if z <=? now then None else Some z
       end.

(** [addTask]; [dateValue] and [timeValue] are the reminder inputs of the
    form.  [now] is the clock as the handler reads it, [later] the clock as
    [scheduleReminder] reads it when the handler calls it. *)
Definition addTask (now later : Z) (title dateValue timeValue : jsstring) (w : World)
  : World :=
  let trimmed := trim title in
  if negb (nonEmpty trimmed) then w
  else
    let reminderDatetime :=
      match getReminderDatetime now dateValue timeValue with
      | Some z => if z =? 0 then None else Some z
      | None => None
      end in
    let '(i, w1) := uid w in
    let newTask :=
      Task.mk i trimmed false (Int now) None None (Some (selectedTags w1))
        (match reminderDatetime with
         | Some z => Some (Reminder.mk z false)
         | None => None
         end) in
    let w2 := match reminderDatetime with
              | Some z => snd (Notifications.scheduleTaskReminder later i trimmed z w1)
              | None => w1
              end in
    let w3 := setSelectedTags [] (setTasks (newTask :: tasks w2) w2) in
    let w4 := addActivity now ActivityType.create (Some i) (Some trimmed)
                (match reminderDatetime with
                 | Some z => Some (str "Con recordatorio: " ++ toLocaleString (Int z))
                 | None => None
                 end)
                w3 in
    render (view w4) now w4.

(** The callback that [toggleTask] maps over the tasks. *)
Definition toggleOne (now : Z) (i : jsstring) (t : Task.t) (w : World) : Task.t * World :=
  if bool_decide (Task.id t = i) then
    let newDone := negb (Task.done t) in
    let w1 := addActivity now
                (if newDone then ActivityType.complete else ActivityType.uncomplete)
                (Some (Task.id t)) (Some (Task.title t)) None w in
    let w2 :=
      if newDone then
        Notifications.createTaskCompletedNotification now (Task.title t)
          (match Task.reminder t with
           | Some _ => Notifications.cancelTaskReminder (Task.id t) w1
           | None => w1
           end)
      else
        match Task.reminder t with
        | Some r =>
            if now <? Reminder.datetime r
            then snd (Notifications.scheduleTaskReminder now (Task.id t) (Task.title t)
                        (Reminder.datetime r) w1)
            else w1
        | None => w1
        end in
    (Task.withCompletion t newDone (if newDone then Some (Int now) else None), w2)
  else (t, w).

(** [Array.prototype.map] with a callback that also changes the page. *)
Fixpoint mapWorld {A B : Type} (f : A -> World -> B * World) (l : list A) (w : World)
  : list B * World :=
  match l with
  | [] => ([], w)
  | x :: r =>
      let '(y, w1) := f x w in
      let '(ys, w2) := mapWorld f r w1 in
      (y :: ys, w2)
  end.

(** [toggleTask] *)
Definition toggleTask (now : Z) (i : jsstring) (w : World) : World :=
  let '(ts, w1) := mapWorld (toggleOne now i) (tasks w) w in
  let w2 := setTasks ts w1 in
  render (view w2) now w2.

(** [editTaskTitle]; [answer] is what the input dialog resolves to: [None]
    when it is dismissed, the entered value when it is confirmed. *)
Definition editTaskTitle (now : Z) (i : jsstring) (answer : option jsstring) (w : World)
  : World :=
  match find (fun x => bool_decide (Task.id x = i)) (tasks w) with
  | None =>
      show (showError (str "Tarea no encontrada")
              (str "No se pudo encontrar la tarea solicitada.")) w
  | Some t =>
      match answer with
      | None => w
      | Some value =>
          if negb (nonEmpty value) then w
          else
            let trimmed := trim value in
            if negb (nonEmpty trimmed) then
              show (showError (str "T" ++ [237%N] ++ str "tulo inv" ++ [225%N] ++ str "lido")
                      (str "El t" ++ [237%N] ++ str "tulo no puede estar vac" ++ [237%N]
                       ++ str "o.")) w
            else
              let w1 := addActivity now ActivityType.edit (Some (Task.id t)) (Some trimmed)
                          (Some (str "De: " ++ [DQUOTE] ++ Task.title t ++ [DQUOTE]
                                 ++ str " a: " ++ [DQUOTE] ++ trimmed ++ [DQUOTE])) w in
              let w2 := setTasks
                          (map (fun x => if bool_decide (Task.id x = i)
                                         then Task.withTitle x trimmed else x)
                             (tasks w1)) w1 in
              let w3 := render (view w2) now w2 in
              show (showToast (str "Tarea actualizada correctamente") (str "success")) w3
      end
  end.

(** [removeTask] *)
Definition removeTask (now : Z) (i : jsstring) (w : World) : World :=
  let w1 := match find (fun t => bool_decide (Task.id t = i)) (tasks w) with
            | Some task =>
                addActivity now ActivityType.delete (Some (Task.id task))
                  (Some (Task.title task)) None w
            | None => w
            end in
  let w2 := setTasks (List.filter (fun t => negb (bool_decide (Task.id t = i))) (tasks w1))
              w1 in
  render (view w2) now w2.

(** [clearDone] *)
Definition clearDone (now : Z) (w : World) : World :=
  let doneCount := length (List.filter Task.done (tasks w)) in
  let w1 := if (0 <? doneCount)%nat
            then addActivity now ActivityType.clear_done None None
                   (Some (showNat doneCount ++ str " tareas eliminadas")) w
            else w in
  let w2 := setTasks (List.filter (fun t => negb (Task.done t)) (tasks w1)) w1 in
  render (view w2) now w2.

(** [resetAll], once the dialog is confirmed. *)
Definition resetAll (now : Z) (w : World) : World :=
  let taskCount := length (tasks w) in
  let w1 := if (0 <? taskCount)%nat
            then addActivity now ActivityType.reset_all None None
                   (Some (showNat taskCount ++ str " tareas eliminadas")) w
            else w in
  let w2 := setTasks [] w1 in
  let w3 := render (view w2) now w2 in
  show (showSuccess ([161%N] ++ str "Listo!")
          (str "Se eliminaron " ++ showNat taskCount ++ str " tareas correctamente."))
    w3.

(** [addNewTag] *)
Definition addNewTag (tagName : jsstring) (w : World) : World :=
  let trimmed := trim tagName in
  if negb (nonEmpty trimmed) || includesStr trimmed (availableTags w) then w
  else setAvailableTags (availableTags w ++ [trimmed]) w.

(** [toggleTagSelection] *)
Definition toggleTagSelection (tagName : jsstring) (w : World) : World :=
  if includesStr tagName (selectedTags w)
  then setSelectedTags (spliceFirst tagName (selectedTags w)) w
  else setSelectedTags (selectedTags w ++ [tagName]) w.

(** *** JSON export *)

(** A number as [JSON.stringify] writes it and [JSON.parse] reads it back;
    [NaN] is written as [null], which is read here as an absent number. *)
Definition jsonOfNumber (n : number) : Json.date :=
  match n with
  | Int z => Json.num (Int z)
  | NaN => Json.absent
  end.

Definition jsonOfTask (t : Task.t) : Json.task :=
  Json.mkTask t (jsonOfNumber (Task.createdAt t))
    (match Task.completedAt t with
     | Some c => jsonOfNumber c
     | None => Json.absent
     end).

Definition jsonOfActivity (a : Activity.t) : Activity.t * Json.date :=
  (a, jsonOfNumber (Activity.timestamp a)).

(** [exportToJSON]: the object [exportData] as its JSON text is read back
    (the export date and the version are not read by the import), and the
    page afterwards. *)
Definition exportToJSON (now : Z) (w : World) : Json.file * World :=
  (Json.mkFile (Some (map jsonOfTask (tasks w))) (Some (availableTags w))
     (Some (map jsonOfActivity (activities w))),
   addActivity now ActivityType.export None None
     (Some (str "Datos exportados en formato JSON")) w).

End Script.
End App.

(** ** [assets/js/user-profile.ts]: the statistics of [UserProfileService] *)

Module UserProfile.

Definition msPerDay : Z := 24 * 60 * 60 * 1000.

Definition msPerWeek : Z := 7 * 24 * 60 * 60 * 1000.

(** [t.completedAt] as a condition. *)
Definition hasCompletedAt (t : Task.t) : bool :=
  match Task.completedAt t with
  | Some c => truthy c
  | None => false
  end.

(** The completion instant of a task that passed [hasCompletedAt]. *)
Definition completedInstant (t : Task.t) : Z :=
  match Task.completedAt t with
  | Some (Int z) => z
  | _ => 0
  end.

(** [sort((a, b) => b.completedAt - a.completedAt)]: a stable sort, latest
    completion first. *)
Fixpoint insertByCompletion (a : Task.t) (l : list Task.t) : list Task.t :=
  match l with
  | [] => [a]
  | b :: r =>
      if completedInstant b - completedInstant a <=? 0 then a :: l
      else b :: insertByCompletion a r
  end.

Definition sortByCompletion (l : list Task.t) : list Task.t :=
  fold_right insertByCompletion [] l.

Section Streak.
Context {Zn : Zone}.

(** The [for] loop of [calculateStreakDays]. *)
Fixpoint streakLoop (l : list Task.t) (streak currentDate : Z) : Z :=
  match l with
  | [] => streak
  | task :: r =>
      let taskDate := startOfDay (completedInstant task) in
      let diffDays := (currentDate - taskDate) / msPerDay in
      if diffDays =? streak then streakLoop r (streak + 1) (previousDay currentDate)
      else if streak <? diffDays then streak
      else streakLoop r streak currentDate
  end.

(** [calculateStreakDays] *)
Definition calculateStreakDays (now : Z) (tasks : list Task.t) : Z :=
  match tasks with
  | [] => 0
  | _ =>
      let completedTasks := sortByCompletion (List.filter hasCompletedAt tasks) in
      match completedTasks with
      | [] => 0
      | _ => streakLoop completedTasks 0 (startOfDay now)
      end
  end.

End Streak.

(** The two recent-activity filters of [calculateProductivityScore]. *)
Definition createdRecently (now : Z) (t : Task.t) : bool :=
  gt (Task.createdAt t) (Int (now - msPerWeek)).

Definition completedRecently (now : Z) (t : Task.t) : bool :=
  match Task.completedAt t with
  | Some c => truthy c && gt c (Int (now - msPerWeek))
  | None => false
  end.

(** [calculateProductivityScore] *)
Definition calculateProductivityScore (now : Z) (tasks : list Task.t) : float :=
  match tasks with
  | [] => 0%float
  | _ =>
      let completedTasks := length (List.filter Task.done tasks) in
      let totalTasks := length tasks in
      let completionRate := (ofNat completedTasks / ofNat totalTasks * 100)%float in
      let recentActivity := length (List.filter (createdRecently now) tasks) in
      let recentCompletion := length (List.filter (completedRecently now) tasks) in
      Math_min 100
        (Math_round (completionRate * 0.6
                     + Math_min (ofNat recentActivity * 5) 30
                     + Math_min (ofNat recentCompletion * 10) 10))%float
  end.

(** *** The statistics record *)

(** Interface [UserStatistics]. *)
Record UserStatistics : Type := mkStatistics {
  totalTasks : nat;
  completedTasks : nat;
  activeTasks : nat;
  loginCount : nat;
  lastActivityAt : Z;
  tasksCreatedThisWeek : nat;
  tasksCompletedThisWeek : nat;
  productivityScore : float;
  streakDays : Z
}.

(** The statistics of [enrichProfileWithStatistics] for the stored ones. *)
Definition enrichStatistics (now : Z) (tasks : list Task.t) (stored : UserStatistics)
  : UserStatistics :=
  mkStatistics (length tasks)
    (length (List.filter Task.done tasks))
    (length (List.filter (fun t => negb (Task.done t)) tasks))
    (loginCount stored)
    now
    (length (List.filter (createdRecently now) tasks))
    (length (List.filter (completedRecently now) tasks))
    (productivityScore stored)
    (streakDays stored).

(** [getDetailedStatistics], for the tasks read from the storage and the
    statistics of the profile of the current user before they are enriched:
    the stored ones, or the initial ones of a new profile; [None] when there
    is no current user.  The result is what the function returns (the write
    back to the storage is not modelled). *)
Definition getDetailedStatistics {Zn : Zone} (now : Z) (tasks : list Task.t)
  (stored : option UserStatistics) : option UserStatistics :=
  match stored with
  | None => None
  | Some st =>
      let profile := enrichStatistics now tasks st in
      Some (mkStatistics (length tasks)
              (length (List.filter Task.done tasks))
              (length (List.filter (fun t => negb (Task.done t)) tasks))
              (loginCount profile)
              (lastActivityAt profile)
              (length (List.filter (createdRecently now) tasks))
              (length (List.filter (completedRecently now) tasks))
              (calculateProductivityScore now tasks)
              (calculateStreakDays now tasks))
  end.

(** *** Input of the profile form *)

(** [sanitizeString]: the input trimmed, then every angle bracket removed. *)
Definition sanitizeString (input : jsstring) : jsstring :=
  List.filter (fun c => negb ((c =? 60)%N || (c =? 62)%N)) (trim input).

End UserProfile.

(** ** Vocabulary of the properties *)

(** A platform to evaluate the scripts on: dates are printed as their time
    value, no text parses as a date, the n-th random draw spells [n], and
    only Latin letters are put in lower case. *)
Definition refPlatform : Platform :=
  {| toLocaleString := fun n => match n with
                                | NaN => str "Invalid Date"
                                | Int z => showZ z
                                end;
     parseDate := fun _ => NaN;
     random36 := fun n => str "0." ++ showNat n ++ str "abcdefghijk";
     toLowerCase := lowerLatin;
     toLowerCase_basicLatin := fun _ _ => eq_refl |}.

(** A zone whose local time is always [tz] milliseconds ahead of UTC: the
    local midnight before an instant, and a local midnight moved back by a
    day. *)
Definition fixedOffset (tz : Z) : Zone :=
  {| startOfDay := fun t => t - (t + tz) mod UserProfile.msPerDay;
     previousDay := fun d => d - UserProfile.msPerDay |}.

(** *** Sequences of calls *)

Module ActivityCall.
Record t : Type := mk {
  now : Z;
  type : ActivityType.t;
  taskId : option jsstring;
  taskTitle : option jsstring;
  details : option jsstring
}.
End ActivityCall.

Inductive ReminderCall : Type :=
| callSchedule (now : Z) (taskId taskTitle : jsstring) (datetime : Z)
| callCancel (taskId : jsstring)
| callSnooze (now : Z) (taskId taskTitle : jsstring) (minutes : Z)
| timerFires (now : Z) (h : N).

Inductive TaskCall : Type :=
| callAddTask (now later : Z) (title dateValue timeValue : jsstring)
| callToggleTask (now : Z) (i : jsstring)
| callEditTaskTitle (now : Z) (i : jsstring) (answer : option jsstring).

Section Runs.
Context {P : Platform}.

Definition callAddActivity (w : World) (c : ActivityCall.t) : World :=
  App.addActivity (ActivityCall.now c) (ActivityCall.type c) (ActivityCall.taskId c)
    (ActivityCall.taskTitle c) (ActivityCall.details c) w.

Definition addActivities (calls : list ActivityCall.t) (w : World) : World :=
  fold_left callAddActivity calls w.

Definition addNotifications (ns : list Notification.t) (w : World) : World :=
  fold_left (fun w n => Notifications.addNotification n w) ns w.

(** Calls of the reminder scheduler, and the window running a timer. *)
Definition reminderStep (w : World) (c : ReminderCall) : World :=
  match c with
  | callSchedule now taskId taskTitle datetime =>
      snd (Notifications.scheduleReminder now taskId taskTitle datetime w)
  | callCancel taskId => Notifications.cancelReminder taskId w
  | callSnooze now taskId taskTitle minutes =>
      snd (Notifications.snoozeReminder now taskId taskTitle minutes w)
  | timerFires now h => Notifications.fireTimer now h w
  end.

Definition reminderRun (calls : list ReminderCall) (w : World) : World :=
  fold_left reminderStep calls w.

Definition taskStep (w : World) (c : TaskCall) : World :=
  match c with
  | callAddTask now later title dateValue timeValue =>
      App.addTask now later title dateValue timeValue w
  | callToggleTask now i => App.toggleTask now i w
  | callEditTaskTitle now i answer => App.editTaskTitle now i answer w
  end.

Definition taskRun (calls : list TaskCall) (w : World) : World :=
  fold_left taskStep calls w.

End Runs.

(** *** Reminders *)

(** Every pending timer is the one recorded for its task and its handle has
    been handed out; every recorded reminder has its timer pending. *)
Definition timersRecorded (w : World) : Prop :=
  (forall h t, timers w !! h = Some t ->
     (h < nextTimeoutId w)%N /\
     exists r, activeReminders w !! Timer.taskId t = Some r /\ ActiveReminder.timeoutId r = h)
  /\
  (forall i r, activeReminders w !! i = Some r ->
     exists t, timers w !! ActiveReminder.timeoutId r = Some t /\ Timer.taskId t = i).

Definition atMostOneTimerPerTask (w : World) : Prop :=
  forall h1 h2 t1 t2,
    timers w !! h1 = Some t1 -> timers w !! h2 = Some t2 ->
    Timer.taskId t1 = Timer.taskId t2 -> h1 = h2.

(** The error that [scheduleReminder] shows for a date that is not in the
    future. *)
Definition pastDateError : Shown :=
  showError (str "Fecha inv" ++ [225%N] ++ str "lida")
    (str "El recordatorio debe ser programado para una fecha futura").

(** A task with a reminder one hour after the instant 1700000000000, and
    the page in which it was added with that reminder scheduled. *)
Definition remindedTask : Task.t :=
  Task.mk (str "t0") (str "Comprar pan") false (Int 1700000000000) None None (Some [])
    (Some (Reminder.mk 1700003600000 false)).

Definition remindedWorld : World :=
  snd (Notifications.scheduleReminder (P := refPlatform) 1700000000000 (str "t0")
         (str "Comprar pan") 1700003600000 (setTasks [remindedTask] initialWorld)).

(** *** Sample log entries *)

Definition sampleActivity : Activity.t :=
  Activity.mk (str "a0") ActivityType.create (Some (str "t0")) (Some (str "Comprar pan"))
    (Int 1700000000000) None.

Definition sampleCall : ActivityCall.t :=
  ActivityCall.mk 1700000000000 ActivityType.complete (Some (str "t0"))
    (Some (str "Comprar pan")) None.

(** A page whose Activity Log is full. *)
Definition fullLogWorld : World :=
  setActivities (repeat sampleActivity 100) initialWorld.

Definition sampleNotification : Notification.t :=
  Notification.mk (str "notif_1") NotificationType.system (str "Aviso") (str "Hola")
    1700000000000 false None None.

(** *** Completion of tasks *)

(** The completion instant is present exactly when the flag is set. *)
Definition completionInvariant (t : Task.t) : Prop :=
  is_Some (Task.completedAt t) <-> Task.done t = true.

(** A CSV file and a JSON file with a completed task and no completion date. *)
Definition csvDoneWithoutDate : jsstring :=
  str "ID,Titulo,Estado" ++ [LF] ++ str "t1,Comprar pan,Completada".

Definition jsonDoneWithoutDate : Json.file :=
  Json.mkFile
    (Some [Json.mkTask
             (Task.mk (str "t1") (str "Comprar pan") true (Int 0) None None None None)
             (Json.num (Int 1700000000000)) Json.absent])
    None None.

(** *** CSV titles *)

(** The title [Say] followed by [hi] between double quotes, its CSV field,
    and the title with its quotes still doubled. *)
Definition sayHi : jsstring := str "Say " ++ [DQUOTE] ++ str "hi" ++ [DQUOTE].

Definition sayHiField : jsstring :=
  [DQUOTE] ++ str "Say " ++ [DQUOTE; DQUOTE] ++ str "hi" ++ [DQUOTE; DQUOTE] ++ [DQUOTE].

Definition sayHiDoubled : jsstring :=
  str "Say " ++ [DQUOTE; DQUOTE] ++ str "hi" ++ [DQUOTE; DQUOTE].

Definition sayHiTask : Task.t :=
  Task.mk (str "k3x9q2ab") sayHi false (Int 1700000000000) None None (Some []) None.

Section CsvVocabulary.
Context {P : Platform}.

Definition csvStateText (t : Task.t) : jsstring :=
  if Task.done t then str "Completada" else str "Activa".

(** The part of an exported line after the state column. *)
Definition csvRowTail (t : Task.t) : jsstring :=
  join [COMMA] (skipn 3 (App.csvRow t)).

End CsvVocabulary.

(** *** Statistics *)

(** A task completed at the instant [c] and created an hour before. *)
Definition completedTask (i : string) (c : Z) : Task.t :=
  Task.mk (str i) (str "tarea") true (Int (c - 3600000)) (Some (Int c)) None (Some []) None.

(** A number that is neither [NaN] nor negative: a zero, a finite number or
    an infinity with a clear sign bit. *)
Definition nonnegative (x : spec_float) : Prop :=
  match x with
  | S754_zero s | S754_infinity s | S754_finite s _ _ => s = false
  | S754_nan => False
  end.

Definition Nonneg (x : float) : Prop := nonnegative (Prim2SF x).

(** The formula of the score on the four counts. *)
Definition scoreFormula (completedTasks totalTasks recentCreatedCount recentCompletedCount : nat)
  : float :=
  let completionRate :=
    match totalTasks with
    | O => 0%float
    | _ => (ofNat completedTasks / ofNat totalTasks * 100)%float
    end in
  Math_min 100
    (Math_round (completionRate * 0.6
                 + Math_min (ofNat recentCreatedCount * 5) 30
                 + Math_min (ofNat recentCompletedCount * 10) 10))%float.

(** An instant within the seven days that end at [now]. *)
Definition inTrailingWeek (now : Z) (n : number) : bool :=
  match n with
  | Int z => (now - UserProfile.msPerWeek <? z) && (z <=? now)
  | NaN => false
  end.

(** An instant later than seven days before [now]. *)
Definition afterWeekStart (now : Z) (n : number) : bool :=
  match n with
  | Int z => now - UserProfile.msPerWeek <? z
  | NaN => false
  end.

Definition countWhere (f : Task.t -> bool) (tasks : list Task.t) : nat :=
  length (List.filter f tasks).

(** The score with the recent counts taken over the window that ends now. *)
Definition scoreOverTrailingWeek (now : Z) (tasks : list Task.t) : float :=
  scoreFormula (countWhere Task.done tasks) (length tasks)
    (countWhere (fun t => inTrailingWeek now (Task.createdAt t)) tasks)
    (countWhere (fun t => match Task.completedAt t with
                          | Some c => inTrailingWeek now c
                          | None => false
                          end) tasks).

(** The score with the recent counts taken over every instant later than
    seven days before now. *)
Definition scoreSinceWeekStart (now : Z) (tasks : list Task.t) : float :=
  scoreFormula (countWhere Task.done tasks) (length tasks)
    (countWhere (fun t => afterWeekStart now (Task.createdAt t)) tasks)
    (countWhere (fun t => match Task.completedAt t with
                          | Some c => truthy c && afterWeekStart now c
                          | None => false
                          end) tasks).

(** A task created an hour after the instant 1700000000000. *)
Definition futureDatedTask : Task.t :=
  Task.mk (str "k3x9q2ab") (str "Comprar pan") false (Int (1700000000000 + 3600000)) None
    None (Some []) None.

(** *** The visible tasks *)

(** A task whose creation instant is a number. *)
Definition dated (t : Task.t) : Prop := exists z, Task.createdAt t = Int z.

(** Latest creation first: no task comes before one that the comparator of
    [visibleTasks] puts in front of it. *)
Definition newestFirst (l : list Task.t) : Prop :=
  StronglySorted (fun a b => App.byCreation a b <= 0) l.

(** The condition of the state filter. *)
Definition passesFilter (f : Filter.t) (now : Z) (t : Task.t) : bool :=
  match f with
  | Filter.all => true
  | Filter.active => negb (Task.done t)
  | Filter.done => Task.done t
  | Filter.recent => gt (Task.createdAt t) (Int (now - 24 * 60 * 60 * 1000))
  | Filter.old => App.createdBefore (now - 7 * 24 * 60 * 60 * 1000) t
  end.

(** The four conditions of [visibleTasks] together. *)
Definition isVisible {P : Platform} (v : View.t) (now : Z) (selected : list jsstring)
  (t : Task.t) : bool :=
  passesFilter (View.filter v) now t
  && (negb (nonEmpty (View.searchQuery v))
      || includes (toLowerCase (View.searchQuery v)) (toLowerCase (Task.title t)))
  && (negb (nonEmpty (View.tagFilter v) && negb (bool_decide (View.tagFilter v = str "all")))
      || App.hasTag (View.tagFilter v) t)
  && (negb (0 <? length selected)%nat || App.hasSomeTagOf selected t).

(** The unfiltered view, in which [visibleTasks] sorts the array
    [state.tasks] itself: state filter all, no search text, tag filter empty
    or all, no tag selected. *)
Definition unfiltered (w : World) : Prop :=
  View.filter (view w) = Filter.all /\
  View.searchQuery (view w) = [] /\
  (View.tagFilter (view w) = [] \/ View.tagFilter (view w) = str "all") /\
  selectedTags w = [].


(** Two tasks, the first created before the second, a file that lists them
    in that order, and the page reached by importing the file while a tag is
    selected and then deselecting the tag: the view is unfiltered and the
    task array is not latest first. *)
Definition olderTask : Task.t :=
  Task.mk (str "a1") (str "Leer") false (Int 1000) None None (Some []) None.

Definition newerTask : Task.t :=
  Task.mk (str "b2") (str "Comprar pan") false (Int 2000) None None (Some []) None.

Definition unsortedFile : Json.file :=
  Json.mkFile (Some [App.jsonOfTask olderTask; App.jsonOfTask newerTask]) None None.

Definition unsortedWorld : World :=
  App.toggleTagSelection (str "Trabajo")
    (match App.importFromJSON (P := refPlatform) 1700000000000 unsortedFile true
             (App.toggleTagSelection (str "Trabajo") initialWorld) with
     | Some w => w
     | None => initialWorld
     end).

(** *** Export and import *)

(** A task whose dates [JSON.stringify] writes as numbers that the import
    reads back as they are: the creation instant is a number, and a
    completion instant, when there is one, is a number other than 0. *)
Definition jsonSafeTask (t : Task.t) : Prop :=
  dated t /\
  (Task.completedAt t = None \/ exists c, c <> 0 /\ Task.completedAt t = Some (Int c)).

Definition jsonSafeActivity (a : Activity.t) : Prop :=
  exists z, Activity.timestamp a = Int z.


(** *** Sample pages *)

(** A platform on which every text reads as the instant 1700003600000. *)
Definition fixedDatePlatform : Platform :=
  {| toLocaleString := toLocaleString (Platform := refPlatform);
     parseDate := fun _ => Int 1700003600000;
     random36 := random36 (Platform := refPlatform);
     toLowerCase := lowerLatin;
     toLowerCase_basicLatin := fun _ _ => eq_refl |}.

(** The reminder recorded in [remindedWorld], and the notification that its
    timer leaves in the feed when it fires at the instant 1700003600000. *)
Definition recordedReminder : ActiveReminder.t :=
  ActiveReminder.mk (str "t0") (str "Comprar pan") 1700003600000 1%N.

Definition firedWorld : World :=
  Notifications.fireTimer (P := refPlatform) 1700003600000 1%N remindedWorld.

Definition firedNotification : Notification.t :=
  Notification.mk (str "notif_0abcdefgh_1700003600000") NotificationType.reminder
    ([55357%N; 56596%N] ++ str " Recordatorio de Tarea")
    (str "Es hora de: Comprar pan") 1700003600000 false (Some (str "t0"))
    (Some [NotificationAction.mk (str "Ver tarea") (str "view_task")
             (Some ActionStyle.primary);
           NotificationAction.mk (str "Posponer 10 min") (str "snooze")
             (Some ActionStyle.secondary)]).

(** A page in which one tag is selected for the next task. *)
Definition taggedWorld : World := setSelectedTags [str "Trabajo"] initialWorld.


(** * Properties *)

(** ** The two bounded logs *)

Section LogFacts.
Context {P : Platform}.

(** The bounded prepend shared by the two logs. *)
Lemma capped_cons_shape {A : Type} (n : nat) (x : A) (l : list A) :
  (if (S n <? length (x :: l))%nat then slice0 (S n) (x :: l) else x :: l)
  = x :: firstn n l.
Proof.
  destruct (Nat.ltb_spec (S n) (length (x :: l))) as [H|H]; unfold slice0; simpl.
  - reflexivity.
  - simpl in H. rewrite firstn_all2 by lia. reflexivity.
Qed.

Lemma activities_addActivity now type taskId taskTitle details w :
  activities (App.addActivity now type taskId taskTitle details w)
  = Activity.mk (fst (App.uid w)) type taskId taskTitle (Int now) details
      :: firstn 99 (activities w).
Proof.
  unfold App.addActivity, App.uid. cbn [fst snd].
  unfold setActivities at 1. cbn [activities].
  exact (capped_cons_shape 99 _ _).
Qed.

Lemma notifications_addNotification n w :
  notifications (Notifications.addNotification n w) = n :: firstn 49 (notifications w).
Proof.
  unfold Notifications.addNotification, setNotifications. cbn [notifications].
  exact (capped_cons_shape 49 _ _).
Qed.

(** A list of [S n] elements is its first [n] elements and its last one. *)
Lemma firstn_snoc {A : Type} (n : nat) (l : list A) :
  length l = S n -> exists o, l !! n = Some o /\ l = firstn n l ++ [o].
Proof.
  intros Hl. destruct (l !! n) as [o|] eqn:Ho.
  - exists o. split; [reflexivity|].
    rewrite <- (firstn_skipn n l) at 1. f_equal.
    apply list_eq. intros [|i]; rewrite lookup_drop; simpl.
    + rewrite Nat.add_0_r. exact Ho.
    + rewrite lookup_nil. apply lookup_ge_None. lia.
  - apply lookup_ge_None in Ho. lia.
Qed.

Lemma lookup_cons_firstn {A : Type} (n : nat) (x : A) (l : list A) (i : nat) :
  (x :: firstn n l) !! S i = if decide (i < n)%nat then l !! i else None.
Proof.
  simpl. destruct (decide (i < n)%nat).
  - apply lookup_take_lt. assumption.
  - apply lookup_take_ge. lia.
Qed.

(** C7: after any sequence of [addActivity] calls and one more call, the
    Activity Log holds at most 100 entries and the entry just added is at
    index 0.  When the log held 100 entries before the call, the new log is
    the new entry followed by the entries 0 to 98 of the old one: it still
    holds 100 entries, the old entry of index 99 (the oldest) has no index
    in it, and when the identifiers of the entries are pairwise different
    the oldest entry does not occur in it at all. *)
Theorem activity_log_never_exceeds_100 :
  forall (calls : list ActivityCall.t) (c : ActivityCall.t) (w : World),
    let w1 := addActivities calls w in
    let w2 := callAddActivity w1 c in
    let entry := Activity.mk (fst (App.uid w1)) (ActivityCall.type c) (ActivityCall.taskId c)
                   (ActivityCall.taskTitle c) (Int (ActivityCall.now c))
                   (ActivityCall.details c) in
    (length (activities w2) <= 100)%nat /\
    activities w2 !! 0%nat = Some entry /\
    (length (activities w1) = 100%nat ->
     exists oldest,
       activities w1 !! 99%nat = Some oldest /\
       activities w1 = firstn 99 (activities w1) ++ [oldest] /\
       activities w2 = entry :: firstn 99 (activities w1) /\
       length (activities w2) = 100%nat /\
       (forall i, activities w2 !! S i
                  = if decide (i < 99)%nat then activities w1 !! i else None) /\
       (List.NoDup (map Activity.id (entry :: activities w1)) ->
        ~ In oldest (activities w2))).
Proof.
  intros calls c w w1 w2 entry.
  assert (Hw2 : activities w2 = entry :: firstn 99 (activities w1))
    by apply activities_addActivity.
  split; [|split].
  - rewrite Hw2. simpl. rewrite length_firstn. lia.
  - rewrite Hw2. reflexivity.
  - intros Hlen. destruct (firstn_snoc 99 (activities w1) Hlen) as (o & Ho & Hsplit).
    exists o. split; [exact Ho|]. split; [exact Hsplit|]. split; [exact Hw2|].
    split; [|split].
    + rewrite Hw2. simpl. rewrite length_firstn. lia.
    + intros i. rewrite Hw2. apply lookup_cons_firstn.
    + intros Hnd Hin. rewrite Hw2 in Hin. rewrite Hsplit in Hnd.
      change (entry :: firstn 99 (activities w1) ++ [o])
        with ((entry :: firstn 99 (activities w1)) ++ [o]) in Hnd.
      rewrite map_app in Hnd. apply (proj2 (NoDup_ListNoDup _)) in Hnd.
      apply NoDup_app in Hnd. destruct Hnd as (_ & Hdisj & _).
      apply (Hdisj (Activity.id o)).
      * apply list_elem_of_In. apply in_map. exact Hin.
      * simpl. left.
Qed.

(** C8: after any sequence of [addNotification] calls and one more call,
    the Notification Feed holds at most 50 entries; the call puts the new
    notification at index 0 and keeps the first 50 entries of the extended
    list, so the old entries move up by one index and those that would reach
    index 50 (the oldest) are dropped; a feed of less than 50 entries is
    only extended. *)
Theorem notification_feed_never_exceeds_50 :
  forall (ns : list Notification.t) (n : Notification.t) (w : World),
    let w1 := addNotifications ns w in
    let w2 := Notifications.addNotification n w1 in
    (length (notifications w2) <= 50)%nat /\
    notifications w2 !! 0%nat = Some n /\
    notifications w2 = firstn 50 (n :: notifications w1) /\
    (forall i, notifications w2 !! S i
               = if decide (i < 49)%nat then notifications w1 !! i else None) /\
    ((length (notifications w1) < 50)%nat -> notifications w2 = n :: notifications w1).
Proof.
  intros ns n w w1 w2.
  assert (Hw2 : notifications w2 = n :: firstn 49 (notifications w1))
    by apply notifications_addNotification.
  rewrite Hw2. repeat split.
  - simpl. rewrite length_firstn. lia.
  - intros i. apply lookup_cons_firstn.
  - intros Hlt. rewrite firstn_all2 by lia. reflexivity.
Qed.

End LogFacts.

(** ** The reminder scheduler *)

Section ReminderFacts.
Context {P : Platform}.

Lemma scheduleReminder_past now taskId taskTitle datetime w :
  datetime <= now ->
  Notifications.scheduleReminder now taskId taskTitle datetime w
  = (false, show pastDateError w).
Proof.
  intros Hpast. unfold Notifications.scheduleReminder.
  destruct (Z.leb_spec (datetime - now) 0) as [_|H]; [reflexivity|lia].
Qed.

(** C5: when the target instant is not after [now], [scheduleReminder]
    returns [false], shows the error about the date, and leaves the page as
    it was otherwise: the recorded reminders and the pending timers are the
    same, in particular the reminder recorded for that task. *)
Theorem scheduleReminder_past_fails :
  forall (now : Z) (taskId taskTitle : jsstring) (datetime : Z) (w : World),
    datetime <= now ->
    let r := Notifications.scheduleReminder now taskId taskTitle datetime w in
    fst r = false /\
    snd r = show pastDateError w /\
    shown (snd r) = shown w ++ [pastDateError] /\
    activeReminders (snd r) = activeReminders w /\
    timers (snd r) = timers w /\
    activeReminders (snd r) !! taskId = activeReminders w !! taskId.
Proof.
  intros now taskId taskTitle datetime w Hpast r. subst r.
  rewrite (scheduleReminder_past now taskId taskTitle datetime w Hpast).
  repeat split.
Qed.

Lemma timersRecorded_atMostOne w : timersRecorded w -> atMostOneTimerPerTask w.
Proof.
  intros [HI _] h1 h2 t1 t2 H1 H2 Heq.
  destruct (HI _ _ H1) as (_ & r1 & Hr1 & <-).
  destruct (HI _ _ H2) as (_ & r2 & Hr2 & <-).
  rewrite Heq in Hr1. congruence.
Qed.

Lemma timersRecorded_initial : timersRecorded initialWorld.
Proof.
  split; intros h t H; cbn in H; rewrite lookup_empty in H; discriminate.
Qed.

(** Only the three reminder fields matter. *)
Lemma timersRecorded_ext w w' :
  timers w' = timers w -> activeReminders w' = activeReminders w ->
  nextTimeoutId w' = nextTimeoutId w -> timersRecorded w -> timersRecorded w'.
Proof. unfold timersRecorded. intros -> -> ->. auto. Qed.

Lemma cancelReminder_fields taskId w :
  nextTimeoutId (Notifications.cancelReminder taskId w) = nextTimeoutId w /\
  activeReminders (Notifications.cancelReminder taskId w)
  = base.delete taskId (activeReminders w) /\
  timers (Notifications.cancelReminder taskId w)
  = match activeReminders w !! taskId with
    | Some r => base.delete (ActiveReminder.timeoutId r) (timers w)
    | None => timers w
    end /\
  shown (Notifications.cancelReminder taskId w) = shown w /\
  notifications (Notifications.cancelReminder taskId w) = notifications w /\
  tasks (Notifications.cancelReminder taskId w) = tasks w /\
  activities (Notifications.cancelReminder taskId w) = activities w.
Proof.
  unfold Notifications.cancelReminder.
  destruct (activeReminders w !! taskId) as [r|] eqn:Hr; cbn; repeat split.
  symmetry. apply delete_id. exact Hr.
Qed.

(** A timer that survives [cancelReminder] was pending before and belongs
    to another task. *)
Lemma cancelReminder_timer taskId w h t :
  timersRecorded w ->
  timers (Notifications.cancelReminder taskId w) !! h = Some t ->
  timers w !! h = Some t /\ Timer.taskId t <> taskId.
Proof.
  intros [HI _] Ht.
  destruct (cancelReminder_fields taskId w) as (_ & _ & Htm & _). rewrite Htm in Ht.
  destruct (activeReminders w !! taskId) as [r|] eqn:Hr.
  - apply lookup_delete_Some in Ht. destruct Ht as [Hne Ht]. split; [exact Ht|].
    intros Heq. destruct (HI _ _ Ht) as (_ & r' & Hr' & Hh).
    rewrite Heq, Hr in Hr'. congruence.
  - split; [exact Ht|]. intros Heq. destruct (HI _ _ Ht) as (_ & r' & Hr' & _).
    rewrite Heq, Hr in Hr'. discriminate.
Qed.

Lemma cancelReminder_recorded taskId w :
  timersRecorded w -> timersRecorded (Notifications.cancelReminder taskId w).
Proof.
  intros HI. pose proof HI as [HI1 HI2].
  destruct (cancelReminder_fields taskId w) as (Hn & Ha & Htm & _).
  split.
  - intros h t Ht. destruct (cancelReminder_timer taskId w h t HI Ht) as [Hold Hne].
    destruct (HI1 _ _ Hold) as (Hlt & r & Hr & Hh).
    rewrite Hn, Ha. split; [exact Hlt|]. exists r. split; [|exact Hh].
    rewrite lookup_delete_ne; [exact Hr|]. intros Heq. apply Hne. symmetry. exact Heq.
  - intros i r Hr. rewrite Ha in Hr. apply lookup_delete_Some in Hr.
    destruct Hr as [Hne Hr]. destruct (HI2 _ _ Hr) as (t & Ht & Hid).
    exists t. split; [|exact Hid]. rewrite Htm.
    destruct (activeReminders w !! taskId) as [r0|] eqn:Hr0; [|exact Ht].
    rewrite lookup_delete_ne; [exact Ht|].
    intros Heq. destruct (HI2 _ _ Hr0) as (t0 & Ht0 & Hid0).
    rewrite Heq in Ht0. congruence.
Qed.

Lemma scheduleReminder_future now taskId taskTitle datetime w :
  now < datetime ->
  let w' := snd (Notifications.scheduleReminder now taskId taskTitle datetime w) in
  let wc := Notifications.cancelReminder taskId w in
  fst (Notifications.scheduleReminder now taskId taskTitle datetime w) = true /\
  timers w' = <[nextTimeoutId w := Timer.mk taskId taskTitle datetime]> (timers wc) /\
  activeReminders w'
  = <[taskId := ActiveReminder.mk taskId taskTitle datetime (nextTimeoutId w)]>
      (activeReminders wc) /\
  nextTimeoutId w' = N.succ (nextTimeoutId w) /\
  tasks w' = tasks w /\ activities w' = activities w /\ notifications w' = notifications w.
Proof.
  intros Hfut w' wc. subst w' wc.
  destruct (cancelReminder_fields taskId w) as (Hn & Ha & Htm & Hs & Hno & Hta & Hac).
  unfold Notifications.scheduleReminder.
  destruct (Z.leb_spec (datetime - now) 0) as [H|_]; [lia|].
  unfold Notifications.setTimeout, show, setActiveReminders, setNextTimeoutId, setTimers.
  cbn [fst snd timers activeReminders nextTimeoutId tasks activities notifications].
  rewrite Hn, Hno, Hta, Hac.
  replace (now + (datetime - now)) with datetime by lia.
  repeat split.
Qed.

End ReminderFacts.

Section ReminderInvariant.
Context {P : Platform}.

Lemma scheduleReminder_recorded now taskId taskTitle datetime w :
  timersRecorded w ->
  timersRecorded (snd (Notifications.scheduleReminder now taskId taskTitle datetime w)).
Proof.
  intros HI. destruct (Z_lt_le_dec now datetime) as [Hfut|Hpast].
  - destruct (scheduleReminder_future now taskId taskTitle datetime w Hfut)
      as (_ & Htm & Ha & Hn & _).
    pose proof (cancelReminder_recorded taskId w HI) as [HIc1 HIc2].
    destruct (cancelReminder_fields taskId w) as (Hnc & _).
    split.
    + intros h t Ht. rewrite Hn, Ha. rewrite Htm in Ht.
      apply lookup_insert_Some in Ht. destruct Ht as [[<- <-]|[Hne Ht]].
      * split; [lia|]. eexists. rewrite lookup_insert_eq. split; reflexivity.
      * destruct (HIc1 _ _ Ht) as (Hlt & r & Hr & Hh). rewrite Hnc in Hlt.
        split; [lia|]. exists r. split; [|exact Hh].
        rewrite lookup_insert_ne; [exact Hr|].
        intros Heq. destruct (cancelReminder_timer taskId w h t HI Ht) as [_ Hid].
        apply Hid. symmetry. exact Heq.
    + intros i r Hr. rewrite Ha in Hr. rewrite Htm.
      apply lookup_insert_Some in Hr. destruct Hr as [[<- <-]|[Hne Hr]].
      * eexists. rewrite lookup_insert_eq. split; reflexivity.
      * destruct (HIc2 _ _ Hr) as (t & Ht & Hid). exists t. split; [|exact Hid].
        rewrite lookup_insert_ne; [exact Ht|].
        destruct (HIc1 _ _ Ht) as (Hlt & _). rewrite Hnc in Hlt. lia.
  - rewrite (scheduleReminder_past now taskId taskTitle datetime w Hpast).
    revert HI. apply timersRecorded_ext; reflexivity.
Qed.

Lemma snoozeReminder_recorded now taskId taskTitle minutes w :
  timersRecorded w ->
  timersRecorded (snd (Notifications.snoozeReminder now taskId taskTitle minutes w)).
Proof.
  intros HI. unfold Notifications.snoozeReminder.
  apply scheduleReminder_recorded. revert HI. apply timersRecorded_ext; reflexivity.
Qed.

Lemma fireTimer_recorded now h w :
  timersRecorded w -> timersRecorded (Notifications.fireTimer now h w).
Proof.
  intros HI. pose proof HI as [HI1 HI2]. unfold Notifications.fireTimer.
  destruct (timers w !! h) as [t|] eqn:Hh; [|exact HI].
  split.
  - intros h' t' Ht'. cbn in Ht'. cbn.
    apply lookup_delete_Some in Ht'. destruct Ht' as [Hne Ht'].
    destruct (HI1 _ _ Ht') as (Hlt & r' & Hr' & Hh').
    split; [exact Hlt|]. exists r'. split; [|exact Hh'].
    rewrite lookup_delete_ne; [exact Hr'|].
    intros Heq. destruct (HI1 _ _ Hh) as (_ & r & Hr & Hhr).
    rewrite Heq in Hr. congruence.
  - intros i r Hr. cbn in Hr. cbn.
    apply lookup_delete_Some in Hr. destruct Hr as [Hne Hr].
    destruct (HI2 _ _ Hr) as (t' & Ht' & Hid). exists t'. split; [|exact Hid].
    rewrite lookup_delete_ne; [exact Ht'|].
    intros Heq. rewrite <- Heq in Ht'. congruence.
Qed.

Lemma reminderRun_recorded calls w :
  timersRecorded w -> timersRecorded (reminderRun calls w).
Proof.
  revert w. induction calls as [|c calls IH]; intros w HI; [exact HI|].
  simpl. apply IH. destruct c; simpl.
  - apply scheduleReminder_recorded, HI.
  - apply cancelReminder_recorded, HI.
  - apply snoozeReminder_recorded, HI.
  - apply fireTimer_recorded, HI.
Qed.

(** After a successful [scheduleReminder] the new timer is the only pending
    one of its task, and the timer recorded before is no longer pending. *)
Lemma scheduleReminder_replaces now taskId taskTitle datetime w :
  timersRecorded w -> now < datetime ->
  let w' := snd (Notifications.scheduleReminder now taskId taskTitle datetime w) in
  let h := nextTimeoutId w in
  activeReminders w' !! taskId = Some (ActiveReminder.mk taskId taskTitle datetime h) /\
  timers w' !! h = Some (Timer.mk taskId taskTitle datetime) /\
  (forall h' t, timers w' !! h' = Some t -> Timer.taskId t = taskId -> h' = h) /\
  (forall first, activeReminders w !! taskId = Some first ->
                 timers w' !! ActiveReminder.timeoutId first = None).
Proof.
  intros HI Hfut w' h. subst w' h. pose proof HI as [HI1 HI2].
  destruct (scheduleReminder_future now taskId taskTitle datetime w Hfut)
    as (Hok & Htm & Ha & Hn & _).
  pose proof (scheduleReminder_recorded now taskId taskTitle datetime w HI) as [HI1' _].
  destruct (cancelReminder_fields taskId w) as (_ & _ & Htc & _).
  rewrite Ha, Htm, !lookup_insert_eq.
  split; [reflexivity|]. split; [reflexivity|]. split.
  - intros h' t Ht Hid. destruct (HI1' h' t) as (_ & r & Hr & Hh).
    { rewrite Htm. exact Ht. }
    rewrite Hid, Ha, lookup_insert_eq in Hr. inversion Hr; subst r. symmetry. exact Hh.
  - intros first Hfirst. rewrite Htc, Hfirst.
    destruct (HI2 _ _ Hfirst) as (t & Ht & _). destruct (HI1 _ _ Ht) as (Hlt & _).
    rewrite lookup_insert_ne by lia. apply lookup_delete_eq.
Qed.

(** C6: in the page reached from the initial one by any sequence of
    [scheduleReminder], [cancelReminder] and [snoozeReminder] calls (and of
    timers firing in between), no two pending timers belong to the same
    task.  When a reminder is recorded for a task there, its timer is pending,
    and a successful [scheduleReminder] for the same task cancels that timer
    and records the new reminder, whose timer is then the only pending one of
    the task. *)
Theorem at_most_one_pending_timer_per_task :
  forall (calls : list ReminderCall),
    let w := reminderRun calls initialWorld in
    atMostOneTimerPerTask w /\
    forall (now : Z) (taskId taskTitle : jsstring) (datetime : Z) (first : ActiveReminder.t),
      activeReminders w !! taskId = Some first ->
      now < datetime ->
      let r := Notifications.scheduleReminder now taskId taskTitle datetime w in
      fst r = true /\
      (exists t, timers w !! ActiveReminder.timeoutId first = Some t /\
                 Timer.taskId t = taskId) /\
      timers (snd r) !! ActiveReminder.timeoutId first = None /\
      (exists h,
         activeReminders (snd r) !! taskId
         = Some (ActiveReminder.mk taskId taskTitle datetime h) /\
         timers (snd r) !! h = Some (Timer.mk taskId taskTitle datetime) /\
         forall h' t, timers (snd r) !! h' = Some t -> Timer.taskId t = taskId -> h' = h) /\
      atMostOneTimerPerTask (snd r).
Proof.
  intros calls w.
  assert (HI : timersRecorded w) by (apply reminderRun_recorded, timersRecorded_initial).
  split; [apply timersRecorded_atMostOne, HI|].
  intros now taskId taskTitle datetime first Hfirst Hfut r. subst r.
  destruct (scheduleReminder_future now taskId taskTitle datetime w Hfut) as (Hok & _).
  destruct (scheduleReminder_replaces now taskId taskTitle datetime w HI Hfut)
    as (Ha & Ht & Huniq & Hgone).
  split; [exact Hok|]. split; [|split; [|split]].
  - destruct HI as [_ HI2]. apply (HI2 _ _ Hfirst).
  - apply Hgone, Hfirst.
  - eexists. split; [exact Ha|]. split; [exact Ht|]. exact Huniq.
  - apply timersRecorded_atMostOne.
    apply scheduleReminder_recorded, HI.
Qed.

End ReminderInvariant.

(** ** The redrawing of the page *)

Section RedrawFacts.
Context {P : Platform}.

Lemma insertByCreation_perm a l : App.insertByCreation a l ≡ₚ a :: l.
Proof.
  induction l as [|b r IH]; simpl; [reflexivity|].
  destruct (App.byCreation a b <=? 0); [reflexivity|].
  rewrite IH. apply Permutation_swap.
Qed.

Lemma sortByCreation_perm l : App.sortByCreation l ≡ₚ l.
Proof.
  induction l as [|a l IH]; simpl; [reflexivity|].
  rewrite insertByCreation_perm, IH. reflexivity.
Qed.

(** The array that [visibleTasks] sorts is [state.tasks] itself only in the
    unfiltered view. *)
Lemma filteredTasks_own v now w :
  snd (App.filteredTasks v now w) = true ->
  fst (App.filteredTasks v now w) = tasks w /\
  View.filter v = Filter.all /\
  View.searchQuery v = [] /\
  (View.tagFilter v = [] \/ View.tagFilter v = str "all") /\
  selectedTags w = [].
Proof.
  unfold App.filteredTasks.
  destruct (selectedTags w) as [|s sl]; [|destruct (View.filter v), (nonEmpty (View.searchQuery v)),
    (nonEmpty (View.tagFilter v) && negb (bool_decide (View.tagFilter v = str "all")));
    discriminate].
  destruct (View.searchQuery v) as [|q ql];
    [|destruct (View.filter v),
        (nonEmpty (View.tagFilter v) && negb (bool_decide (View.tagFilter v = str "all")));
      discriminate].
  destruct (View.tagFilter v) as [|c cl] eqn:Htf.
  - destruct (View.filter v); cbn; try discriminate. intros _. repeat split. left. reflexivity.
  - destruct (decide (c :: cl = str "all")) as [He|Hne].
    + rewrite He. rewrite bool_decide_eq_true_2 by reflexivity.
      destruct (View.filter v); cbn; try discriminate. intros _. repeat split. right. reflexivity.
    + rewrite (bool_decide_eq_false_2 _ Hne).
      destruct (View.filter v); cbn; discriminate.
Qed.

Lemma filteredTasks_all v now w :
  View.filter v = Filter.all ->
  View.searchQuery v = [] ->
  View.tagFilter v = [] \/ View.tagFilter v = str "all" ->
  selectedTags w = [] ->
  App.filteredTasks v now w = (tasks w, true).
Proof.
  intros Hf Hq Ht Hs. unfold App.filteredTasks. rewrite Hf, Hq, Hs.
  destruct Ht as [-> | ->]; reflexivity.
Qed.

Lemma render_fields v now w :
  tasks (App.render v now w) ≡ₚ tasks w /\
  App.render v now w = setTasks (tasks (App.render v now w)) w.
Proof.
  unfold App.render, App.visibleTasks.
  pose proof (filteredTasks_own v now w) as Hown.
  destruct (App.filteredTasks v now w) as [f [|]]; cbn [fst snd] in *.
  - destruct (Hown eq_refl) as (-> & _). split; [apply sortByCreation_perm|].
    destruct w; reflexivity.
  - split; [reflexivity|]. destruct w; reflexivity.
Qed.

Lemma render_tasks_In v now w t : In t (tasks (App.render v now w)) <-> In t (tasks w).
Proof.
  destruct (render_fields v now w) as [Hp _]. split; intros H.
  - eapply Permutation_in; [exact Hp|exact H].
  - eapply Permutation_in; [symmetry; exact Hp|exact H].
Qed.

Lemma render_activities v now w : activities (App.render v now w) = activities w.
Proof. destruct (render_fields v now w) as [_ ->]. reflexivity. Qed.

Lemma render_activeReminders v now w :
  activeReminders (App.render v now w) = activeReminders w.
Proof. destruct (render_fields v now w) as [_ ->]. reflexivity. Qed.

Lemma render_timers v now w : timers (App.render v now w) = timers w.
Proof. destruct (render_fields v now w) as [_ ->]. reflexivity. Qed.

Lemma render_nextTimeoutId v now w : nextTimeoutId (App.render v now w) = nextTimeoutId w.
Proof. destruct (render_fields v now w) as [_ ->]. reflexivity. Qed.

Lemma render_notifications v now w :
  notifications (App.render v now w) = notifications w.
Proof. destruct (render_fields v now w) as [_ ->]. reflexivity. Qed.

Lemma render_shown v now w : shown (App.render v now w) = shown w.
Proof. destruct (render_fields v now w) as [_ ->]. reflexivity. Qed.

Lemma render_selectedTags v now w : selectedTags (App.render v now w) = selectedTags w.
Proof. destruct (render_fields v now w) as [_ ->]. reflexivity. Qed.

Lemma render_availableTags v now w :
  availableTags (App.render v now w) = availableTags w.
Proof. destruct (render_fields v now w) as [_ ->]. reflexivity. Qed.

Lemma render_draws v now w : draws (App.render v now w) = draws w.
Proof. destruct (render_fields v now w) as [_ ->]. reflexivity. Qed.

Lemma render_view v now w : view (App.render v now w) = view w.
Proof. destruct (render_fields v now w) as [_ ->]. reflexivity. Qed.

Lemma render_tasks_perm v now w : tasks (App.render v now w) ≡ₚ tasks w.
Proof. apply render_fields. Qed.

Lemma render_Forall (Q : Task.t -> Prop) v now w :
  Forall Q (tasks w) -> Forall Q (tasks (App.render v now w)).
Proof.
  rewrite !List.Forall_forall. intros H t Ht. apply H. apply render_tasks_In in Ht. exact Ht.
Qed.

Lemma show_render e v now w : show e (App.render v now w) = App.render v now (show e w).
Proof.
  unfold App.render, App.visibleTasks, App.filteredTasks.
  cbn [tasks selectedTags show].
  destruct (View.filter v), (nonEmpty (View.searchQuery v)),
    (nonEmpty (View.tagFilter v) && negb (bool_decide (View.tagFilter v = str "all"))),
    (0 <? length (selectedTags w))%nat; reflexivity.
Qed.

(** The redrawing changes nothing in a filtered view, nor when the array is
    latest first already. *)
Lemma render_filtered v now w :
  ~ (View.filter v = Filter.all /\ View.searchQuery v = [] /\
     (View.tagFilter v = [] \/ View.tagFilter v = str "all") /\ selectedTags w = []) ->
  App.render v now w = w.
Proof.
  intros Hne. unfold App.render, App.visibleTasks.
  pose proof (filteredTasks_own v now w) as Hown.
  destruct (App.filteredTasks v now w) as [f [|]]; cbn [fst snd] in *; [|reflexivity].
  destruct (Hown eq_refl) as (_ & Hf & Hq & Ht & Hs). exfalso. apply Hne. tauto.
Qed.

Lemma sortByCreation_id l : newestFirst l -> App.sortByCreation l = l.
Proof.
  intros Hs. induction Hs as [|a r Hs IH Ha]; simpl; [reflexivity|].
  rewrite IH. destruct r as [|b r']; [reflexivity|]. simpl.
  inversion Ha as [|? ? Hab _]; subst.
  destruct (Z.leb_spec (App.byCreation a b) 0); [reflexivity|lia].
Qed.

Lemma render_newestFirst v now w : newestFirst (tasks w) -> App.render v now w = w.
Proof.
  intros Hs. unfold App.render, App.visibleTasks.
  pose proof (filteredTasks_own v now w) as Hown.
  destruct (App.filteredTasks v now w) as [f [|]]; cbn [fst snd] in *; [|reflexivity].
  destruct (Hown eq_refl) as (-> & _). rewrite (sortByCreation_id _ Hs).
  destruct w; reflexivity.
Qed.

Lemma find_id_Some i l (t : Task.t) :
  find (fun x => bool_decide (Task.id x = i)) l = Some t -> In t l /\ Task.id t = i.
Proof.
  intros H. apply find_some in H. destruct H as [Hin Hb]. split; [exact Hin|].
  apply bool_decide_eq_true in Hb. exact Hb.
Qed.

Lemma find_id_None i (l : list Task.t) :
  find (fun x => bool_decide (Task.id x = i)) l = None <-> ~ In i (map Task.id l).
Proof.
  split.
  - intros H Hin. apply List.in_map_iff in Hin. destruct Hin as (t & Hid & Hin).
    pose proof (find_none _ _ H t Hin) as Hb. cbn in Hb.
    apply bool_decide_eq_false in Hb. contradiction.
  - intros Hnot. destruct (find _ l) as [t|] eqn:Hf; [|reflexivity].
    apply find_id_Some in Hf. destruct Hf as [Hin Hid]. exfalso. apply Hnot.
    apply List.in_map_iff. exists t. split; assumption.
Qed.

Lemma filter_all_true {A : Type} (f : A -> bool) (l : list A) :
  (forall x, In x l -> f x = true) -> List.filter f l = l.
Proof.
  induction l as [|a l IH]; intros H; simpl; [reflexivity|].
  rewrite (H a (or_introl eq_refl)). f_equal. apply IH. intros x Hx. apply H. right. exact Hx.
Qed.

Lemma find_id_In i (l : list Task.t) :
  In i (map Task.id l) -> exists t, find (fun x => bool_decide (Task.id x = i)) l = Some t.
Proof.
  intros Hin. destruct (find _ l) as [t|] eqn:Hf; [exists t; reflexivity|].
  apply find_id_None in Hf. contradiction.
Qed.

End RedrawFacts.

(** ** The order of the task array *)

Section OrderFacts.
Context {P : Platform}.

Lemma insertByCreation_sorted a l :
  dated a -> Forall dated l -> newestFirst l -> newestFirst (App.insertByCreation a l).
Proof.
  intros [x Hx] Hd Hs. induction Hs as [|b r Hs IH Hb]; simpl.
  - constructor; constructor.
  - inversion Hd as [|? ? [y Hy] Hdr]; subst.
    destruct (Z.leb_spec (App.byCreation a b) 0) as [Hle|Hgt].
    + constructor; [constructor; assumption|]. constructor; [exact Hle|].
      rewrite List.Forall_forall in *. intros c Hc. specialize (Hb c Hc).
      destruct (Hdr c Hc) as [z Hz]. unfold App.byCreation in *.
      rewrite Hx, ?Hy, ?Hz in *. lia.
    + constructor; [apply IH, Hdr|].
      rewrite List.Forall_forall in *. intros c Hc.
      eapply Permutation_in in Hc; [|apply insertByCreation_perm].
      destruct Hc as [<-|Hc]; [|apply Hb, Hc].
      unfold App.byCreation in *. rewrite Hx, Hy in *. lia.
Qed.

Lemma sortByCreation_sorted l : Forall dated l -> newestFirst (App.sortByCreation l).
Proof.
  intros Hd. induction Hd as [|a l Ha Hl IH]; simpl; [constructor|].
  apply insertByCreation_sorted; [exact Ha| |exact IH].
  rewrite List.Forall_forall in *. intros c Hc. apply Hl.
  eapply Permutation_in; [apply sortByCreation_perm|exact Hc].
Qed.

Lemma newestFirst_filter (f : Task.t -> bool) l :
  newestFirst l -> newestFirst (List.filter f l).
Proof.
  intros Hs. induction Hs as [|a r Hs IH Ha]; simpl; [constructor|].
  destruct (f a); [|exact IH]. constructor; [exact IH|].
  rewrite List.Forall_forall in *. intros x Hx. apply filter_In in Hx. apply Ha, Hx.
Qed.

Lemma newestFirst_map (f : Task.t -> Task.t) l :
  (forall t, Task.createdAt (f t) = Task.createdAt t) ->
  newestFirst l -> newestFirst (map f l).
Proof.
  intros Hf Hs. induction Hs as [|a r Hs IH Ha]; simpl; [constructor|].
  constructor; [exact IH|].
  rewrite List.Forall_forall in *. intros x Hx. apply List.in_map_iff in Hx.
  destruct Hx as (y & <- & Hy). specialize (Ha y Hy).
  unfold App.byCreation in *. rewrite !Hf. exact Ha.
Qed.

(** Whether the view is unfiltered depends on the view settings and on the
    selected tags only. *)
Lemma unfiltered_same w x :
  view x = view w -> selectedTags x = selectedTags w -> unfiltered x <-> unfiltered w.
Proof. unfold unfiltered. intros -> ->. reflexivity. Qed.

(** The page as the redrawing at the end of a handler leaves it. *)
Lemma redraw_same now w x :
  view x = view w -> selectedTags x = selectedTags w ->
  ~ unfiltered w \/ newestFirst (tasks x) ->
  App.render (view x) now x = x.
Proof.
  intros Hv Hs [Hf|Ho]; [|apply render_newestFirst, Ho].
  apply render_filtered. rewrite Hv, Hs. exact Hf.
Qed.

Lemma redraw_sorted now x :
  unfiltered x -> Forall dated (tasks x) ->
  tasks (App.render (view x) now x) = App.sortByCreation (tasks x) /\
  newestFirst (tasks (App.render (view x) now x)).
Proof.
  intros (Hf & Hq & Ht & Hs) Hd. unfold App.render, App.visibleTasks.
  rewrite (filteredTasks_all (view x) now x Hf Hq Ht Hs). cbn [fst snd tasks setTasks].
  split; [reflexivity|]. apply sortByCreation_sorted, Hd.
Qed.

(** After a redrawing the array is in order for the view: a second
    redrawing changes nothing. *)
Lemma redraw_settled now x :
  Forall dated (tasks x) ->
  ~ unfiltered (App.render (view x) now x)
  \/ newestFirst (tasks (App.render (view x) now x)).
Proof.
  intros Hd.
  assert (Hu : unfiltered (App.render (view x) now x) <-> unfiltered x).
  { apply unfiltered_same; [apply render_view|apply render_selectedTags]. }
  destruct (View.filter (view x)) eqn:Hf;
    try (left; rewrite Hu; unfold unfiltered; rewrite Hf; intros (H & _); discriminate H).
  destruct (View.searchQuery (view x)) as [|c q] eqn:Hq;
    [|left; rewrite Hu; unfold unfiltered; rewrite Hq; intros (_ & H & _); discriminate H].
  destruct (selectedTags x) as [|c q] eqn:Hs;
    [|left; rewrite Hu; unfold unfiltered; rewrite Hs; intros (_ & _ & _ & H); discriminate H].
  destruct (decide (View.tagFilter (view x) = [] \/ View.tagFilter (view x) = str "all"))
    as [Ht|Ht]; [|left; rewrite Hu; unfold unfiltered; tauto].
  right. apply redraw_sorted; [|exact Hd]. unfold unfiltered. tauto.
Qed.

End OrderFacts.

(** ** [toggleTask] *)

Section ToggleFacts.
Context {P : Platform}.

Lemma mapWorld_untouched {A : Type} (f : A -> World -> A * World) (l : list A) (w : World) :
  (forall x, In x l -> forall w', f x w' = (x, w')) ->
  App.mapWorld f l w = (l, w).
Proof.
  induction l as [|x r IH]; intros Hf; simpl.
  - reflexivity.
  - rewrite (Hf x (or_introl eq_refl)). rewrite IH; [reflexivity|].
    intros y Hy. apply Hf. right. exact Hy.
Qed.

Lemma mapWorld_app {A B : Type} (f : A -> World -> B * World) (l1 l2 : list A) (w : World) :
  App.mapWorld f (l1 ++ l2) w
  = (fst (App.mapWorld f l1 w) ++ fst (App.mapWorld f l2 (snd (App.mapWorld f l1 w))),
     snd (App.mapWorld f l2 (snd (App.mapWorld f l1 w)))).
Proof.
  revert w. induction l1 as [|x l1 IH]; intros w; simpl.
  - destruct (App.mapWorld f l2 w). reflexivity.
  - destruct (f x w) as [y w1]. rewrite IH.
    destruct (App.mapWorld f l1 w1) as [ys w2]. simpl.
    destruct (App.mapWorld f l2 w2). reflexivity.
Qed.

Lemma toggleOne_other now i t w :
  Task.id t <> i -> App.toggleOne now i t w = (t, w).
Proof.
  intros Hne. unfold App.toggleOne. rewrite bool_decide_eq_false_2 by exact Hne.
  reflexivity.
Qed.

Lemma setTasks_same w : setTasks (tasks w) w = w.
Proof. destruct w. reflexivity. Qed.

(** [toggleTask] with an identifier that no task has only redraws the
    page. *)
Lemma toggleTask_absent now i w :
  ~ In i (map Task.id (tasks w)) -> App.toggleTask now i w = App.render (view w) now w.
Proof.
  intros Hnot. unfold App.toggleTask. rewrite mapWorld_untouched.
  - rewrite setTasks_same. reflexivity.
  - intros x Hx w'. apply toggleOne_other. intros Heq. apply Hnot.
    rewrite <- Heq. apply in_map. exact Hx.
Qed.

(** C10, amended: when no task of the list has the identifier, [toggleTask]
    changes no task, adds no entry to the Activity Log and shows nothing (no
    error either).  All it does is the redrawing of the page that ends it:
    the tasks are the same ones, up to their order, and nothing else of the
    page changes; the page is left exactly as it was when the view is
    filtered and when the task array is latest first already. *)
Theorem toggleTask_unknown_id :
  forall (now : Z) (i : jsstring) (w : World),
    ~ In i (map Task.id (tasks w)) ->
    App.toggleTask now i w = App.render (view w) now w /\
    tasks (App.toggleTask now i w) ≡ₚ tasks w /\
    App.toggleTask now i w = setTasks (tasks (App.toggleTask now i w)) w /\
    activities (App.toggleTask now i w) = activities w /\
    shown (App.toggleTask now i w) = shown w /\
    (~ unfiltered w -> App.toggleTask now i w = w) /\
    (newestFirst (tasks w) -> App.toggleTask now i w = w).
Proof.
  intros now i w Hnot. rewrite (toggleTask_absent now i w Hnot).
  destruct (render_fields (view w) now w) as [Hp Hr].
  split; [reflexivity|]. split; [exact Hp|]. split; [exact Hr|].
  split; [apply render_activities|]. split; [apply render_shown|].
  split; [apply render_filtered|apply render_newestFirst].
Qed.

Lemma addActivity_frame now type taskId taskTitle details w :
  timers (App.addActivity now type taskId taskTitle details w) = timers w /\
  activeReminders (App.addActivity now type taskId taskTitle details w) = activeReminders w /\
  nextTimeoutId (App.addActivity now type taskId taskTitle details w) = nextTimeoutId w /\
  tasks (App.addActivity now type taskId taskTitle details w) = tasks w /\
  notifications (App.addActivity now type taskId taskTitle details w) = notifications w.
Proof. repeat split. Qed.

Lemma createTaskCompletedNotification_frame now taskTitle w :
  timers (Notifications.createTaskCompletedNotification now taskTitle w) = timers w /\
  activeReminders (Notifications.createTaskCompletedNotification now taskTitle w)
  = activeReminders w /\
  nextTimeoutId (Notifications.createTaskCompletedNotification now taskTitle w)
  = nextTimeoutId w /\
  tasks (Notifications.createTaskCompletedNotification now taskTitle w) = tasks w.
Proof. repeat split. Qed.

(** [toggleTask] on a list in which one task has the identifier. *)
Lemma toggleTask_single now before t after w :
  tasks w = before ++ t :: after ->
  ~ In (Task.id t) (map Task.id (before ++ after)) ->
  App.toggleTask now (Task.id t) w
  = App.render (view (snd (App.toggleOne now (Task.id t) t w))) now
      (setTasks (before ++ fst (App.toggleOne now (Task.id t) t w) :: after)
         (snd (App.toggleOne now (Task.id t) t w))).
Proof.
  intros Htasks Hnot. unfold App.toggleTask. rewrite Htasks.
  assert (Hother : forall l w0, (forall x, In x l -> In x (before ++ after)) ->
                     App.mapWorld (App.toggleOne now (Task.id t)) l w0 = (l, w0)).
  { intros l w0 Hl. apply mapWorld_untouched. intros x Hx w'.
    apply toggleOne_other. intros Heq. apply Hnot. rewrite <- Heq.
    apply in_map. apply Hl. exact Hx. }
  rewrite mapWorld_app. rewrite Hother by (intros x Hx; apply in_or_app; left; exact Hx).
  cbn [fst snd]. simpl.
  destruct (App.toggleOne now (Task.id t) t w) as [t' w2].
  rewrite Hother by (intros x Hx; apply in_or_app; right; exact Hx).
  reflexivity.
Qed.

(** C9: for a task with a reminder whose identifier no other task of the
    list has, [toggleTask] (a) on the task not yet completed leaves no
    reminder recorded for it and the timer that was recorded for it is no
    longer pending; (b) on the completed task whose reminder instant is after
    [now] records a reminder for that instant with a pending timer; (c) on
    the completed task whose reminder instant is not after [now] leaves the
    recorded reminders and the pending timers as they were. *)
Theorem toggleTask_reminder :
  forall (now : Z) (before after : list Task.t) (t : Task.t) (r : Reminder.t) (w : World),
    tasks w = before ++ t :: after ->
    ~ In (Task.id t) (map Task.id (before ++ after)) ->
    Task.reminder t = Some r ->
    let w' := App.toggleTask now (Task.id t) w in
    (Task.done t = false ->
       activeReminders w' !! Task.id t = None /\
       forall pending, activeReminders w !! Task.id t = Some pending ->
                       timers w' !! ActiveReminder.timeoutId pending = None) /\
    (Task.done t = true -> now < Reminder.datetime r ->
       exists h,
         activeReminders w' !! Task.id t
         = Some (ActiveReminder.mk (Task.id t) (Task.title t) (Reminder.datetime r) h) /\
         timers w' !! h = Some (Timer.mk (Task.id t) (Task.title t) (Reminder.datetime r))) /\
    (Task.done t = true -> Reminder.datetime r <= now ->
       activeReminders w' = activeReminders w /\ timers w' = timers w).
Proof.
  intros now before after t r w Htasks Hnot Hrem w'. subst w'.
  rewrite (toggleTask_single now before t after w Htasks Hnot).
  rewrite !render_activeReminders, !render_timers.
  unfold App.toggleOne. rewrite bool_decide_eq_true_2 by reflexivity. rewrite Hrem.
  split; [|split].
  - intros Hdone. rewrite Hdone. cbn [negb fst snd].
    set (w1 := App.addActivity _ _ _ _ _ w).
    change (activeReminders (setTasks ?l ?x)) with (activeReminders x).
    change (timers (setTasks ?l ?x)) with (timers x).
    destruct (createTaskCompletedNotification_frame now (Task.title t)
                (Notifications.cancelTaskReminder (Task.id t) w1)) as (Ht & Ha & _).
    rewrite Ht, Ha. unfold Notifications.cancelTaskReminder.
    destruct (cancelReminder_fields (Task.id t) w1) as (_ & Hac & Htc & _).
    rewrite Hac, Htc. split; [apply lookup_delete_eq|].
    intros pending Hp.
    change (activeReminders w1) with (activeReminders w). rewrite Hp.
    apply lookup_delete_eq.
  - intros Hdone Hfut. rewrite Hdone. cbn [negb fst snd].
    destruct (Z.ltb_spec now (Reminder.datetime r)) as [_|Hle]; [|lia].
    set (w1 := App.addActivity _ _ _ _ _ w).
    change (activeReminders (setTasks ?l ?x)) with (activeReminders x).
    change (timers (setTasks ?l ?x)) with (timers x).
    unfold Notifications.scheduleTaskReminder.
    destruct (scheduleReminder_future now (Task.id t) (Task.title t) (Reminder.datetime r)
                w1 Hfut) as (_ & Htm & Ha & _).
    rewrite Htm, Ha. exists (nextTimeoutId w1). rewrite !lookup_insert_eq.
    split; reflexivity.
  - intros Hdone Hpast. rewrite Hdone. cbn [negb fst snd].
    destruct (Z.ltb_spec now (Reminder.datetime r)) as [Hlt|_]; [lia|].
    split; reflexivity.
Qed.

End ToggleFacts.

(** C10 as stated fails: on a page whose task array is not latest first,
    [toggleTask] with an identifier that no task has changes the state, since
    the redrawing that ends it sorts the array. *)
Lemma toggleTask_unknown_id_reorders :
  ~ In (str "zz") (map Task.id (tasks unsortedWorld)) /\
  tasks unsortedWorld = [olderTask; newerTask] /\
  tasks (App.toggleTask (P := refPlatform) 1700000060000 (str "zz") unsortedWorld)
  = [newerTask; olderTask] /\
  App.toggleTask (P := refPlatform) 1700000060000 (str "zz") unsortedWorld <> unsortedWorld.
Proof.
  assert (Ht : tasks (App.toggleTask (P := refPlatform) 1700000060000 (str "zz")
                        unsortedWorld) = [newerTask; olderTask])
    by (vm_compute; reflexivity).
  split; [vm_compute; intuition discriminate|].
  split; [vm_compute; reflexivity|]. split; [exact Ht|].
  intros Heq. rewrite Heq in Ht. vm_compute in Ht. discriminate Ht.
Qed.

(** ** Completion flag and completion instant *)

Section CompletionFacts.
Context {P : Platform}.

Lemma scheduleReminder_tasks now taskId taskTitle datetime w :
  tasks (snd (Notifications.scheduleReminder now taskId taskTitle datetime w)) = tasks w.
Proof.
  destruct (Z_lt_le_dec now datetime) as [Hfut|Hpast].
  - apply (scheduleReminder_future now taskId taskTitle datetime w Hfut).
  - rewrite (scheduleReminder_past now taskId taskTitle datetime w Hpast). reflexivity.
Qed.

(** [addTask] changes nothing or adds a task that is not completed. *)
Lemma addTask_tasks now later title dateValue timeValue w :
  tasks (App.addTask now later title dateValue timeValue w) = tasks w \/
  exists i s tg rm,
    tasks (App.addTask now later title dateValue timeValue w)
    ≡ₚ Task.mk i s false (Int now) None None tg rm :: tasks w.
Proof.
  unfold App.addTask. destruct (negb (nonEmpty (trim title))); [left; reflexivity|].
  right. unfold App.uid. cbn [fst snd].
  set (rd := match App.getReminderDatetime now dateValue timeValue with
             | Some z => if z =? 0 then None else Some z
             | None => None
             end).
  eexists _, _, _, _.
  rewrite render_tasks_perm.
  rewrite (proj1 (proj2 (proj2 (proj2 (addActivity_frame _ _ _ _ _ _))))).
  cbn [tasks setSelectedTags setTasks].
  replace (tasks match rd with
                 | Some z =>
                     snd (Notifications.scheduleTaskReminder later
                            (sliceStr 2 10 (random36 (draws w))) (trim title) z
                            (setDraws (S (draws w)) w))
                 | None => setDraws (S (draws w)) w
                 end) with (tasks w); [reflexivity|].
  destruct rd; [|reflexivity].
  unfold Notifications.scheduleTaskReminder. rewrite scheduleReminder_tasks. reflexivity.
Qed.

Lemma toggleOne_invariant now i t w :
  completionInvariant t -> completionInvariant (fst (App.toggleOne now i t w)).
Proof.
  intros Ht. unfold App.toggleOne. destruct (bool_decide (Task.id t = i)); [|exact Ht].
  cbn [fst]. unfold completionInvariant. cbn.
  destruct (Task.done t); cbn; split; intros H; try discriminate; try reflexivity.
  - destruct H as [? H]. discriminate.
  - eexists; reflexivity.
Qed.

Lemma mapWorld_toggle_invariant now i l w :
  Forall completionInvariant l ->
  Forall completionInvariant (fst (App.mapWorld (App.toggleOne now i) l w)).
Proof.
  revert w. induction l as [|t l IH]; intros w Hl; simpl; [constructor|].
  inversion Hl as [|? ? Ht Hl']; subst.
  pose proof (toggleOne_invariant now i t w Ht) as Ht'.
  destruct (App.toggleOne now i t w) as [t' w1].
  specialize (IH w1 Hl').
  destruct (App.mapWorld (App.toggleOne now i) l w1) as [ts w2].
  constructor; assumption.
Qed.

Lemma addTask_invariant now later title dateValue timeValue w :
  Forall completionInvariant (tasks w) ->
  Forall completionInvariant (tasks (App.addTask now later title dateValue timeValue w)).
Proof.
  intros Hw. destruct (addTask_tasks now later title dateValue timeValue w)
    as [->|(i & s & tg & rm & Hp)]; [exact Hw|].
  eapply Permutation_Forall; [symmetry; exact Hp|].
  constructor; [|exact Hw]. unfold completionInvariant. cbn.
  split; intros H; [destruct H as [? H]|]; discriminate.
Qed.

Lemma toggleTask_invariant now i w :
  Forall completionInvariant (tasks w) ->
  Forall completionInvariant (tasks (App.toggleTask now i w)).
Proof.
  intros Hw. unfold App.toggleTask.
  pose proof (mapWorld_toggle_invariant now i (tasks w) w Hw) as H.
  destruct (App.mapWorld (App.toggleOne now i) (tasks w) w) as [ts w1].
  apply render_Forall. exact H.
Qed.

Lemma editTaskTitle_invariant now i answer w :
  Forall completionInvariant (tasks w) ->
  Forall completionInvariant (tasks (App.editTaskTitle now i answer w)).
Proof.
  intros Hw. unfold App.editTaskTitle.
  destruct (find _ (tasks w)); [|exact Hw].
  destruct answer as [value|]; [|exact Hw].
  destruct (negb (nonEmpty value)); [exact Hw|].
  destruct (negb (nonEmpty (trim value))); [exact Hw|].
  cbn [tasks show]. apply render_Forall. cbn [tasks setTasks].
  rewrite (proj1 (proj2 (proj2 (proj2 (addActivity_frame _ _ _ _ _ _))))).
  apply List.Forall_forall. intros x Hx. apply List.in_map_iff in Hx.
  destruct Hx as (y & <- & Hy). rewrite List.Forall_forall in Hw. specialize (Hw y Hy).
  destruct (bool_decide (Task.id y = i)); exact Hw.
Qed.

(** C3, amended: when every task of the repository has a completion instant
    exactly when it is completed (as in the empty repository), this still
    holds after any sequence of [addTask], [toggleTask] and [editTaskTitle]
    calls.  ([importFromCSV] and [importFromJSON] are left out: they read
    the flag and the instant from separate fields of the file.) *)
Theorem completedAt_iff_done_preserved :
  forall (calls : list TaskCall) (w : World),
    Forall completionInvariant (tasks w) ->
    Forall completionInvariant (tasks (taskRun calls w)).
Proof.
  intros calls. induction calls as [|c calls IH]; intros w Hw; [exact Hw|].
  simpl. apply IH. destruct c; simpl.
  - apply addTask_invariant, Hw.
  - apply toggleTask_invariant, Hw.
  - apply editTaskTitle_invariant, Hw.
Qed.

End CompletionFacts.

(** C3 as stated fails: [importFromCSV] on a file of three columns with a
    completed task gives a task that is completed and has no completion
    instant. *)
Lemma importFromCSV_breaks_completion_invariant :
  exists w t,
    App.importFromCSV (P := refPlatform) 1700000000000 csvDoneWithoutDate true initialWorld
    = Some w /\
    tasks w = [t] /\ Task.done t = true /\ Task.completedAt t = None /\
    ~ Forall completionInvariant (tasks w).
Proof.
  eexists _, _. split; [vm_compute; reflexivity|].
  split; [reflexivity|]. split; [reflexivity|]. split; [reflexivity|].
  intros H. inversion H as [|? ? Ht _]; subst. destruct Ht as [_ Ht].
  destruct (Ht eq_refl) as [c Hc]. discriminate.
Qed.

(** The same for [importFromJSON], on a file whose task is completed and
    has no completion instant. *)
Lemma importFromJSON_breaks_completion_invariant :
  exists w t,
    App.importFromJSON (P := refPlatform) 1700000000000 jsonDoneWithoutDate true initialWorld
    = Some w /\
    tasks w = [t] /\ Task.done t = true /\ Task.completedAt t = None.
Proof.
  eexists _, _. split; [vm_compute; reflexivity|]. repeat split.
Qed.

(** ** CSV export and import of a title with quotes *)

Section StringFacts.

Lemma split_nonempty sep s : split sep s <> [].
Proof.
  destruct s as [|c s]; simpl; [discriminate|].
  destruct (c =? sep)%N; [discriminate|]. destruct (split sep s); discriminate.
Qed.

Lemma split_app_sep sep s1 s2 :
  ~ In sep s1 -> split sep (s1 ++ sep :: s2) = s1 :: split sep s2.
Proof.
  induction s1 as [|c s1 IH]; intros Hnot; simpl.
  - rewrite N.eqb_refl. reflexivity.
  - destruct (N.eqb_spec c sep) as [->|Hne].
    + exfalso. apply Hnot. left. reflexivity.
    + rewrite IH; [reflexivity|]. intros H. apply Hnot. right. exact H.
Qed.

Lemma split_app_prefix sep s1 s2 :
  ~ In sep s1 ->
  split sep (s1 ++ s2) = (s1 ++ hd [] (split sep s2)) :: tl (split sep s2).
Proof.
  induction s1 as [|c s1 IH]; intros Hnot; simpl.
  - pose proof (split_nonempty sep s2). destruct (split sep s2); [contradiction|reflexivity].
  - destruct (N.eqb_spec c sep) as [->|Hne].
    + exfalso. apply Hnot. left. reflexivity.
    + rewrite IH; [reflexivity|]. intros H. apply Hnot. right. exact H.
Qed.

Lemma trimStart_app s c r :
  isWhiteSpace c = false -> trimStart (s ++ c :: r) = trimStart s ++ c :: r.
Proof.
  intros Hc. induction s as [|a s IH]; simpl.
  - rewrite Hc. reflexivity.
  - destruct (isWhiteSpace a); [exact IH|reflexivity].
Qed.

Lemma trimEnd_app s c r :
  isWhiteSpace c = false -> trimEnd (s ++ c :: r) = s ++ c :: trimEnd r.
Proof.
  intros Hc. unfold trimEnd. rewrite rev_app_distr. simpl rev at 1.
  rewrite <- app_assoc. simpl. rewrite (trimStart_app (rev r) c (rev s) Hc).
  rewrite rev_app_distr. simpl. rewrite rev_involutive, <- app_assoc. reflexivity.
Qed.

Lemma trimStart_incl s x : In x (trimStart s) -> In x s.
Proof.
  induction s as [|a s IH]; simpl; [tauto|].
  destruct (isWhiteSpace a); [intros H; right; apply IH, H|tauto].
Qed.

(** Trimming a line does not go past the commas around its inner fields. *)
Lemma trim_line (i mid tail : jsstring) :
  trim (i ++ COMMA :: mid ++ COMMA :: tail)
  = trimStart i ++ COMMA :: mid ++ COMMA :: trimEnd tail.
Proof.
  unfold trim. rewrite (trimStart_app i COMMA _ eq_refl).
  replace (trimStart i ++ COMMA :: mid ++ COMMA :: tail)
    with ((trimStart i ++ COMMA :: mid) ++ COMMA :: tail)
    by (rewrite <- app_assoc; reflexivity).
  rewrite (trimEnd_app _ COMMA tail eq_refl). rewrite <- app_assoc. reflexivity.
Qed.

Lemma not_In_app {A : Type} (x : A) (l1 l2 : list A) :
  ~ In x l1 -> ~ In x l2 -> ~ In x (l1 ++ l2).
Proof. intros H1 H2 H. apply in_app_or in H. tauto. Qed.

End StringFacts.

Section CsvFacts.
Context {P : Platform}.

Lemma csvRow_line t :
  join [COMMA] (App.csvRow t)
  = Task.id t ++ COMMA :: App.csvTitleField t ++ COMMA :: csvStateText t
      ++ COMMA :: csvRowTail t.
Proof. reflexivity. Qed.

Lemma csvContent_single t :
  App.csvContent [t] = join [COMMA] App.csvHeaders ++ LF :: join [COMMA] (App.csvRow t).
Proof. reflexivity. Qed.

Lemma csvStateText_plain t :
  ~ In COMMA (csvStateText t) /\ ~ In LF (csvStateText t).
Proof.
  unfold csvStateText. destruct (Task.done t); split; vm_compute; intuition discriminate.
Qed.

(** The fields read from the first line of the exported row. *)
Lemma csvLine_fields (i state tail : jsstring) :
  ~ In COMMA i -> ~ In COMMA state ->
  split COMMA (trim (i ++ COMMA :: (sayHiField ++ COMMA :: state) ++ COMMA :: tail))
  = trimStart i :: sayHiField :: state :: split COMMA (trimEnd tail).
Proof.
  intros Hi Hs. rewrite trim_line.
  rewrite split_app_sep by (intros H; apply Hi, trimStart_incl, H).
  rewrite <- app_assoc, <- app_comm_cons.
  rewrite split_app_sep by (vm_compute; intuition discriminate).
  rewrite split_app_sep by exact Hs.
  reflexivity.
Qed.

Lemma csvTask_title now values w :
  nth_error values 1 = Some sayHiDoubled ->
  Task.title (fst (App.csvTask now values w)) = sayHiDoubled.
Proof.
  intros H1. unfold App.csvTask.
  destruct (match App.field values 0 with Some v => (v, w) | None => App.uid w end)
    as [i w1].
  cbn [fst Task.title]. unfold App.field. rewrite H1. reflexivity.
Qed.

(** What [importFromCSV] reads from the export of one task with the title. *)
Lemma csvParse_sayHi (t : Task.t) (now : Z) (w : World) :
  Task.title t = sayHi ->
  ~ In COMMA (Task.id t) ->
  ~ In LF (Task.id t) ->
  exists t' rest w',
    App.csvParse now (App.csvContent [t]) w = Some (t' :: rest, w') /\
    Task.title t' = sayHiDoubled.
Proof.
  intros Htitle Hcomma Hlf.
  assert (Hfield : App.csvTitleField t = sayHiField).
  { unfold App.csvTitleField. rewrite Htitle. reflexivity. }
  destruct (csvStateText_plain t) as [Hsc Hsl].
  unfold App.csvParse. rewrite csvContent_single.
  rewrite split_app_sep by (vm_compute; intuition discriminate).
  cbn [hd tl].
  replace (length (map (fun h => removeQuotes (trim h))
                     (split COMMA (join [COMMA] App.csvHeaders))) <? 3)%nat
    with false by (vm_compute; reflexivity).
  rewrite csvRow_line, Hfield.
  replace (Task.id t ++ COMMA :: sayHiField ++ COMMA :: csvStateText t ++ COMMA :: csvRowTail t)
    with ((Task.id t ++ COMMA :: (sayHiField ++ COMMA :: csvStateText t) ++ [COMMA])
          ++ csvRowTail t)
    by (rewrite <- !app_assoc; simpl; rewrite <- !app_assoc; reflexivity).
  rewrite split_app_prefix.
  2:{ apply not_In_app; [exact Hlf|]. intros [H|H]; [discriminate H|].
      apply in_app_or in H. destruct H as [H|[H|[]]]; [|discriminate H].
      apply in_app_or in H. destruct H as [H|[H|H]]; [|discriminate H|exact (Hsl H)].
      revert H. vm_compute. intuition discriminate. }
  set (r0 := hd [] (split LF (csvRowTail t))).
  set (rs := tl (split LF (csvRowTail t))).
  replace ((Task.id t ++ COMMA :: (sayHiField ++ COMMA :: csvStateText t) ++ [COMMA]) ++ r0)
    with (Task.id t ++ COMMA :: (sayHiField ++ COMMA :: csvStateText t) ++ COMMA :: r0)
    by (rewrite <- !app_assoc; simpl; rewrite <- !app_assoc; reflexivity).
  cbn [App.csvLines].
  rewrite (csvLine_fields (Task.id t) (csvStateText t) r0 Hcomma Hsc).
  rewrite trim_line.
  replace (nonEmpty (trimStart (Task.id t) ++ COMMA :: (sayHiField ++ COMMA :: csvStateText t)
                     ++ COMMA :: trimEnd r0))
    with true by (destruct (trimStart (Task.id t)); reflexivity).
  cbn [negb map length Nat.ltb Nat.leb].
  set (values := stripQuotes (trim (trimStart (Task.id t))) :: _).
  pose proof (csvTask_title now values w eq_refl) as Ht.
  destruct (App.csvTask now values w) as [t' w1].
  destruct (App.csvLines now rs w1) as [ts w2].
  exists t', ts, w2. split; [reflexivity|exact Ht].
Qed.

(** The tasks after a confirmed import are the tasks read from the file, in
    the order in which the redrawing of the page leaves them. *)
(** The page after the lines of a file are read: only random draws are
    used up. *)
Lemma csvLines_world now lines w :
  exists n, snd (App.csvLines now lines w) = setDraws n w.
Proof.
  revert w. induction lines as [|l rest IH]; intros w; simpl.
  - exists (draws w). destruct w; reflexivity.
  - destruct (negb (nonEmpty (trim l))); [apply IH|].
    destruct (length _ <? 3)%nat; [apply IH|].
    unfold App.csvTask. 
    destruct (App.field (map (fun v => stripQuotes (trim v)) (split COMMA (trim l))) 0).
    + destruct (IH w) as [n Hn]. destruct (App.csvLines now rest w) as [ts w2].
      exists n. exact Hn.
    + unfold App.uid. destruct (IH (setDraws (S (draws w)) w)) as [n Hn].
      destruct (App.csvLines now rest (setDraws (S (draws w)) w)) as [ts w2].
      exists n. cbn [snd] in *. rewrite Hn. reflexivity.
Qed.

Lemma csvParse_world now content w ts w1 :
  App.csvParse now content w = Some (ts, w1) -> exists n, w1 = setDraws n w.
Proof.
  unfold App.csvParse. destruct (length _ <? 3)%nat; [discriminate|].
  destruct (csvLines_world now (tl (split LF content)) w) as [n Hn].
  destruct (App.csvLines now (tl (split LF content)) w) as [ts' w']. cbn [snd] in Hn.
  intros [= <- <-]. exists n. exact Hn.
Qed.

Lemma importFromCSV_parsed now content w ts w1 :
  App.csvParse now content w = Some (ts, w1) ->
  exists w',
    App.importFromCSV now content true w = Some w' /\
    Permutation (tasks w') ts /\
    (~ unfiltered w \/ newestFirst ts -> tasks w' = ts).
Proof.
  intros Hparse. unfold App.importFromCSV. rewrite Hparse. cbn [negb].
  destruct (csvParse_world _ _ _ _ _ Hparse) as [n ->].
  eexists. split; [reflexivity|]. cbn [tasks show].
  rewrite (proj1 (proj2 (proj2 (proj2 (addActivity_frame _ _ _ _ _ _))))). split.
  - apply render_tasks_perm.
  - intros Ho. rewrite (redraw_same now w (setTasks ts (setDraws n w)) eq_refl eq_refl);
      [reflexivity|exact Ho].
Qed.

(** C2, amended: for every task whose title is the text [Say] followed by
    [hi] between double quotes (and whose identifier holds no comma and no
    line feed), [exportToCSV] renders the title field between double quotes
    with the inner quotes doubled, and [importFromCSV] of the exported file
    yields a task whose title is the same text with the inner quotes still
    doubled: the import removes the outer quotes only.  (The tasks of the
    page are the task read from the exported row followed by whatever the
    rest of the file gives, in that order when the view of the importing
    page is filtered or the tasks read are latest first, and in the order in
    which the redrawing leaves them in general.) *)
Theorem csv_title_export_and_import :
  forall (t : Task.t) (now now' : Z) (w0 w : World),
    tasks w0 = [t] ->
    Task.title t = sayHi ->
    ~ In COMMA (Task.id t) ->
    ~ In LF (Task.id t) ->
    nth_error (App.csvRow t) 1 = Some sayHiField /\
    exists t' rest w',
      App.importFromCSV now' (fst (App.exportToCSV now w0)) true w = Some w' /\
      Permutation (tasks w') (t' :: rest) /\
      (~ unfiltered w \/ newestFirst (t' :: rest) -> tasks w' = t' :: rest) /\
      Task.title t' = sayHiDoubled.
Proof.
  intros t now now' w0 w Htasks Htitle Hcomma Hlf. split.
  - cbn [App.csvRow nth_error]. unfold App.csvTitleField. rewrite Htitle. reflexivity.
  - destruct (csvParse_sayHi t now' w Htitle Hcomma Hlf) as (t' & rest & w1 & Hparse & Ht').
    unfold App.exportToCSV. cbn [fst]. rewrite Htasks.
    destruct (importFromCSV_parsed _ _ _ _ _ Hparse) as (w' & Himp & Hp & Ho).
    exists t', rest, w'. split; [exact Himp|]. split; [exact Hp|]. split; [exact Ho|exact Ht'].
Qed.

End CsvFacts.

(** C2 as stated fails: the title read back from the export of a task with
    that title has its inner quotes doubled. *)
Lemma csv_import_does_not_restore_title :
  exists w,
    App.importFromCSV (P := refPlatform) 1700000000000
      (fst (App.exportToCSV (P := refPlatform) 1700000000000
              (setTasks [sayHiTask] initialWorld)))
      true initialWorld = Some w /\
    map Task.title (tasks w) = [sayHiDoubled] /\
    map Task.title (tasks w) <> [sayHi].
Proof.
  eexists. split; [vm_compute; reflexivity|]. split; [reflexivity|discriminate].
Qed.

(** ** Streak days *)

Section StreakFacts.
Import UserProfile.

Lemma startOfDay_bounds tz t :
  startOfDay (Zone := fixedOffset tz) t <= t
  < startOfDay (Zone := fixedOffset tz) t + msPerDay.
Proof.
  cbn [startOfDay fixedOffset]. pose proof (Z.mod_pos_bound (t + tz) msPerDay eq_refl). lia.
Qed.

Lemma filter_all_completed (l : list Task.t) :
  Forall (fun t => hasCompletedAt t = true) l -> List.filter hasCompletedAt l = l.
Proof.
  induction 1 as [|t l Ht _ IH]; [reflexivity|].
  simpl. rewrite Ht, IH. reflexivity.
Qed.

(** C1: in a zone of fixed offset from UTC, on a list of exactly three tasks
    with a completion instant, one of today, one of yesterday and one of
    three days ago (local days, in any order in the list),
    [calculateStreakDays] returns 1: after counting
    today it moves the current date back by a day and still compares the
    distance in days with the streak, so yesterday is at distance 0 and is
    passed over, and the task of three days ago ends the loop. *)
Theorem streak_with_gap_at_day_two :
  forall (tz now : Z) (today yesterday threeDaysAgo : Task.t) (tasks : list Task.t),
    hasCompletedAt today = true ->
    hasCompletedAt yesterday = true ->
    hasCompletedAt threeDaysAgo = true ->
    startOfDay (Zone := fixedOffset tz) (completedInstant today)
    = startOfDay (Zone := fixedOffset tz) now ->
    startOfDay (Zone := fixedOffset tz) (completedInstant yesterday)
    = startOfDay (Zone := fixedOffset tz) now - msPerDay ->
    startOfDay (Zone := fixedOffset tz) (completedInstant threeDaysAgo)
    = startOfDay (Zone := fixedOffset tz) now - 3 * msPerDay ->
    Permutation tasks [today; yesterday; threeDaysAgo] ->
    calculateStreakDays (Zn := fixedOffset tz) now tasks = 1.
Proof.
  intros tz now a b c l Ha Hb Hc Da Db Dc Hperm.
  pose proof (startOfDay_bounds tz (completedInstant a)) as Ba.
  pose proof (startOfDay_bounds tz (completedInstant b)) as Bb.
  pose proof (startOfDay_bounds tz (completedInstant c)) as Bc.
  assert (Hday : msPerDay = 86400000) by reflexivity.
  assert (Hsorted : sortByCompletion (List.filter hasCompletedAt l) = [a; b; c]).
  { rewrite filter_all_completed.
    2:{ rewrite Hperm. repeat constructor; assumption. }
    symmetry in Hperm. apply permutations_Permutation in Hperm.
    cbn in Hperm.
    repeat match goal with
           | H : _ ∈ _ :: _ |- _ => apply elem_of_cons in H; destruct H as [->|H]
           | H : _ ∈ [] |- _ => apply elem_of_nil in H; contradiction
           end;
      repeat (cbn [sortByCompletion fold_right insertByCompletion];
              match goal with
              | |- context [?x - ?y <=? 0] => destruct (Z.leb_spec (x - y) 0); try lia
              end);
      reflexivity. }
  unfold calculateStreakDays. rewrite Hsorted.
  destruct l as [|x l']; [apply Permutation_nil in Hperm; discriminate|].
  cbn [streakLoop]. rewrite Da, Db, Dc.
  set (today0 := startOfDay (Zone := fixedOffset tz) now).
  replace (today0 - today0) with 0 by lia.
  rewrite Z.div_0_l by discriminate. cbn [Z.eqb].
  cbn [previousDay fixedOffset].
  replace (today0 - msPerDay - (today0 - msPerDay)) with 0 by lia.
  rewrite Z.div_0_l by discriminate. cbn [Z.eqb Z.add Z.ltb Z.compare Pos.add].
  replace (today0 - msPerDay - (today0 - 3 * msPerDay))
    with (2 * msPerDay) by lia.
  rewrite Z.div_mul by discriminate. reflexivity.
Qed.

End StreakFacts.

(** ** Binary64 arithmetic of the score *)

Section Binary64Facts.

Lemma digits2_pos_iter_xO (p k : positive) :
  digits2_pos (Pos.iter xO p k) = (digits2_pos p + k)%positive.
Proof.
  induction k as [|k IH] using Pos.peano_ind.
  - simpl. lia.
  - rewrite Pos.iter_succ. simpl. rewrite IH. lia.
Qed.

(** A mantissa of 53 bits with an exponent in range is already rounded. *)
Lemma binary_round_aux_exact (s : bool) (m : positive) (e : Z) :
  Zpos (digits2_pos m) = 53 -> -1074 <= e <= 971 ->
  binary_round_aux prec emax s (Zpos m) e loc_Exact = S754_finite s m e.
Proof.
  intros Hd He. unfold binary_round_aux, shr_fexp, fexp, SpecFloat.emin, Zdigits2.
  rewrite Hd. change prec with 53. change emax with 1024.
  replace (Z.max (53 + e - 53) (3 - 1024 - 53) - e) with 0 by lia.
  cbn [shr shr_record_of_loc shr_m loc_of_shr_record round_nearest_even Zdigits2].
  rewrite Hd.
  replace (Z.max (53 + e - 53) (3 - 1024 - 53) - e) with 0 by lia.
  cbn [shr shr_m].
  destruct (Z.leb_spec e (1024 - 53)); [reflexivity|lia].
Qed.

Lemma digits2_pos_bound (p : positive) : Zpos p < 2 ^ Zpos (digits2_pos p).
Proof.
  induction p as [p IH|p IH|]; cbn [digits2_pos]; rewrite ?Pos2Z.inj_succ, ?Z.pow_succ_r;
    lia.
Qed.

Lemma digits2_pos_lower (p : positive) : 2 ^ (Zpos (digits2_pos p) - 1) <= Zpos p.
Proof.
  induction p as [p IH|p IH|]; cbn [digits2_pos]; rewrite ?Pos2Z.inj_succ;
    try (replace (Z.succ (Zpos (digits2_pos p)) - 1) with (Z.succ (Zpos (digits2_pos p) - 1))
           by lia; rewrite Z.pow_succ_r by lia); lia.
Qed.

Lemma digits2_pos_53 (p : positive) : Zpos p < 2 ^ 53 -> 1 <= Zpos (digits2_pos p) <= 53.
Proof.
  intros Hp. split; [lia|]. pose proof (digits2_pos_lower p) as Hl.
  destruct (Z_le_gt_dec (Zpos (digits2_pos p)) 53) as [H|H]; [exact H|].
  exfalso. assert (2 ^ 53 <= 2 ^ (Zpos (digits2_pos p) - 1))
    by (apply Z.pow_le_mono_r; lia). lia.
Qed.

(** The integers below [2^53] are represented exactly. *)
Lemma binary_normalize_small (p : positive) :
  Zpos p < 2 ^ 53 ->
  exists m,
    binary_normalize prec emax (Zpos p) 0 false
    = S754_finite false m (Zpos (digits2_pos p) - 53) /\
    Zpos (digits2_pos m) = 53.
Proof.
  intros Hp. pose proof (digits2_pos_53 p Hp) as Hd.
  assert (Hf : fexp prec emax (Zpos (digits2_pos p) + 0) = Zpos (digits2_pos p) - 53).
  { unfold fexp, SpecFloat.emin. change prec with 53. change emax with 1024. lia. }
  unfold binary_normalize, binary_round, shl_align. rewrite Hf, Z.sub_0_r.
  destruct (Zpos (digits2_pos p) - 53) as [|k|k] eqn:Hk; [|lia|].
  - exists p. assert (Hd53 : Zpos (digits2_pos p) = 53) by lia.
    rewrite (binary_round_aux_exact false p 0 Hd53) by lia.
    split; [reflexivity|exact Hd53].
  - exists (Pos.iter xO p k).
    assert (Hd53 : Zpos (digits2_pos (Pos.iter xO p k)) = 53)
      by (rewrite digits2_pos_iter_xO; lia).
    rewrite (binary_round_aux_exact false _ _ Hd53) by lia.
    split; [reflexivity|exact Hd53].
Qed.

End Binary64Facts.

Section SignFacts.

Lemma shr_1_nonneg (mrs : shr_record) : 0 <= shr_m mrs -> 0 <= shr_m (shr_1 mrs).
Proof.
  destruct mrs as [m r s]. destruct m as [|p|p]; cbn [shr_m]; intros H.
  - cbn. lia.
  - destruct p; cbn; lia.
  - lia.
Qed.

Lemma iter_pos_shr_1_nonneg (n : positive) (mrs : shr_record) :
  0 <= shr_m mrs -> 0 <= shr_m (SpecFloat.iter_pos shr_1 n mrs).
Proof.
  revert mrs. induction n as [n IH|n IH|]; intros mrs H; cbn [SpecFloat.iter_pos].
  - apply IH, IH, shr_1_nonneg, H.
  - apply IH, IH, H.
  - apply shr_1_nonneg, H.
Qed.

Lemma shr_fexp_nonneg (m e : Z) (l : location) :
  0 <= m -> 0 <= shr_m (fst (shr_fexp prec emax m e l)).
Proof.
  intros Hm. unfold shr_fexp, shr.
  assert (H0 : 0 <= shr_m (shr_record_of_loc m l))
    by (destruct l as [|[| |]]; exact Hm).
  destruct (fexp prec emax (Zdigits2 m + e) - e) as [|n|n]; cbn [fst]; try exact H0.
  apply iter_pos_shr_1_nonneg, H0.
Qed.

Lemma round_nearest_even_nonneg (m : Z) (l : location) :
  0 <= m -> 0 <= round_nearest_even m l.
Proof.
  intros Hm. unfold round_nearest_even.
  destruct l as [|[| |]]; try destruct (Z.even m); lia.
Qed.

(** Rounding a non-negative mantissa gives a non-negative number. *)
Lemma binary_round_aux_nonneg (m e : Z) (l : location) :
  0 <= m -> nonnegative (binary_round_aux prec emax false m e l).
Proof.
  intros Hm. unfold binary_round_aux.
  pose proof (shr_fexp_nonneg m e l Hm) as H1.
  destruct (shr_fexp prec emax m e l) as [mrs' e']. cbn [fst] in H1.
  pose proof (shr_fexp_nonneg (round_nearest_even (shr_m mrs') (loc_of_shr_record mrs')) e'
                loc_Exact (round_nearest_even_nonneg _ _ H1)) as H2.
  destruct (shr_fexp prec emax _ e' loc_Exact) as [mrs'' e'']. cbn [fst] in H2.
  destruct (shr_m mrs'') as [|p|p]; [reflexivity| |lia].
  destruct (e'' <=? emax - prec); reflexivity.
Qed.

Lemma binary_round_nonneg (m : positive) (e : Z) :
  nonnegative (binary_round prec emax false m e).
Proof.
  unfold binary_round. destruct (shl_align m e _) as [mz ez].
  apply binary_round_aux_nonneg. lia.
Qed.

Lemma SFmul_nonneg (x : spec_float) (m : positive) (e : Z) :
  nonnegative x -> nonnegative (SFmul prec emax x (S754_finite false m e)).
Proof.
  destruct x as [s|s| |s mx ex]; cbn; intros H; try contradiction; subst s;
    try reflexivity.
  apply binary_round_aux_nonneg. lia.
Qed.

Lemma SFadd_nonneg (x y : spec_float) :
  nonnegative x -> nonnegative y -> nonnegative (SFadd prec emax x y).
Proof.
  destruct x as [sx|sx| |sx mx ex], y as [sy|sy| |sy my ey]; cbn [nonnegative];
    intros Hx Hy; try contradiction; subst; try reflexivity.
  unfold SFadd, cond_Zopp.
  set (a := fst (shl_align mx ex (Z.min ex ey))).
  set (b := fst (shl_align my ey (Z.min ex ey))).
  change (Zpos a + Zpos b) with (Zpos (a + b)). cbn [binary_normalize].
  apply binary_round_nonneg.
Qed.

Lemma SFdiv_nonneg (x : spec_float) (m : positive) (e : Z) :
  nonnegative x -> nonnegative (SFdiv prec emax x (S754_finite false m e)).
Proof.
  destruct x as [s|s| |s mx ex]; cbn [nonnegative]; intros H; try contradiction; subst s;
    try reflexivity.
  unfold SFdiv, SFdiv_core_binary. cbn [xorb].
  set (s := ex - e - _).
  set (m' := match s with Zpos _ => Z.shiftl (Zpos mx) s | Z0 => Zpos mx | Zneg _ => 0 end).
  assert (Hm' : 0 <= m').
  { subst m'. destruct s; try lia. apply Z.shiftl_nonneg. lia. }
  pose proof (Z_div_mod m' (Zpos m) eq_refl) as Hdiv.
  destruct (Z.div_eucl m' (Zpos m)) as [q r].
  apply binary_round_aux_nonneg. nia.
Qed.

End SignFacts.

Section NumberFacts.

Lemma Prim2SF_ofZ_pos (p : positive) :
  Zpos p < 2 ^ 53 ->
  exists m,
    Prim2SF (ofZ (Zpos p)) = S754_finite false m (Zpos (digits2_pos p) - 53) /\
    Zpos (digits2_pos m) = 53.
Proof.
  intros Hp. destruct (binary_normalize_small p Hp) as (m & Hm & Hd).
  exists m. split; [|exact Hd]. unfold ofZ. rewrite Hm.
  apply Prim2SF_SF2Prim. unfold valid_binary, bounded, canonical_mantissa, fexp.
  rewrite Hd. pose proof (digits2_pos_53 p Hp) as Hdp.
  unfold SpecFloat.emin. change prec with 53. change emax with 1024.
  apply andb_true_intro. split; [apply Z.eqb_eq|apply Z.leb_le]; lia.
Qed.

Lemma Nonneg_ofZ (z : Z) : 0 <= z < 2 ^ 53 -> Nonneg (ofZ z).
Proof.
  intros Hz. unfold Nonneg. destruct z as [|p|p]; [reflexivity| |lia].
  destruct (Prim2SF_ofZ_pos p (proj2 Hz)) as (m & -> & _). reflexivity.
Qed.

Lemma Nonneg_mul (x c : float) (m : positive) (e : Z) :
  Prim2SF c = S754_finite false m e -> Nonneg x -> Nonneg (x * c).
Proof.
  unfold Nonneg. intros Hc Hx. rewrite mul_spec, Hc. apply SFmul_nonneg, Hx.
Qed.

Lemma Nonneg_add (x y : float) : Nonneg x -> Nonneg y -> Nonneg (x + y).
Proof. unfold Nonneg. intros Hx Hy. rewrite add_spec. apply SFadd_nonneg; assumption. Qed.

Lemma Nonneg_div (x c : float) (m : positive) (e : Z) :
  Prim2SF c = S754_finite false m e -> Nonneg x -> Nonneg (x / c).
Proof.
  unfold Nonneg. intros Hc Hx. rewrite div_spec, Hc. apply SFdiv_nonneg, Hx.
Qed.

Lemma Nonneg_Math_min (a b : float) : Nonneg a -> Nonneg b -> Nonneg (Math_min a b).
Proof.
  unfold Nonneg, Math_min. intros Ha Hb.
  destruct (Prim2SF a) as [sa|sa| |sa ma ea] eqn:Ea; try contradiction;
    destruct (Prim2SF b) as [sb|sb| |sb mb eb] eqn:Eb; try contradiction;
    repeat match goal with |- context [if ?c then _ else _] => destruct c end;
    rewrite ?Ea, ?Eb; assumption.
Qed.

Lemma Prim2SF_100 : Prim2SF 100 = S754_finite false 7036874417766400 (-46).
Proof. vm_compute. reflexivity. Qed.

Lemma ofZ_100 : ofZ 100 = 100%float.
Proof. vm_compute. reflexivity. Qed.

(** The clamp on the integers up to 127, by evaluation. *)
Lemma clamp_table :
  forallb (fun n => PrimFloat.Leibniz.eqb (Math_min 100 (ofZ (Z.of_nat n)))
                      (ofZ (Z.min (Z.of_nat n) 100)))
    (seq 0 128) = true.
Proof. vm_compute. reflexivity. Qed.

Lemma clamp_small (z : Z) :
  0 <= z <= 127 -> Math_min 100 (ofZ z) = ofZ (Z.min z 100).
Proof.
  intros Hz. pose proof clamp_table as H. rewrite forallb_forall in H.
  specialize (H (Z.to_nat z)). rewrite Z2Nat.id in H by lia.
  apply FloatAxioms.Leibniz.eqb_spec. apply H. apply in_seq. lia.
Qed.

(** From 128 on the exponent alone shows that the integer is above 100. *)
Lemma clamp_large (p : positive) :
  128 <= Zpos p < 2 ^ 53 -> Math_min 100 (ofZ (Zpos p)) = 100%float.
Proof.
  intros [Hlo Hhi]. destruct (Prim2SF_ofZ_pos p Hhi) as (m & Hm & _).
  assert (Hd : 8 <= Zpos (digits2_pos p)).
  { pose proof (digits2_pos_bound p) as Hb.
    destruct (Z_le_gt_dec 8 (Zpos (digits2_pos p))) as [H|H]; [exact H|].
    exfalso. assert (2 ^ Zpos (digits2_pos p) <= 2 ^ 7)
      by (apply Z.pow_le_mono_r; lia). lia. }
  unfold Math_min. rewrite Prim2SF_100, Hm, ltb_spec, Hm, Prim2SF_100.
  unfold SFltb, SFcompare.
  destruct (Z.compare_spec (Zpos (digits2_pos p) - 53) (-46)); try lia. reflexivity.
Qed.

End NumberFacts.

(** ** Productivity score *)

Section ScoreFacts.
Import UserProfile.

(** Clamping a rounded non-negative number gives an integer from 0 to 100. *)
Lemma clamp_round (y : float) :
  Nonneg y -> exists z, 0 <= z <= 100 /\ Math_min 100 (Math_round y) = ofZ z.
Proof.
  unfold Nonneg. intros Hy. pose proof (Prim2SF_valid y) as Hv.
  destruct (Prim2SF y) as [s|s| |s m e] eqn:Ey; cbn [nonnegative] in Hy;
    try contradiction; subst s.
  - exists 0. split; [lia|].
    assert (Hr : Math_round y = y) by (unfold Math_round; rewrite Ey; reflexivity).
    rewrite Hr. unfold Math_min. rewrite Prim2SF_100, Ey, ltb_spec, Ey, Prim2SF_100.
    cbn. apply Prim2SF_inj. rewrite Ey. vm_compute. reflexivity.
  - exists 100. split; [lia|].
    assert (Hr : Math_round y = y) by (unfold Math_round; rewrite Ey; reflexivity).
    rewrite Hr. unfold Math_min. rewrite Prim2SF_100, Ey, ltb_spec, Ey, Prim2SF_100.
    cbn. symmetry. exact ofZ_100.
  - destruct (Z.leb_spec 0 e) as [He|He].
    + exists 100. split; [lia|].
      assert (Hr : Math_round y = y).
      { unfold Math_round. rewrite Ey. destruct (Z.leb_spec 0 e); [reflexivity|lia]. }
      rewrite Hr. unfold Math_min. rewrite Prim2SF_100, Ey, ltb_spec, Ey, Prim2SF_100.
      unfold SFltb, SFcompare.
      destruct (Z.compare_spec e (-46)); try lia. symmetry. exact ofZ_100.
    + set (z := (Zpos m * 2 + 2 ^ (- e)) / 2 ^ (- e + 1)).
      assert (Hr : Math_round y = ofZ z).
      { unfold Math_round. rewrite Ey. destruct (Z.leb_spec 0 e); [lia|]. reflexivity. }
      assert (Hm : Zpos m < 2 ^ 53).
      { unfold valid_binary, bounded, canonical_mantissa, fexp in Hv.
        apply andb_prop in Hv. destruct Hv as [Hc _]. apply Z.eqb_eq in Hc.
        change prec with 53 in Hc.
        assert (Zpos (digits2_pos m) <= 53) by lia.
        pose proof (digits2_pos_bound m).
        assert (2 ^ Zpos (digits2_pos m) <= 2 ^ 53) by (apply Z.pow_le_mono_r; lia).
        lia. }
      assert (Hz : 0 <= z < 2 ^ 53).
      { subst z. assert (Hk : 0 < 2 ^ (- e)) by (apply Z.pow_pos_nonneg; lia).
        assert (Hk1 : 2 ^ (- e + 1) = 2 * 2 ^ (- e)) by (rewrite Z.pow_add_r; lia).
        assert (Hk2 : 2 <= 2 ^ (- e)).
        { change 2 with (2 ^ 1) at 1. apply Z.pow_le_mono_r; lia. }
        split.
        - apply Z.div_pos; lia.
        - apply Z.div_lt_upper_bound; [lia|]. rewrite Hk1. nia. }
      rewrite Hr. destruct (Z_le_gt_dec z 127) as [Hs|Hl].
      * exists (Z.min z 100). split; [lia|]. apply clamp_small. lia.
      * exists 100. split; [lia|]. destruct z as [|p|p]; try lia.
        rewrite clamp_large by lia. symmetry. exact ofZ_100.
Qed.

Lemma Nonneg_ofNat (n : nat) : Z.of_nat n < 2 ^ 32 -> Nonneg (ofNat n).
Proof. intros H. apply Nonneg_ofZ. lia. Qed.

Lemma Nonneg_recent (n : nat) (k cap : float) (mk mc : positive) (ek ec : Z) :
  Prim2SF k = S754_finite false mk ek -> Prim2SF cap = S754_finite false mc ec ->
  Z.of_nat n < 2 ^ 32 -> Nonneg (Math_min (ofNat n * k) cap).
Proof.
  intros Hk Hc Hn. apply Nonneg_Math_min.
  - apply (Nonneg_mul _ k mk ek Hk). apply Nonneg_ofNat, Hn.
  - unfold Nonneg. rewrite Hc. reflexivity.
Qed.

Lemma scoreFormula_range (c t ra rc : nat) :
  (c <= t)%nat -> Z.of_nat t < 2 ^ 32 -> Z.of_nat ra < 2 ^ 32 -> Z.of_nat rc < 2 ^ 32 ->
  exists z, 0 <= z <= 100 /\ scoreFormula c t ra rc = ofZ z.
Proof.
  intros Hc Ht Hra Hrc. unfold scoreFormula. apply clamp_round.
  assert (H06 : exists m e, Prim2SF 0.6 = S754_finite false m e)
    by (eexists _, _; vm_compute; reflexivity).
  assert (H5 : exists m e, Prim2SF 5 = S754_finite false m e)
    by (eexists _, _; vm_compute; reflexivity).
  assert (H10 : exists m e, Prim2SF 10 = S754_finite false m e)
    by (eexists _, _; vm_compute; reflexivity).
  assert (H30 : exists m e, Prim2SF 30 = S754_finite false m e)
    by (eexists _, _; vm_compute; reflexivity).
  destruct H06 as (m06 & e06 & H06), H5 as (m5 & e5 & H5), H10 as (m10 & e10 & H10),
    H30 as (m30 & e30 & H30).
  apply Nonneg_add; [apply Nonneg_add|].
  - apply (Nonneg_mul _ _ m06 e06 H06).
    destruct t as [|t']; [unfold Nonneg; vm_compute; reflexivity|].
    apply (Nonneg_mul _ _ _ _ Prim2SF_100).
    destruct (Prim2SF_ofZ_pos (Pos.of_succ_nat t')) as (m & Hm & _).
    { rewrite Zpos_P_of_succ_nat. assert (2 ^ 32 < 2 ^ 53) by reflexivity. lia. }
    apply (Nonneg_div _ (ofNat (S t')) m (Zpos (digits2_pos (Pos.of_succ_nat t')) - 53)).
    + unfold ofNat. rewrite Nat2Z.inj_succ, <- Zpos_P_of_succ_nat. exact Hm.
    + apply Nonneg_ofNat. lia.
  - apply (Nonneg_recent ra 5 30 m5 m30 e5 e30 H5 H30 Hra).
  - apply (Nonneg_recent rc 10 10 m10 m10 e10 e10 H10 H10 Hrc).
Qed.

Lemma countWhere_le (f : Task.t -> bool) (tasks : list Task.t) :
  (countWhere f tasks <= length tasks)%nat.
Proof. apply List.filter_length_le. Qed.

Lemma calculateProductivityScore_formula (now : Z) (tasks : list Task.t) :
  calculateProductivityScore now tasks = scoreSinceWeekStart now tasks.
Proof.
  destruct tasks as [|t l]; [vm_compute; reflexivity|].
  unfold calculateProductivityScore, scoreSinceWeekStart, scoreFormula, countWhere.
  cbn [length].
  rewrite (List.filter_ext (createdRecently now)
             (fun t => afterWeekStart now (Task.createdAt t))).
  2:{ intros x. unfold createdRecently, gt, afterWeekStart.
      destruct (Task.createdAt x); reflexivity. }
  rewrite (List.filter_ext (completedRecently now)
             (fun t => match Task.completedAt t with
                       | Some c => truthy c && afterWeekStart now c
                       | None => false
                       end)).
  2:{ intros x. unfold completedRecently, gt, afterWeekStart.
      destruct (Task.completedAt x) as [[|z]|]; reflexivity. }
  reflexivity.
Qed.

(** C4, amended: for every task list (of less than [2^32] tasks, as every
    JavaScript array), [calculateProductivityScore] equals
    [min(100, round(completionRate*0.6 + min(recentCreatedCount*5, 30)
    + min(recentCompletedCount*10, 10)))] in binary64 arithmetic, where
    [completionRate = completedTasks/totalTasks*100] (0 without tasks),
    [recentCreatedCount] counts the tasks created later than seven days
    before now and [recentCompletedCount] those with a non-zero completion
    instant later than that (no upper end at now: an instant in the future
    counts); the result is an integer from 0 to 100, and it is 0 for the
    empty list. *)
Theorem productivity_score_formula_and_range :
  forall (now : Z) (tasks : list Task.t),
    Z.of_nat (length tasks) < 2 ^ 32 ->
    calculateProductivityScore now tasks = scoreSinceWeekStart now tasks /\
    (exists z, 0 <= z <= 100 /\ calculateProductivityScore now tasks = ofZ z) /\
    calculateProductivityScore now [] = ofZ 0.
Proof.
  intros now tasks Hlen. split; [apply calculateProductivityScore_formula|].
  split; [|vm_compute; reflexivity].
  rewrite calculateProductivityScore_formula. unfold scoreSinceWeekStart.
  apply scoreFormula_range.
  - apply countWhere_le.
  - exact Hlen.
  - pose proof (countWhere_le (fun t => afterWeekStart now (Task.createdAt t)) tasks). lia.
  - pose proof (countWhere_le (fun t => match Task.completedAt t with
                                        | Some c => truthy c && afterWeekStart now c
                                        | None => false
                                        end) tasks). lia.
Qed.

Lemma float_neq (a b : float) : PrimFloat.Leibniz.eqb a b = false -> a <> b.
Proof.
  intros H Heq. apply FloatAxioms.Leibniz.eqb_spec in Heq. rewrite Heq in H. discriminate.
Qed.

End ScoreFacts.

(** C4 as stated fails: a task dated one hour after now is not within the
    seven days that end now, and the code counts it as recent. *)
Lemma future_dated_task_counts_as_recent :
  UserProfile.calculateProductivityScore 1700000000000 [futureDatedTask] = ofZ 5 /\
  scoreOverTrailingWeek 1700000000000 [futureDatedTask] = ofZ 0 /\
  UserProfile.calculateProductivityScore 1700000000000 [futureDatedTask]
  <> scoreOverTrailingWeek 1700000000000 [futureDatedTask].
Proof.
  split; [vm_compute; reflexivity|]. split; [vm_compute; reflexivity|].
  apply float_neq. vm_compute. reflexivity.
Qed.

(** ** Reminders: snoozing, cancelling, firing *)

Section ReminderExtras.
Context {P : Platform}.

(** X1: [snoozeReminder] succeeds exactly when the number of minutes is
    positive.  It then records for the task a reminder due that many minutes
    after [now], with a pending timer under a fresh handle; with zero or a
    negative number of minutes the recorded reminders and the pending timers
    stay as they were. *)
Theorem snoozeReminder_succeeds_iff_positive :
  forall (now : Z) (taskId taskTitle : jsstring) (minutes : Z) (w : World),
    let r := Notifications.snoozeReminder now taskId taskTitle minutes w in
    (fst r = true <-> 0 < minutes) /\
    (0 < minutes ->
     activeReminders (snd r) !! taskId
     = Some (ActiveReminder.mk taskId taskTitle (now + minutes * 60 * 1000) (nextTimeoutId w)) /\
     timers (snd r) !! nextTimeoutId w
     = Some (Timer.mk taskId taskTitle (now + minutes * 60 * 1000))) /\
    (minutes <= 0 ->
     activeReminders (snd r) = activeReminders w /\ timers (snd r) = timers w).
Proof.
  intros now taskId taskTitle minutes w r. subst r. unfold Notifications.snoozeReminder.
  set (w0 := show _ w).
  destruct (Z_lt_le_dec 0 minutes) as [Hpos|Hneg].
  - assert (Hfut : now < now + minutes * 60 * 1000) by lia.
    destruct (scheduleReminder_future now taskId taskTitle _ w0 Hfut)
      as (Hok & Htm & Ha & _).
    split; [rewrite Hok; tauto|]. split; [|lia].
    intros _. rewrite Ha, Htm.
    change (nextTimeoutId w0) with (nextTimeoutId w). rewrite !lookup_insert_eq.
    split; reflexivity.
  - assert (Hpast : now + minutes * 60 * 1000 <= now) by lia.
    rewrite (scheduleReminder_past now taskId taskTitle _ w0 Hpast). cbn [fst snd].
    split; [split; [discriminate|lia]|]. split; [lia|]. intros _. split; reflexivity.
Qed.

(** X2: in a page whose timers are all recorded, [cancelReminder] for
    one task leaves nothing recorded for it and keeps the reminder and the
    pending timer of every other task; cancelling a second time changes
    nothing, and cancelling when nothing is recorded for the task leaves the
    whole page as it was. *)
Theorem cancelReminder_only_its_task :
  forall (a b : jsstring) (w : World),
    timersRecorded w ->
    a <> b ->
    let w' := Notifications.cancelReminder a w in
    activeReminders w' !! a = None /\
    activeReminders w' !! b = activeReminders w !! b /\
    (forall r, activeReminders w !! b = Some r ->
               timers w' !! ActiveReminder.timeoutId r = timers w !! ActiveReminder.timeoutId r) /\
    Notifications.cancelReminder a w' = w' /\
    (activeReminders w !! a = None -> w' = w).
Proof.
  intros a b w HI Hab w'. subst w'.
  destruct (cancelReminder_fields a w) as (_ & Ha & Htm & _).
  pose proof HI as [HI1 HI2].
  split; [rewrite Ha; apply lookup_delete_eq|].
  split; [rewrite Ha; apply lookup_delete_ne; exact Hab|].
  split; [|split].
  - intros r Hr. rewrite Htm. destruct (activeReminders w !! a) as [ra|] eqn:Hra;
      [|reflexivity].
    apply lookup_delete_ne. intros Heq.
    destruct (HI2 _ _ Hra) as (t & Ht & Hid). destruct (HI2 _ _ Hr) as (t' & Ht' & Hid').
    rewrite Heq in Ht. congruence.
  - unfold Notifications.cancelReminder at 1.
    rewrite Ha, lookup_delete_eq. reflexivity.
  - intros Hnone. unfold Notifications.cancelReminder. rewrite Hnone. reflexivity.
Qed.

Lemma map_fold_delete_timers (m : gmap jsstring ActiveReminder.t) (tm0 : gmap N Timer.t) :
  let tm := map_fold (fun _ r tm => base.delete (ActiveReminder.timeoutId r) tm) tm0 m in
  (forall h t, tm !! h = Some t -> tm0 !! h = Some t) /\
  (forall i r, m !! i = Some r -> tm !! ActiveReminder.timeoutId r = None).
Proof.
  cbv zeta.
  apply (map_fold_weak_ind
           (fun tm (m : gmap jsstring ActiveReminder.t) =>
              (forall h t, tm !! h = Some t -> tm0 !! h = Some t) /\
              (forall i r, m !! i = Some r -> tm !! ActiveReminder.timeoutId r = None))).
  - split; [auto|]. intros i r H. rewrite lookup_empty in H. discriminate.
  - intros i x m' tm Hnone [IH1 IH2]. split.
    + intros h t Ht. apply lookup_delete_Some in Ht. apply IH1. tauto.
    + intros j r Hr. apply lookup_insert_Some in Hr. destruct Hr as [[<- <-]|[Hne Hr]].
      * apply lookup_delete_eq.
      * destruct (decide (ActiveReminder.timeoutId x = ActiveReminder.timeoutId r)) as [->|Hd].
        -- apply lookup_delete_eq.
        -- rewrite lookup_delete_ne by exact Hd. apply (IH2 j r Hr).
Qed.

(** X3: in a page whose timers are all recorded, [clearAllReminders]
    leaves no reminder recorded and no timer pending, and
    [hasActiveReminder] is false for every task afterwards. *)
Theorem clearAllReminders_leaves_nothing_pending :
  forall (w : World),
    timersRecorded w ->
    activeReminders (Notifications.clearAllReminders w) = ∅ /\
    timers (Notifications.clearAllReminders w) = ∅ /\
    forall taskId, Notifications.hasActiveReminder taskId (Notifications.clearAllReminders w)
                   = false.
Proof.
  intros w [HI1 _]. split; [reflexivity|]. split.
  - unfold Notifications.clearAllReminders. cbn [timers setActiveReminders setTimers].
    destruct (map_fold_delete_timers (activeReminders w) (timers w)) as [Hsub Hdel].
    apply map_eq. intros h. rewrite lookup_empty.
    destruct (map_fold _ (timers w) (activeReminders w) !! h) as [t|] eqn:Ht; [|reflexivity].
    pose proof (Hsub _ _ Ht) as Hold. destruct (HI1 _ _ Hold) as (_ & r & Hr & Hh).
    pose proof (Hdel _ _ Hr) as Hnone. rewrite Hh in Hnone. congruence.
  - intros taskId. unfold Notifications.hasActiveReminder, Notifications.clearAllReminders.
    cbn [activeReminders setActiveReminders]. rewrite lookup_empty.
    apply bool_decide_eq_false_2. intros [x Hx]. discriminate.
Qed.

End ReminderExtras.

Section FeedExtras.
Context {P : Platform}.

(** X4: scheduling a reminder for a future instant and cancelling it
    again leaves the recorded reminders and the pending timers as a
    cancellation alone leaves them; [hasActiveReminder] is true for the task
    in between and false afterwards. *)
Theorem schedule_then_cancel_restores :
  forall (now : Z) (taskId taskTitle : jsstring) (datetime : Z) (w : World),
    timersRecorded w ->
    now < datetime ->
    let w1 := snd (Notifications.scheduleReminder now taskId taskTitle datetime w) in
    let w2 := Notifications.cancelReminder taskId w1 in
    Notifications.hasActiveReminder taskId w1 = true /\
    Notifications.hasActiveReminder taskId w2 = false /\
    activeReminders w2 = activeReminders (Notifications.cancelReminder taskId w) /\
    timers w2 = timers (Notifications.cancelReminder taskId w).
Proof.
  intros now taskId taskTitle datetime w HI Hfut w1 w2. subst w1 w2.
  destruct (scheduleReminder_future now taskId taskTitle datetime w Hfut)
    as (_ & Htm & Ha & Hn & _).
  destruct (cancelReminder_fields taskId
              (snd (Notifications.scheduleReminder now taskId taskTitle datetime w)))
    as (_ & Ha2 & Htm2 & _).
  destruct (cancelReminder_fields taskId w) as (Hnc & Hac & _).
  pose proof (cancelReminder_recorded taskId w HI) as [HIc1 _].
  unfold Notifications.hasActiveReminder.
  split; [|split; [|split]].
  - apply bool_decide_eq_true_2. rewrite Ha, lookup_insert_eq. eexists; reflexivity.
  - apply bool_decide_eq_false_2. rewrite Ha2, lookup_delete_eq. intros [x Hx]. discriminate.
  - rewrite Ha2, Ha. rewrite delete_insert_eq. rewrite Hac. apply delete_id.
    apply lookup_delete_eq.
  - rewrite Htm2, Ha, lookup_insert_eq. cbn [ActiveReminder.timeoutId]. rewrite Htm.
    rewrite delete_insert_eq. apply delete_id.
    destruct (timers (Notifications.cancelReminder taskId w) !! nextTimeoutId w) as [t|] eqn:Ht;
      [|reflexivity].
    destruct (HIc1 _ _ Ht) as (Hlt & _). rewrite Hnc in Hlt. lia.
Qed.

Lemma removeFirst_unfold (p s : jsstring) :
  removeFirst p s
  = if startsWith p s then skipn (length p) s
    else match s with
         | [] => []
         | c :: s' => c :: removeFirst p s'
         end.
Proof. destruct s; reflexivity. Qed.

Lemma startsWith_app (q r : jsstring) : startsWith q (q ++ r) = true.
Proof.
  induction q as [|c q IH]; simpl; [reflexivity|]. rewrite N.eqb_refl, IH. reflexivity.
Qed.

Lemma removeFirst_prefix (p s : jsstring) : removeFirst p (p ++ s) = s.
Proof.
  rewrite removeFirst_unfold, startsWith_app.
  rewrite skipn_app, Nat.sub_diag, skipn_all. reflexivity.
Qed.

Lemma snoozeReminder_fields now taskId taskTitle minutes w :
  0 < minutes ->
  let w' := snd (Notifications.snoozeReminder now taskId taskTitle minutes w) in
  activeReminders w' !! taskId
  = Some (ActiveReminder.mk taskId taskTitle (now + minutes * 60 * 1000) (nextTimeoutId w)) /\
  timers w' !! nextTimeoutId w = Some (Timer.mk taskId taskTitle (now + minutes * 60 * 1000)) /\
  notifications w' = notifications w.
Proof.
  intros Hpos w'. subst w'. unfold Notifications.snoozeReminder.
  set (w0 := show _ w).
  assert (Hfut : now < now + minutes * 60 * 1000) by lia.
  destruct (scheduleReminder_future now taskId taskTitle _ w0 Hfut)
    as (_ & Htm & Ha & _ & _ & _ & Hno).
  rewrite Ha, Htm, Hno. change (nextTimeoutId w0) with (nextTimeoutId w).
  rewrite !lookup_insert_eq. repeat split.
Qed.

Lemma removeNotification_gone i w :
  forall n, In n (notifications (Notifications.removeNotification i w)) ->
            Notification.id n <> i /\ In n (notifications w).
Proof.
  intros n Hn. unfold Notifications.removeNotification in Hn. cbn [notifications setNotifications] in Hn.
  apply filter_In in Hn. destruct Hn as [Hin Hb]. split; [|exact Hin].
  apply negb_true_iff in Hb. apply bool_decide_eq_false in Hb. exact Hb.
Qed.

(** X5: when a pending reminder timer runs, an unread reminder
    notification for its task (its message is the text Es hora de: followed
    by the title) is put in front of the feed, which keeps at most 49 of the
    older ones; the timer is spent and the reminder of the task is no longer
    recorded, other timers and reminders are kept, and every timer is still
    recorded. *)
Theorem fireTimer_notifies_and_forgets :
  forall (now : Z) (h : N) (t : Timer.t) (w : World),
    timersRecorded w ->
    timers w !! h = Some t ->
    let w' := Notifications.fireTimer now h w in
    (exists n,
       notifications w' = n :: firstn 49 (notifications w) /\
       Notification.type n = NotificationType.reminder /\
       Notification.taskId n = Some (Timer.taskId t) /\
       Notification.message n = str "Es hora de: " ++ Timer.taskTitle t /\
       Notification.timestamp n = now /\
       Notification.read n = false) /\
    activeReminders w' !! Timer.taskId t = None /\
    timers w' !! h = None /\
    (forall h', h' <> h -> timers w' !! h' = timers w !! h') /\
    (forall i, i <> Timer.taskId t -> activeReminders w' !! i = activeReminders w !! i) /\
    timersRecorded w'.
Proof.
  intros now h t w HI Ht w'. subst w'.
  pose proof (fireTimer_recorded now h w HI) as HI'.
  unfold Notifications.fireTimer in *. rewrite Ht in *.
  split; [|split; [|split; [|split; [|split]]]].
  - eexists. split.
    + cbn [notifications setActiveReminders]. unfold Notifications.createReminderNotification.
      cbn [Notifications.generateId]. rewrite notifications_addNotification. reflexivity.
    + repeat split.
  - cbn. apply lookup_delete_eq.
  - cbn. apply lookup_delete_eq.
  - intros h' Hne. cbn. apply lookup_delete_ne. congruence.
  - intros i Hne. cbn. apply lookup_delete_ne. congruence.
  - exact HI'.
Qed.

(** X6: the snooze action on a notification that carries a task
    identifier and whose message is the text Es hora de: followed by a title
    records for that task and title a reminder due ten minutes after [now],
    with a pending timer, and removes the notification from the feed; the
    notifications with another identifier are kept. *)
Theorem snooze_action_reschedules_fired_reminder :
  forall (now : Z) (n : Notification.t) (task title : jsstring) (w : World),
    Notification.taskId n = Some task ->
    nonEmpty task = true ->
    Notification.message n = str "Es hora de: " ++ title ->
    let w' := Notifications.handleNotificationAction now n (str "snooze") w in
    (exists h,
       activeReminders w' !! task = Some (ActiveReminder.mk task title (now + 600000) h) /\
       timers w' !! h = Some (Timer.mk task title (now + 600000))) /\
    (forall m, In m (notifications w') -> Notification.id m <> Notification.id n) /\
    (forall m, In m (notifications w) -> Notification.id m <> Notification.id n ->
               In m (notifications w')).
Proof.
  intros now n task title w Htask Hne Hmsg w'. subst w'.
  unfold Notifications.handleNotificationAction. rewrite Htask, Hne, Hmsg.
  rewrite removeFirst_prefix.
  rewrite bool_decide_eq_false_2 by (vm_compute; discriminate).
  rewrite bool_decide_eq_true_2 by reflexivity.
  destruct (snoozeReminder_fields now task title 10 w eq_refl) as (Ha & Htm & Hno).
  change (10 * 60 * 1000) with 600000 in *.
  split; [|split].
  - exists (nextTimeoutId w). exact (conj Ha Htm).
  - intros m Hm. apply (removeNotification_gone _ _ m Hm).
  - intros m Hm Hid. unfold Notifications.removeNotification.
    cbn [notifications setNotifications]. apply filter_In. split.
    + rewrite Hno. exact Hm.
    + apply negb_true_iff, bool_decide_eq_false. exact Hid.
Qed.
End FeedExtras.

(** ** The notification feed and its texts *)

Section TextExtras.

(** X7: after [markAllAsRead] the unread count is 0 and every
    notification is read; the feed keeps its length, its identifiers and its
    messages. *)
Theorem markAllAsRead_leaves_none_unread :
  forall (w : World),
    let w' := Notifications.markAllAsRead w in
    Notifications.getUnreadCount w' = 0%nat /\
    length (notifications w') = length (notifications w) /\
    map Notification.id (notifications w') = map Notification.id (notifications w) /\
    map Notification.message (notifications w') = map Notification.message (notifications w) /\
    Forall (fun n => Notification.read n = true) (notifications w').
Proof.
  intros w w'. subst w'. unfold Notifications.getUnreadCount, Notifications.markAllAsRead.
  cbn [notifications setNotifications].
  induction (notifications w) as [|n l IH]; [repeat split; constructor|].
  destruct IH as (H0 & Hl & Hid & Hm & Hall). cbn. repeat split.
  - exact H0.
  - f_equal. exact Hl.
  - f_equal. exact Hid.
  - f_equal. exact Hm.
  - constructor; [reflexivity|exact Hall].
Qed.

(** X8: the text of [getTimeAgo] by the time elapsed since the
    timestamp: under one minute (a timestamp in the future included) it is
    Ahora mismo; from one minute to under one hour it is Hace, the whole
    minutes (1 to 59) and m; from one hour to under one day the whole hours
    (1 to 23) and h; from one day on the whole days and d. *)
Theorem getTimeAgo_buckets :
  forall (now timestamp : Z),
    let diff := now - timestamp in
    (diff < 60000 -> Notifications.getTimeAgo now timestamp = str "Ahora mismo") /\
    (60000 <= diff < 3600000 ->
     Notifications.getTimeAgo now timestamp = str "Hace " ++ showZ (diff / 60000) ++ str "m" /\
     1 <= diff / 60000 <= 59) /\
    (3600000 <= diff < 86400000 ->
     Notifications.getTimeAgo now timestamp = str "Hace " ++ showZ (diff / 3600000) ++ str "h" /\
     1 <= diff / 3600000 <= 23) /\
    (86400000 <= diff ->
     Notifications.getTimeAgo now timestamp = str "Hace " ++ showZ (diff / 86400000) ++ str "d" /\
     1 <= diff / 86400000).
Proof.
  intros now timestamp diff. unfold Notifications.getTimeAgo. fold diff.
  pose proof (Z.div_mod diff 60000 ltac:(lia)) as Hm.
  pose proof (Z.mod_pos_bound diff 60000 ltac:(lia)) as Hmb.
  pose proof (Z.div_mod diff 3600000 ltac:(lia)) as Hh.
  pose proof (Z.mod_pos_bound diff 3600000 ltac:(lia)) as Hhb.
  pose proof (Z.div_mod diff 86400000 ltac:(lia)) as Hd.
  pose proof (Z.mod_pos_bound diff 86400000 ltac:(lia)) as Hdb.
  repeat split; intros;
    destruct (Z.ltb_spec (diff / 60000) 1); try lia;
    destruct (Z.ltb_spec (diff / 60000) 60); try lia;
    destruct (Z.ltb_spec (diff / 3600000) 24); try lia; reflexivity.
Qed.

(** X9: [truncateText] returns a text that fits as it is; a longer one
    is cut to its first [maxLength - 3] code units followed by three dots,
    which has exactly [maxLength] code units when [maxLength] is at least 3
    and is the three dots alone (longer than asked) when it is smaller.  For
    [maxLength] of 3 or more the result never exceeds [maxLength]. *)
Theorem truncateText_fits :
  forall (text : jsstring) (maxLength : Z),
    (Z.of_nat (length text) <= maxLength -> Notifications.truncateText text maxLength = text) /\
    (maxLength < Z.of_nat (length text) ->
     Notifications.truncateText text maxLength
     = firstn (Z.to_nat (maxLength - 3)) text ++ str "..." /\
     (3 <= maxLength ->
      Z.of_nat (length (Notifications.truncateText text maxLength)) = maxLength) /\
     (maxLength < 3 -> Notifications.truncateText text maxLength = str "...")) /\
    (3 <= maxLength ->
     Z.of_nat (length (Notifications.truncateText text maxLength)) <= maxLength).
Proof.
  intros text maxLength. unfold Notifications.truncateText, substring0.
  destruct (Z.leb_spec (Z.of_nat (length text)) maxLength) as [Hle|Hgt].
  - split; [reflexivity|]. split; [lia|]. intros _. exact Hle.
  - split; [lia|].
    assert (Hlen : 3 <= maxLength ->
                   Z.of_nat (length (firstn (Z.to_nat (maxLength - 3)) text ++ str "..."))
                   = maxLength).
    { intros H3. rewrite length_app, length_firstn.
      replace (length (str "...")) with 3%nat by reflexivity. lia. }
    split; [|intros H3; rewrite Hlen by exact H3; lia].
    intros _. split; [reflexivity|]. split; [exact Hlen|].
    intros H3. replace (Z.to_nat (maxLength - 3)) with 0%nat by lia. reflexivity.
Qed.

End TextExtras.

(** ** Deleting tasks *)

Section DeleteFacts.
Context {P : Platform}.

Lemma removeTask_before_redraw now i w :
  exists x,
    App.removeTask now i w = App.render (view x) now x /\
    tasks x = List.filter (fun t => negb (bool_decide (Task.id t = i))) (tasks w) /\
    view x = view w /\ selectedTags x = selectedTags w /\
    activeReminders x = activeReminders w /\ timers x = timers w /\
    notifications x = notifications w /\
    activities x
    = match find (fun t => bool_decide (Task.id t = i)) (tasks w) with
      | Some task =>
          Activity.mk (fst (App.uid w)) ActivityType.delete (Some (Task.id task))
            (Some (Task.title task)) (Int now) None :: firstn 99 (activities w)
      | None => activities w
      end /\
    (find (fun t => bool_decide (Task.id t = i)) (tasks w) = None ->
     x = setTasks (tasks x) w).
Proof.
  unfold App.removeTask. eexists. split; [reflexivity|].
  destruct (find _ (tasks w)) as [task|]; cbn [tasks view selectedTags activeReminders timers
    notifications activities setTasks]; repeat split.
  - apply activities_addActivity.
  - discriminate.
Qed.

(** X10: after [removeTask] the tasks are those of before whose identifier
    differs: every task with the identifier is gone and the others are kept,
    in the order of before when the view is filtered or the array was latest
    first, and up to the order in which the redrawing leaves the array in
    general.  When a task had the identifier, a delete entry with the title
    of one such task is put in front of the Activity Log.  When none had it,
    the call only redraws the page: the log is as before, and the page is
    left as it was when the view is filtered or the array was latest
    first. *)
Theorem removeTask_removes_every_match :
  forall (now : Z) (i : jsstring) (w : World),
    let w' := App.removeTask now i w in
    let kept := List.filter (fun t => negb (bool_decide (Task.id t = i))) (tasks w) in
    (forall t, In t (tasks w') <-> In t (tasks w) /\ Task.id t <> i) /\
    tasks w' ≡ₚ kept /\
    (~ unfiltered w \/ newestFirst (tasks w) -> tasks w' = kept) /\
    (In i (map Task.id (tasks w)) ->
     exists a t,
       activities w' = a :: firstn 99 (activities w) /\
       Activity.type a = ActivityType.delete /\
       Activity.taskId a = Some i /\
       Activity.timestamp a = Int now /\
       In t (tasks w) /\ Task.id t = i /\ Activity.taskTitle a = Some (Task.title t)) /\
    (~ In i (map Task.id (tasks w)) ->
     w' = App.render (view w) now w /\
     activities w' = activities w /\
     (~ unfiltered w \/ newestFirst (tasks w) -> w' = w)).
Proof.
  intros now i w w' kept. subst w' kept.
  destruct (removeTask_before_redraw now i w)
    as (x & -> & Ht & Hv & Hs & _ & _ & _ & Ha & Hx).
  assert (Hkeep : ~ unfiltered w \/ newestFirst (tasks w) ->
                  App.render (view x) now x = x).
  { intros Ho. apply (redraw_same now w x Hv Hs).
    destruct Ho as [Hf|Ho]; [left; exact Hf|right].
    rewrite Ht. apply newestFirst_filter, Ho. }
  split; [|split; [|split; [|split]]].
  - intros t. rewrite render_tasks_In, Ht, filter_In, negb_true_iff, bool_decide_eq_false.
    reflexivity.
  - rewrite <- Ht. apply render_tasks_perm.
  - intros Ho. rewrite (Hkeep Ho). exact Ht.
  - intros Hin. rewrite render_activities, Ha.
    destruct (find _ (tasks w)) as [t|] eqn:Hf.
    + destruct (find_id_Some _ _ _ Hf) as [Hint Hid].
      eexists _, t. split; [reflexivity|]. cbn. rewrite Hid. repeat split; assumption.
    + apply find_id_None in Hf. contradiction.
  - intros Hnot. pose proof (proj2 (find_id_None i (tasks w)) Hnot) as Hf.
    assert (Hxw : x = w).
    { rewrite (Hx Hf), Ht. rewrite filter_all_true; [apply setTasks_same|].
      intros y Hy. apply negb_true_iff, bool_decide_eq_false. intros Hid. apply Hnot.
      apply List.in_map_iff. exists y. split; assumption. }
    rewrite Hxw in *. split; [reflexivity|]. split; [apply render_activities|].
    exact Hkeep.
Qed.

Lemma clearDone_before_redraw now w :
  exists x,
    App.clearDone now w = App.render (view x) now x /\
    tasks x = List.filter (fun t => negb (Task.done t)) (tasks w) /\
    view x = view w /\ selectedTags x = selectedTags w /\
    activeReminders x = activeReminders w /\ timers x = timers w /\
    notifications x = notifications w /\
    activities x
    = (if (0 <? length (List.filter Task.done (tasks w)))%nat
       then Activity.mk (fst (App.uid w)) ActivityType.clear_done None None (Int now)
              (Some (showNat (length (List.filter Task.done (tasks w)))
                     ++ str " tareas eliminadas"))
              :: firstn 99 (activities w)
       else activities w) /\
    ((0 <? length (List.filter Task.done (tasks w)))%nat = false ->
     x = setTasks (tasks x) w).
Proof.
  unfold App.clearDone. eexists. split; [reflexivity|].
  destruct (0 <? _)%nat; cbn [tasks view selectedTags activeReminders timers
    notifications activities setTasks]; repeat split.
  - apply activities_addActivity.
  - discriminate.
Qed.

Lemma filter_none_done (l : list Task.t) :
  length (List.filter Task.done l) = 0%nat ->
  List.filter (fun t => negb (Task.done t)) l = l.
Proof.
  induction l as [|a l IH]; simpl; [reflexivity|].
  destruct (Task.done a); simpl; [discriminate|]. intros H. rewrite IH by exact H.
  reflexivity.
Qed.

Lemma filter_done_gone (l : list Task.t) :
  List.filter Task.done (List.filter (fun t => negb (Task.done t)) l) = [].
Proof.
  induction l as [|a l IH]; simpl; [reflexivity|].
  destruct (Task.done a) eqn:Hd; simpl; [exact IH|]. rewrite Hd. exact IH.
Qed.

(** X11: after [clearDone] the tasks are those of before that are not
    done (in the order of before when the view is filtered or the array was
    latest first), and their number plus the number of done tasks is the
    number of tasks before.  When there was a done task, one clear_done
    entry that tells their number is put in front of the Activity Log; when
    there was none, the call only redraws the page.  Running [clearDone]
    again leaves tasks and log as they are, and the whole page when the
    creation instants are numbers or the view is filtered. *)
Theorem clearDone_leaves_active_tasks_only :
  forall (now now' : Z) (w : World),
    let doneCount := length (List.filter Task.done (tasks w)) in
    let active := List.filter (fun t => negb (Task.done t)) (tasks w) in
    let w' := App.clearDone now w in
    (forall t, In t (tasks w') <-> In t (tasks w) /\ Task.done t = false) /\
    tasks w' ≡ₚ active /\
    (length (tasks w') + doneCount = length (tasks w))%nat /\
    (~ unfiltered w \/ newestFirst (tasks w) -> tasks w' = active) /\
    (doneCount = 0%nat ->
     w' = App.render (view w) now w /\
     activities w' = activities w /\
     (~ unfiltered w \/ newestFirst (tasks w) -> w' = w)) /\
    ((0 < doneCount)%nat ->
     activities w'
     = Activity.mk (fst (App.uid w)) ActivityType.clear_done None None (Int now)
         (Some (showNat doneCount ++ str " tareas eliminadas"))
         :: firstn 99 (activities w)) /\
    tasks (App.clearDone now' w') ≡ₚ tasks w' /\
    activities (App.clearDone now' w') = activities w' /\
    (~ unfiltered w \/ Forall dated (tasks w) -> App.clearDone now' w' = w').
Proof.
  intros now now' w doneCount active w'. subst w' active.
  destruct (clearDone_before_redraw now w)
    as (x & Hcd & Ht & Hv & Hs & _ & _ & _ & Ha & Hx).
  fold doneCount in Ha, Hx. rewrite Hcd.
  assert (Hkeep : ~ unfiltered w \/ newestFirst (tasks w) ->
                  App.render (view x) now x = x).
  { intros Ho. apply (redraw_same now w x Hv Hs).
    destruct Ho as [Hf|Ho]; [left; exact Hf|right].
    rewrite Ht. apply newestFirst_filter, Ho. }
  assert (Hin : forall t, In t (tasks (App.render (view x) now x))
                          <-> In t (tasks w) /\ Task.done t = false).
  { intros t. rewrite render_tasks_In, Ht, filter_In, negb_true_iff. reflexivity. }
  (* the second call *)
  set (w1 := App.render (view x) now x).
  assert (Hnone : length (List.filter Task.done (tasks w1)) = 0%nat).
  { destruct (List.filter Task.done (tasks w1)) as [|t l] eqn:Hf; [reflexivity|].
    assert (Hint : In t (List.filter Task.done (tasks w1))) by (rewrite Hf; left; reflexivity).
    apply filter_In in Hint. destruct Hint as [Hint Hd]. apply Hin in Hint.
    destruct Hint as [_ Hnd]. congruence. }
  destruct (clearDone_before_redraw now' w1)
    as (y & Hcd2 & Ht2 & Hv2 & Hs2 & _ & _ & _ & Ha2 & Hy).
  rewrite Hnone in Ha2, Hy. cbn [length Nat.ltb Nat.leb] in Ha2, Hy.
  assert (Hy1 : y = w1).
  { rewrite (Hy eq_refl), Ht2, (filter_none_done _ Hnone). apply setTasks_same. }
  rewrite Hy1 in Hcd2.
  split; [exact Hin|]. split; [|split; [|split; [|split; [|split; [|split; [|split]]]]]].
  - subst w1. rewrite <- Ht. apply render_tasks_perm.
  - subst w1. rewrite (Permutation_length (render_tasks_perm (view x) now x)), Ht.
    subst doneCount. clear. induction (tasks w) as [|a l IH]; simpl; [reflexivity|].
    destruct (Task.done a); simpl; lia.
  - intros Ho. subst w1. rewrite (Hkeep Ho). exact Ht.
  - intros H0. rewrite H0 in Ha, Hx. cbn [Nat.ltb Nat.leb] in Ha, Hx.
    assert (Hxw : x = w).
    { rewrite (Hx eq_refl), Ht, (filter_none_done _ H0). apply setTasks_same. }
    subst w1. rewrite Hxw in *. split; [reflexivity|].
    split; [apply render_activities|exact Hkeep].
  - intros Hpos. subst w1. rewrite render_activities, Ha.
    destruct (Nat.ltb_spec 0 doneCount) as [_|Hle]; [reflexivity|lia].
  - rewrite Hcd2. apply render_tasks_perm.
  - rewrite Hcd2. apply render_activities.
  - intros Ho. rewrite Hcd2.
    assert (Hu : unfiltered w1 <-> unfiltered w).
    { subst w1. rewrite (unfiltered_same x (App.render (view x) now x));
        [apply (unfiltered_same w x Hv Hs)|apply render_view|apply render_selectedTags]. }
    apply (redraw_same now' w1 w1 eq_refl eq_refl).
    destruct Ho as [Hf|Hd]; [left; rewrite Hu; exact Hf|].
    subst w1. apply redraw_settled. rewrite Ht.
    rewrite List.Forall_forall in *. intros t Hint. apply filter_In in Hint. apply Hd, Hint.
Qed.

Lemma resetAll_before_redraw now w :
  exists x,
    App.resetAll now w
    = show (showSuccess ([161%N] ++ str "Listo!")
              (str "Se eliminaron " ++ showNat (length (tasks w))
               ++ str " tareas correctamente."))
        (App.render (view x) now x) /\
    tasks x = [] /\
    view x = view w /\ selectedTags x = selectedTags w /\
    availableTags x = availableTags w /\
    activeReminders x = activeReminders w /\ timers x = timers w /\
    notifications x = notifications w /\ shown x = shown w /\
    activities x
    = (if (0 <? length (tasks w))%nat
       then Activity.mk (fst (App.uid w)) ActivityType.reset_all None None (Int now)
              (Some (showNat (length (tasks w)) ++ str " tareas eliminadas"))
              :: firstn 99 (activities w)
       else activities w).
Proof.
  unfold App.resetAll. eexists. split; [reflexivity|].
  destruct (0 <? _)%nat; cbn [tasks view selectedTags availableTags activeReminders timers
    notifications activities shown setTasks]; repeat split.
  apply activities_addActivity.
Qed.

Lemma removeTask_frame now i w :
  activeReminders (App.removeTask now i w) = activeReminders w /\
  timers (App.removeTask now i w) = timers w /\
  notifications (App.removeTask now i w) = notifications w.
Proof.
  destruct (removeTask_before_redraw now i w) as (x & -> & _ & _ & _ & Ha & Ht & Hn & _).
  rewrite render_activeReminders, render_timers, render_notifications. tauto.
Qed.

Lemma clearDone_frame now w :
  activeReminders (App.clearDone now w) = activeReminders w /\
  timers (App.clearDone now w) = timers w /\
  notifications (App.clearDone now w) = notifications w.
Proof.
  destruct (clearDone_before_redraw now w) as (x & -> & _ & _ & _ & Ha & Ht & Hn & _).
  rewrite render_activeReminders, render_timers, render_notifications. tauto.
Qed.

Lemma resetAll_frame now w :
  activeReminders (App.resetAll now w) = activeReminders w /\
  timers (App.resetAll now w) = timers w /\
  notifications (App.resetAll now w) = notifications w.
Proof.
  destruct (resetAll_before_redraw now w)
    as (x & -> & _ & _ & _ & _ & Ha & Ht & Hn & _).
  cbn [activeReminders timers notifications show].
  rewrite render_activeReminders, render_timers, render_notifications. tauto.
Qed.

(** X12: [removeTask], [clearDone] and [resetAll] never touch the
    reminder scheduler: a reminder recorded for a task stays recorded with
    its timer pending after the task is deleted, and when that timer runs the
    reminder notification of the deleted task is put in the feed. *)
Theorem deleting_tasks_keeps_their_reminders :
  forall (now now' : Z) (i : jsstring) (r : ActiveReminder.t) (w w' : World),
    timersRecorded w ->
    activeReminders w !! i = Some r ->
    w' = App.removeTask now i w \/ w' = App.clearDone now w \/ w' = App.resetAll now w ->
    activeReminders w' = activeReminders w /\
    timers w' = timers w /\
    Notifications.hasActiveReminder i w' = true /\
    exists n,
      notifications (Notifications.fireTimer now' (ActiveReminder.timeoutId r) w')
      = n :: firstn 49 (notifications w) /\
      Notification.type n = NotificationType.reminder /\
      Notification.taskId n = Some i.
Proof.
  intros now now' i r w w' [HI1 HI2] Hr Hw'.
  assert (Hfr : activeReminders w' = activeReminders w /\ timers w' = timers w /\
                notifications w' = notifications w).
  { destruct Hw' as [-> | [-> | ->]];
      [apply removeTask_frame|apply clearDone_frame|apply resetAll_frame]. }
  destruct Hfr as (Ha & Htm & Hno).
  split; [exact Ha|]. split; [exact Htm|]. split.
  - unfold Notifications.hasActiveReminder. apply bool_decide_eq_true_2.
    rewrite Ha, Hr. eexists; reflexivity.
  - destruct (HI2 _ _ Hr) as (t & Ht & Hid).
    unfold Notifications.fireTimer. rewrite Htm, Ht.
    eexists. split.
    + cbn [notifications setActiveReminders].
      unfold Notifications.createReminderNotification. cbn [Notifications.generateId].
      rewrite notifications_addNotification. cbn [notifications setDraws setTimers].
      rewrite Hno. reflexivity.
    + cbn. rewrite Hid. repeat split.
Qed.

(** X13: [resetAll] (confirmed) empties the task list and nothing else:
    the available and the selected tags are kept, the Activity Log is
    kept and, when there was a task, gains in front one reset_all entry that
    tells the number of tasks; the success message tells that number. *)
Theorem resetAll_empties_the_tasks_only :
  forall (now : Z) (w : World),
    let w' := App.resetAll now w in
    tasks w' = [] /\
    availableTags w' = availableTags w /\
    selectedTags w' = selectedTags w /\
    (tasks w = [] -> activities w' = activities w) /\
    (tasks w <> [] ->
     activities w'
     = Activity.mk (fst (App.uid w)) ActivityType.reset_all None None (Int now)
         (Some (showNat (length (tasks w)) ++ str " tareas eliminadas"))
         :: firstn 99 (activities w)) /\
    shown w'
    = shown w ++ [showSuccess ([161%N] ++ str "Listo!")
                    (str "Se eliminaron " ++ showNat (length (tasks w))
                     ++ str " tareas correctamente.")].
Proof.
  intros now w w'. subst w'.
  destruct (resetAll_before_redraw now w)
    as (x & -> & Ht & _ & Hs & Hg & _ & _ & _ & Hsh & Ha).
  cbn [tasks availableTags selectedTags activities shown show].
  rewrite render_availableTags, render_selectedTags, render_activities, render_shown.
  rewrite Hg, Hs, Ha, Hsh.
  split.
  { pose proof (render_tasks_perm (view x) now x) as Hp. rewrite Ht in Hp.
    apply Permutation_nil_r in Hp. exact Hp. }
  split; [reflexivity|]. split; [reflexivity|].
  destruct (tasks w) as [|t l]; cbn [length Nat.ltb Nat.leb].
  - split; [reflexivity|]. split; [intros H; contradiction|reflexivity].
  - split; [discriminate|]. split; [reflexivity|reflexivity].
Qed.

End DeleteFacts.

(** ** Adding and editing tasks *)

Section TaskExtras.
Context {P : Platform}.

Lemma scheduleReminder_activities now taskId taskTitle datetime w :
  activities (snd (Notifications.scheduleReminder now taskId taskTitle datetime w))
  = activities w.
Proof.
  destruct (Z_lt_le_dec now datetime) as [Hfut|Hpast].
  - apply (scheduleReminder_future now taskId taskTitle datetime w Hfut).
  - rewrite (scheduleReminder_past now taskId taskTitle datetime w Hpast). reflexivity.
Qed.

(** What [scheduleReminder] never touches. *)
Lemma scheduleReminder_state now taskId taskTitle datetime w :
  let w' := snd (Notifications.scheduleReminder now taskId taskTitle datetime w) in
  availableTags w' = availableTags w /\ selectedTags w' = selectedTags w /\
  view w' = view w /\ draws w' = draws w.
Proof.
  cbv zeta. unfold Notifications.scheduleReminder.
  destruct (datetime - now <=? 0); [repeat split|].
  unfold Notifications.cancelReminder.
  destruct (activeReminders w !! taskId); repeat split.
Qed.


(** [addTask] with a title that is not blank, up to the redrawing. *)
Lemma addTask_before_redraw now later title dateValue timeValue w :
  nonEmpty (trim title) = true ->
  let rd := match App.getReminderDatetime now dateValue timeValue with
            | Some z => if z =? 0 then None else Some z
            | None => None
            end in
  let i := fst (App.uid w) in
  let w1 := snd (App.uid w) in
  let w2 := match rd with
            | Some z => snd (Notifications.scheduleReminder later i (trim title) z w1)
            | None => w1
            end in
  let t := Task.mk i (trim title) false (Int now) None None (Some (selectedTags w))
             (match rd with
              | Some z => Some (Reminder.mk z false)
              | None => None
              end) in
  exists x,
    App.addTask now later title dateValue timeValue w = App.render (view x) now x /\
    tasks x = t :: tasks w /\
    view x = view w /\ selectedTags x = [] /\ availableTags x = availableTags w /\
    activeReminders x = activeReminders w2 /\ timers x = timers w2 /\
    shown x = shown w2 /\ notifications x = notifications w2 /\
    activities x
    = Activity.mk (fst (App.uid w1)) ActivityType.create (Some i) (Some (trim title))
        (Int now)
        (match rd with
         | Some z => Some (str "Con recordatorio: " ++ toLocaleString (Int z))
         | None => None
         end)
        :: firstn 99 (activities w).
Proof.
  intros Hne rd i w1 w2 t. unfold App.addTask. rewrite Hne. cbn [negb].
  fold rd. unfold App.uid in *. cbn [fst snd] in *. fold i. fold w1.
  unfold Notifications.scheduleTaskReminder. fold w2.
  eexists. split; [reflexivity|].
  assert (Ht2 : tasks w2 = tasks w).
  { subst w2. destruct rd; [|reflexivity]. rewrite scheduleReminder_tasks. reflexivity. }
  assert (Ha2 : activities w2 = activities w).
  { subst w2. destruct rd; [|reflexivity]. rewrite scheduleReminder_activities.
    reflexivity. }
  assert (Hst : availableTags w2 = availableTags w /\ selectedTags w2 = selectedTags w /\
                view w2 = view w /\ draws w2 = draws w1).
  { subst w2. destruct rd as [z|]; [|repeat split].
    destruct (scheduleReminder_state later i (trim title) z w1) as (H1 & H2 & H3 & H4).
    rewrite H1, H2, H3, H4. repeat split. }
  destruct Hst as (Hg & Hs & Hv & Hd).
  rewrite activities_addActivity.
  cbn [tasks view selectedTags availableTags activeReminders timers shown notifications
       activities App.addActivity setSelectedTags setTasks setActivities App.uid fst snd
       setDraws draws].
  rewrite Ht2, Ha2, Hg, Hv, Hd. repeat split.
Qed.


Lemma getReminderDatetime_Some now dateValue timeValue z :
  App.getReminderDatetime now dateValue timeValue = Some z ->
  now < z /\ nonEmpty dateValue = true /\ nonEmpty timeValue = true /\
  parseDate (dateValue ++ str "T" ++ timeValue) = Int z.
Proof.
  unfold App.getReminderDatetime.
  destruct (nonEmpty dateValue), (nonEmpty timeValue); cbn; try discriminate.
  destruct (parseDate _) as [|z']; [discriminate|].
  destruct (Z.leb_spec z' now); [discriminate|]. intros [= ->]. repeat split. exact H.
Qed.

Lemma getReminderDatetime_None now dateValue timeValue :
  App.getReminderDatetime now dateValue timeValue = None ->
  nonEmpty dateValue = false \/ nonEmpty timeValue = false \/
  parseDate (dateValue ++ str "T" ++ timeValue) = NaN \/
  exists z, parseDate (dateValue ++ str "T" ++ timeValue) = Int z /\ z <= now.
Proof.
  unfold App.getReminderDatetime.
  destruct (nonEmpty dateValue); [|left; reflexivity].
  destruct (nonEmpty timeValue); [|right; left; reflexivity]. cbn.
  destruct (parseDate _) as [|z]; [right; right; left; reflexivity|].
  destruct (Z.leb_spec z now); [|discriminate].
  intros _. right. right. right. exists z. split; [reflexivity|assumption].
Qed.

(** X15: [addTask] (clock not before 1970, title not blank) gives the
    new task a reminder exactly when the date and time inputs parse to an
    instant after [now], the clock as [getReminderDatetime] reads it; in
    every other case (an input empty, a text that is no date, an instant
    that is not after [now]) the task is added without reminder, the
    scheduler is left as it was and nothing is shown.  When the task gets a
    reminder, [scheduleReminder] checks the instant against its own reading
    [later] of the clock: when the instant is still after it, the reminder
    is recorded for the new task with a pending timer and the toast of the
    scheduler is shown; when the clock has reached the instant in between,
    the scheduler is left as it was and shows the error about the date,
    while the task keeps the reminder. *)
Theorem addTask_schedules_future_reminders_only :
  forall (now later : Z) (title dateValue timeValue : jsstring) (w : World),
    0 <= now ->
    nonEmpty (trim title) = true ->
    let w' := App.addTask now later title dateValue timeValue w in
    let i := fst (App.uid w) in
    match App.getReminderDatetime now dateValue timeValue with
    | Some z =>
        now < z /\
        parseDate (dateValue ++ str "T" ++ timeValue) = Int z /\
        (exists t, tasks w' ≡ₚ t :: tasks w /\ Task.id t = i /\
                   Task.reminder t = Some (Reminder.mk z false)) /\
        (later < z ->
         activeReminders w' !! i
         = Some (ActiveReminder.mk i (trim title) z (nextTimeoutId w)) /\
         timers w' !! nextTimeoutId w = Some (Timer.mk i (trim title) z) /\
         shown w'
         = shown w ++ [showToast (str "Recordatorio programado para "
                                  ++ toLocaleString (Int z)) (str "success")]) /\
        (z <= later ->
         activeReminders w' = activeReminders w /\
         timers w' = timers w /\
         shown w' = shown w ++ [pastDateError])
    | None =>
        (nonEmpty dateValue = false \/ nonEmpty timeValue = false \/
         parseDate (dateValue ++ str "T" ++ timeValue) = NaN \/
         exists z, parseDate (dateValue ++ str "T" ++ timeValue) = Int z /\ z <= now) /\
        activeReminders w' = activeReminders w /\
        timers w' = timers w /\
        (exists t, tasks w' ≡ₚ t :: tasks w /\ Task.id t = i /\ Task.reminder t = None) /\
        shown w' = shown w
    end.
Proof.
  intros now later title dateValue timeValue w Hnow Hne w' i. subst w' i.
  destruct (addTask_before_redraw now later title dateValue timeValue w Hne)
    as (x & -> & Ht & _ & _ & _ & Har & Htm & Hsh & _).
  rewrite render_activeReminders, render_timers, render_shown, Har, Htm, Hsh.
  assert (Hperm : tasks (App.render (view x) now x) ≡ₚ tasks x) by apply render_tasks_perm.
  rewrite Ht in Hperm. clear Har Htm Hsh Ht.
  unfold App.uid in *. cbn [fst snd] in *.
  set (i := sliceStr 2 10 (random36 (draws w))) in *.
  set (w1 := setDraws (S (draws w)) w) in *.
  destruct (App.getReminderDatetime now dateValue timeValue) as [z|] eqn:Hg.
  - destruct (getReminderDatetime_Some _ _ _ _ Hg) as (Hfut & _ & _ & Hp).
    destruct (Z.eqb_spec z 0) as [H0|_]; [lia|].
    split; [exact Hfut|]. split; [exact Hp|]. split; [|split].
    + eexists. split; [exact Hperm|]. split; reflexivity.
    + intros Hl.
      destruct (scheduleReminder_future later i (trim title) z w1 Hl)
        as (_ & Htm & Ha & _).
      rewrite Ha, Htm. change (nextTimeoutId w1) with (nextTimeoutId w).
      rewrite !lookup_insert_eq. split; [reflexivity|]. split; [reflexivity|].
      unfold Notifications.scheduleReminder.
      destruct (Z.leb_spec (z - later) 0) as [Hle|_]; [lia|].
      unfold Notifications.cancelReminder. destruct (activeReminders w1 !! i); reflexivity.
    + intros Hl. rewrite (scheduleReminder_past later i (trim title) z w1 Hl).
      repeat split.
  - split; [exact (getReminderDatetime_None _ _ _ Hg)|].
    split; [reflexivity|]. split; [reflexivity|]. split; [|reflexivity].
    eexists. split; [exact Hperm|]. split; reflexivity.
Qed.

(** X16: [editTaskTitle] changes titles only: there is a list of tasks
    that has, place by place, the identifiers, flags, dates, tags and
    reminders of the tasks of before, with every task of another identifier
    unchanged, and the tasks afterwards are that list, in its order when the
    view is filtered or the array was latest first, and up to the order in
    which the redrawing leaves it in general.  With an unknown identifier
    the call only shows the error; with the dialog dismissed or an empty
    answer it leaves the page as it was; with an answer that is blank after
    trimming it shows the error about the title and keeps tasks and log;
    otherwise every task with the identifier gets the trimmed answer as its
    title and an edit entry that quotes the old and the new title is put in
    front of the log. *)
Theorem editTaskTitle_changes_titles_only :
  forall (now : Z) (i : jsstring) (answer : option jsstring) (w : World),
    let w' := App.editTaskTitle now i answer w in
    (exists l,
       Forall2 (fun t t' =>
                  Task.id t' = Task.id t /\ Task.done t' = Task.done t /\
                  Task.createdAt t' = Task.createdAt t /\
                  Task.completedAt t' = Task.completedAt t /\
                  Task.tags t' = Task.tags t /\ Task.reminder t' = Task.reminder t /\
                  (Task.id t <> i -> t' = t))
         (tasks w) l /\
       tasks w' ≡ₚ l /\
       (~ unfiltered w \/ newestFirst (tasks w) -> tasks w' = l)) /\
    (~ In i (map Task.id (tasks w)) ->
     w' = show (showError (str "Tarea no encontrada")
                  (str "No se pudo encontrar la tarea solicitada.")) w) /\
    (answer = None \/ answer = Some [] -> In i (map Task.id (tasks w)) -> w' = w) /\
    (forall value,
       answer = Some value -> In i (map Task.id (tasks w)) ->
       nonEmpty value = true -> nonEmpty (trim value) = false ->
       tasks w' = tasks w /\ activities w' = activities w /\
       shown w' = shown w ++ [showError (str "T" ++ [237%N] ++ str "tulo inv" ++ [225%N]
                                         ++ str "lido")
                                (str "El t" ++ [237%N] ++ str "tulo no puede estar vac"
                                 ++ [237%N] ++ str "o.")]) /\
    (forall value,
       answer = Some value -> In i (map Task.id (tasks w)) ->
       nonEmpty (trim value) = true ->
       Forall (fun t' => Task.id t' = i -> Task.title t' = trim value) (tasks w') /\
       exists a t,
         activities w' = a :: firstn 99 (activities w) /\
         Activity.type a = ActivityType.edit /\
         Activity.taskId a = Some i /\
         Activity.taskTitle a = Some (trim value) /\
         In t (tasks w) /\ Task.id t = i /\
         Activity.details a
         = Some (str "De: " ++ [DQUOTE] ++ Task.title t ++ [DQUOTE] ++ str " a: "
                 ++ [DQUOTE] ++ trim value ++ [DQUOTE])).
Proof.
  intros now i answer w w'. subst w'.
  set (R := fun t t' : Task.t =>
              Task.id t' = Task.id t /\ Task.done t' = Task.done t /\
              Task.createdAt t' = Task.createdAt t /\
              Task.completedAt t' = Task.completedAt t /\
              Task.tags t' = Task.tags t /\ Task.reminder t' = Task.reminder t /\
              (Task.id t <> i -> t' = t)).
  assert (Hsame : forall l : list Task.t, Forall2 R l l).
  { intros l. induction l; constructor; [repeat split|assumption]. }
  set (retitle := fun s (x : Task.t) =>
                    if bool_decide (Task.id x = i) then Task.withTitle x s else x).
  assert (Hmap : forall s (l : list Task.t), Forall2 R l (map (retitle s) l)).
  { intros s l. induction l as [|a l IH]; [constructor|]. cbn [map]. constructor; [|exact IH].
    unfold retitle. destruct (bool_decide_reflect (Task.id a = i)) as [He|Hn].
    - cbn. repeat split. intros Hc. contradiction.
    - repeat split. }
  assert (Htitle : forall s (l : list Task.t),
            Forall (fun t' => Task.id t' = i -> Task.title t' = s) (map (retitle s) l)).
  { intros s l. induction l as [|a l IH]; [constructor|]. cbn [map]. constructor; [|exact IH].
    unfold retitle. destruct (bool_decide_reflect (Task.id a = i)) as [He|Hn]; [reflexivity|].
    intros Hc. contradiction. }
  assert (Hcreated : forall s t, Task.createdAt (retitle s t) = Task.createdAt t).
  { intros s t. unfold retitle. destruct (bool_decide (Task.id t = i)); reflexivity. }
  assert (Hid : forall l : list Task.t,
            (exists l', Forall2 R l l' /\ l ≡ₚ l' /\
                        (~ unfiltered w \/ newestFirst (tasks w) -> l = l'))).
  { intros l. exists l. split; [apply Hsame|]. split; reflexivity. }
  unfold App.editTaskTitle.
  destruct (find (fun x => bool_decide (Task.id x = i)) (tasks w)) as [t|] eqn:Hf.
  - destruct (find_id_Some _ _ _ Hf) as [Hint Hidt].
    assert (Hin : In i (map Task.id (tasks w))).
    { apply List.in_map_iff. exists t. split; assumption. }
    split; [|split; [|split; [|split]]].
    + destruct answer as [value|]; [|apply Hid].
      destruct (nonEmpty value); cbn [negb]; [|apply Hid].
      destruct (nonEmpty (trim value)); cbn [negb]; [|apply Hid].
      cbn [tasks show].
      set (x := setTasks _ _).
      assert (Hx : tasks x = map (retitle (trim value)) (tasks w)).
      { subst x. cbn [tasks setTasks].
        rewrite (proj1 (proj2 (proj2 (proj2 (addActivity_frame _ _ _ _ _ _))))).
        reflexivity. }
      exists (map (retitle (trim value)) (tasks w)).
      split; [apply Hmap|]. split; [rewrite <- Hx; apply render_tasks_perm|].
      intros Ho. rewrite (redraw_same now w x eq_refl eq_refl); [exact Hx|].
      destruct Ho as [Ho|Ho]; [left; exact Ho|right].
      rewrite Hx. apply newestFirst_map; [apply Hcreated|exact Ho].
    + intros Hnot. contradiction.
    + intros [-> | ->] _; reflexivity.
    + intros value -> _ Hv Htv. rewrite Hv, Htv. cbn. repeat split.
    + intros value -> _ Htv.
      assert (Hv : nonEmpty value = true).
      { destruct value as [|c r]; [discriminate Htv|reflexivity]. }
      rewrite Hv, Htv. cbn [negb]. cbn [tasks activities show].
      rewrite render_activities. split.
      * apply render_Forall. cbn [tasks setTasks].
        rewrite (proj1 (proj2 (proj2 (proj2 (addActivity_frame _ _ _ _ _ _))))).
        apply Htitle.
      * eexists _, t. cbn [activities setTasks]. rewrite activities_addActivity.
        split; [reflexivity|]. cbn. rewrite Hidt. repeat split; assumption.
  - apply find_id_None in Hf.
    split; [apply Hid|]. split; [reflexivity|].
    split; [intros _ Hin; contradiction|].
    split; intros value _ Hin; contradiction.
Qed.

End TaskExtras.

(** ** Tags *)

Section TagFacts.
Context {P : Platform}.

Lemma ListNoDup_snoc {A : Type} (x : A) (a : list A) :
  List.NoDup a -> ~ In x a -> List.NoDup (a ++ [x]).
Proof.
  intros Hnd Hnot. apply NoDup_ListNoDup. apply NoDup_app.
  split; [apply NoDup_ListNoDup, Hnd|]. split; [|apply NoDup_singleton].
  intros y Hy Hy'. apply list_elem_of_In in Hy, Hy'. destruct Hy' as [<-|[]]. contradiction.
Qed.

Lemma includesStr_In x a : includesStr x a = true <-> In x a.
Proof.
  unfold includesStr. rewrite existsb_exists. split.
  - intros (y & Hin & Hb). apply bool_decide_eq_true in Hb. subst y. exact Hin.
  - intros Hin. exists x. split; [exact Hin|]. apply bool_decide_eq_true_2. reflexivity.
Qed.

Lemma includesStr_not_In x a : includesStr x a = false <-> ~ In x a.
Proof.
  rewrite <- includesStr_In. destruct (includesStr x a); split; intros H; congruence.
Qed.

(** X17: [addNewTag] keeps the available tags free of duplicates and
    of empty names: it appends the trimmed name when that is not empty and
    not yet available, and leaves the page as it was otherwise; adding the
    same name again changes nothing. *)
Theorem addNewTag_keeps_tags_distinct :
  forall (tagName : jsstring) (w : World),
    let w' := App.addNewTag tagName w in
    (List.NoDup (availableTags w) -> List.NoDup (availableTags w')) /\
    (Forall (fun s => nonEmpty s = true) (availableTags w) ->
     Forall (fun s => nonEmpty s = true) (availableTags w')) /\
    (nonEmpty (trim tagName) = true -> In (trim tagName) (availableTags w')) /\
    (nonEmpty (trim tagName) = false \/ In (trim tagName) (availableTags w) -> w' = w) /\
    (exists added, availableTags w' = availableTags w ++ added /\ (length added <= 1)%nat) /\
    App.addNewTag tagName w' = w'.
Proof.
  intros tagName w w'. subst w'. unfold App.addNewTag.
  destruct (nonEmpty (trim tagName)) eqn:Hne; cbn [negb orb].
  - destruct (includesStr (trim tagName) (availableTags w)) eqn:Hinc.
    + apply includesStr_In in Hinc.
      repeat split; try tauto. exists []. rewrite app_nil_r. split; [reflexivity|cbn; lia].
      rewrite (proj2 (includesStr_In _ _) Hinc). reflexivity.
    + apply includesStr_not_In in Hinc. cbn [availableTags setAvailableTags].
      assert (Hnow : includesStr (trim tagName) (availableTags w ++ [trim tagName]) = true).
      { apply includesStr_In, in_or_app. right. left. reflexivity. }
      rewrite Hnow.
      split; [|split; [|split; [|split; [|split]]]].
      * intros Hnd. apply ListNoDup_snoc; assumption.
      * intros Hall. apply Forall_app. split; [exact Hall|]. constructor; [exact Hne|constructor].
      * intros _. apply in_or_app. right. left. reflexivity.
      * intros [Hc|Hc]; [discriminate|contradiction].
      * exists [trim tagName]. split; [reflexivity|cbn; lia].
      * reflexivity.
  - split; [tauto|]. split; [tauto|]. split; [discriminate|]. split; [reflexivity|].
    split; [|reflexivity].
    exists []. rewrite app_nil_r. split; [reflexivity|cbn; lia].
Qed.

Lemma spliceFirst_In x y a : In y (spliceFirst x a) -> In y a.
Proof.
  induction a as [|z r IH]; simpl; [tauto|].
  destruct (bool_decide (z = x)); [tauto|]. intros [H|H]; [left; exact H|right; apply IH, H].
Qed.

Lemma spliceFirst_NoDup x a :
  List.NoDup a -> List.NoDup (spliceFirst x a) /\ ~ In x (spliceFirst x a) /\
                  (forall y, y <> x -> In y a -> In y (spliceFirst x a)).
Proof.
  induction a as [|z r IH]; intros Hnd; simpl.
  - split; [constructor|]. split; tauto.
  - inversion Hnd as [|? ? Hz Hr]; subst.
    destruct (bool_decide_reflect (z = x)) as [->|Hne].
    + split; [exact Hr|]. split; [exact Hz|]. intros y Hy [Hc|Hin]; [congruence|exact Hin].
    + destruct (IH Hr) as (IH1 & IH2 & IH3). split; [|split].
      * constructor; [|exact IH1]. intros Hc. apply Hz. eapply spliceFirst_In, Hc.
      * intros [Hc|Hc]; [contradiction|]. apply IH2, Hc.
      * intros y Hy [->|Hin]; [left; reflexivity|right; apply IH3; assumption].
Qed.

Lemma spliceFirst_app_last x a : ~ In x a -> spliceFirst x (a ++ [x]) = a.
Proof.
  induction a as [|z r IH]; intros Hnot; simpl.
  - rewrite bool_decide_eq_true_2 by reflexivity. reflexivity.
  - rewrite bool_decide_eq_false_2 by (intros ->; apply Hnot; left; reflexivity).
    f_equal. apply IH. intros H. apply Hnot. right. exact H.
Qed.

(** X18: on a selection without duplicates, [toggleTagSelection]
    flips the membership of the one tag and of no other, and keeps the
    selection free of duplicates; toggling twice gives back the same tags
    (the very same page when the tag was not selected at first, the tag moved
    to the end otherwise).  Tasks and available tags are not touched. *)
Theorem toggleTagSelection_flips_one_tag :
  forall (tagName : jsstring) (w : World),
    List.NoDup (selectedTags w) ->
    let w' := App.toggleTagSelection tagName w in
    List.NoDup (selectedTags w') /\
    (In tagName (selectedTags w') <-> ~ In tagName (selectedTags w)) /\
    (forall other, other <> tagName ->
                   (In other (selectedTags w') <-> In other (selectedTags w))) /\
    (~ In tagName (selectedTags w) -> App.toggleTagSelection tagName w' = w) /\
    selectedTags (App.toggleTagSelection tagName w') ≡ₚ selectedTags w /\
    tasks w' = tasks w /\ availableTags w' = availableTags w.
Proof.
  intros tagName w Hnd w'. subst w'. unfold App.toggleTagSelection.
  destruct (includesStr tagName (selectedTags w)) eqn:Hinc.
  - apply includesStr_In in Hinc.
    destruct (spliceFirst_NoDup tagName _ Hnd) as (H1 & H2 & H3).
    cbn [selectedTags setSelectedTags].
    rewrite (proj2 (includesStr_not_In _ _) H2). cbn [selectedTags setSelectedTags].
    split; [exact H1|]. split; [tauto|]. split; [|split; [tauto|split; [|split; reflexivity]]].
    + intros other Hne. split; [apply spliceFirst_In|apply H3, Hne].
    + apply NoDup_Permutation.
      * apply NoDup_ListNoDup, ListNoDup_snoc; assumption.
      * apply NoDup_ListNoDup, Hnd.
      * intros x. rewrite !list_elem_of_In, in_app_iff. split.
        -- intros [H|[<-|[]]]; [eapply spliceFirst_In, H|exact Hinc].
        -- intros Hx. destruct (decide (x = tagName)) as [->|Hne];
             [right; left; reflexivity|left; apply H3; assumption].
  - apply includesStr_not_In in Hinc. cbn [selectedTags setSelectedTags].
    assert (Hnow : includesStr tagName (selectedTags w ++ [tagName]) = true).
    { apply includesStr_In, in_or_app. right. left. reflexivity. }
    rewrite Hnow. cbn [selectedTags setSelectedTags].
    rewrite (spliceFirst_app_last _ _ Hinc).
    split; [|split; [|split; [|split; [|split; [|split; reflexivity]]]]].
    + apply ListNoDup_snoc; assumption.
    + rewrite in_app_iff. split; [tauto|]. intros _. right. left. reflexivity.
    + intros other Hne. rewrite in_app_iff. split; [|tauto].
      intros [H|[H|[]]]; [exact H|congruence].
    + intros _. destruct w; reflexivity.
    + reflexivity.
Qed.


End TagFacts.

(** ** The visible tasks and the redrawing of the page *)

Section ViewFacts.
Context {P : Platform}.

Lemma filter_twice {A : Type} (f g : A -> bool) (l : list A) :
  List.filter g (List.filter f l) = List.filter (fun x => f x && g x) l.
Proof.
  induction l as [|a l IH]; simpl; [reflexivity|].
  destruct (f a); simpl; [destruct (g a); rewrite IH; reflexivity|exact IH].
Qed.

Lemma filter_always {A : Type} (l : list A) : List.filter (fun _ => true) l = l.
Proof. induction l as [|a l IH]; simpl; [reflexivity|]. rewrite IH. reflexivity. Qed.

Lemma filter_same {A : Type} (f g : A -> bool) (l : list A) :
  (forall x, f x = g x) -> List.filter f l = List.filter g l.
Proof.
  intros H. induction l as [|a l IH]; simpl; [reflexivity|]. rewrite H, IH. reflexivity.
Qed.

Lemma filteredTasks_isVisible v now w :
  fst (App.filteredTasks v now w) = List.filter (isVisible v now (selectedTags w)) (tasks w).
Proof.
  unfold App.filteredTasks.
  assert (H1 : fst (match View.filter v with
                    | Filter.active =>
                        (List.filter (fun t => negb (Task.done t)) (tasks w), false)
                    | Filter.done => (List.filter Task.done (tasks w), false)
                    | Filter.recent =>
                        (List.filter
                           (fun t => gt (Task.createdAt t) (Int (now - 24 * 60 * 60 * 1000)))
                           (tasks w), false)
                    | Filter.old =>
                        (List.filter (App.createdBefore (now - 7 * 24 * 60 * 60 * 1000))
                           (tasks w), false)
                    | Filter.all => (tasks w, true)
                    end)
               = List.filter (passesFilter (View.filter v) now) (tasks w)).
  { destruct (View.filter v); cbn [fst passesFilter]; try reflexivity.
    symmetry. apply filter_always. }
  destruct (match View.filter v with
            | Filter.all => _ | Filter.active => _ | Filter.done => _
            | Filter.recent => _ | Filter.old => _ end) as [f1 own1].
  cbn [fst] in H1. subst f1. unfold isVisible.
  destruct (nonEmpty (View.searchQuery v));
    destruct (nonEmpty (View.tagFilter v) && negb (bool_decide (View.tagFilter v = str "all")));
    destruct (0 <? length (selectedTags w))%nat;
    cbn [fst negb orb]; rewrite ?filter_twice; apply filter_same; intros x;
    destruct (passesFilter (View.filter v) now x),
      (includes (toLowerCase (View.searchQuery v)) (toLowerCase (Task.title x))),
      (App.hasTag (View.tagFilter v) x), (App.hasSomeTagOf (selectedTags w) x); reflexivity.
Qed.

(** X19: the tasks that [visibleTasks] returns are, up to their
    order, the tasks of the page that pass the state filter, the search, the
    tag filter and the filter of the selected tags all together; they come
    latest creation first when every creation instant is a number.  The
    search compares the texts as the platform's [toLowerCase] gives them; on
    a search text and a title of Basic Latin characters that is the
    comparison of the two with the letters A to Z put in lower case.  No
    task passes both the recent and the old filter. *)
Theorem visibleTasks_filters_then_sorts :
  forall (v : View.t) (now : Z) (w : World),
    let visible := fst (App.visibleTasks v now w) in
    visible ≡ₚ List.filter (isVisible v now (selectedTags w)) (tasks w) /\
    (forall t, In t visible <-> In t (tasks w) /\ isVisible v now (selectedTags w) t = true) /\
    (length visible <= length (tasks w))%nat /\
    (Forall dated (tasks w) -> newestFirst visible) /\
    (forall t, basicLatin (View.searchQuery v) -> basicLatin (Task.title t) ->
               isVisible v now (selectedTags w) t
               = passesFilter (View.filter v) now t
                 && (negb (nonEmpty (View.searchQuery v))
                     || includes (lowerLatin (View.searchQuery v))
                          (lowerLatin (Task.title t)))
                 && (negb (nonEmpty (View.tagFilter v)
                           && negb (bool_decide (View.tagFilter v = str "all")))
                     || App.hasTag (View.tagFilter v) t)
                 && (negb (0 <? length (selectedTags w))%nat
                     || App.hasSomeTagOf (selectedTags w) t)) /\
    (forall t, passesFilter Filter.recent now t = true ->
               passesFilter Filter.old now t = false).
Proof.
  intros v now w visible. subst visible. unfold App.visibleTasks.
  pose proof (filteredTasks_isVisible v now w) as Hf.
  destruct (App.filteredTasks v now w) as [f own]. cbn [fst] in *. subst f.
  assert (Hp : App.sortByCreation (List.filter (isVisible v now (selectedTags w)) (tasks w))
               ≡ₚ List.filter (isVisible v now (selectedTags w)) (tasks w))
    by apply sortByCreation_perm.
  split; [exact Hp|]. split; [|split; [|split; [|split]]].
  - intros t. rewrite <- filter_In. split; intros H.
    + eapply Permutation_in; [exact Hp|exact H].
    + eapply Permutation_in; [symmetry; exact Hp|exact H].
  - rewrite (Permutation_length Hp). apply List.filter_length_le.
  - intros Hd. apply sortByCreation_sorted.
    rewrite List.Forall_forall in *. intros t Ht. apply filter_In in Ht. apply Hd, Ht.
  - intros t Hq Ht. unfold isVisible.
    rewrite (toLowerCase_basicLatin _ Hq), (toLowerCase_basicLatin _ Ht). reflexivity.
  - intros t. unfold passesFilter, App.createdBefore, gt.
    destruct (Task.createdAt t) as [|z]; [discriminate|].
    intros H. apply Z.ltb_lt in H. apply Z.ltb_ge. lia.
Qed.


(** X20: [render] can only reorder the task array: the tasks are a
    permutation of those before, and nothing else of the page changes.  In
    the unfiltered view (state filter all, no search text, tag filter empty
    or all, no tag selected) the array is left in the order [visibleTasks]
    returns, latest creation first when the creation instants are numbers;
    in every other view, and whenever the array is already latest first, the
    page is left as it was. *)
Theorem render_sorts_the_unfiltered_list_in_place :
  forall (v : View.t) (now : Z) (w : World),
    tasks (App.render v now w) ≡ₚ tasks w /\
    App.render v now w = setTasks (tasks (App.render v now w)) w /\
    (View.filter v = Filter.all -> View.searchQuery v = [] ->
     View.tagFilter v = [] \/ View.tagFilter v = str "all" ->
     selectedTags w = [] ->
     tasks (App.render v now w) = fst (App.visibleTasks v now w) /\
     (Forall dated (tasks w) -> newestFirst (tasks (App.render v now w)))) /\
    (View.filter v <> Filter.all \/ View.searchQuery v <> [] \/
     (View.tagFilter v <> [] /\ View.tagFilter v <> str "all") \/ selectedTags w <> [] ->
     App.render v now w = w) /\
    (newestFirst (tasks w) -> App.render v now w = w).
Proof.
  intros v now w.
  destruct (render_fields v now w) as [Hp Hr].
  split; [exact Hp|]. split; [exact Hr|]. split; [|split].
  - intros Hf Hq Ht Hs. unfold App.render, App.visibleTasks.
    rewrite (filteredTasks_all v now w Hf Hq Ht Hs). cbn [fst snd tasks setTasks].
    split; [reflexivity|]. apply sortByCreation_sorted.
  - intros Hne. unfold App.render, App.visibleTasks.
    pose proof (filteredTasks_own v now w) as Hown.
    destruct (App.filteredTasks v now w) as [f [|]]; cbn [fst snd] in *; [|reflexivity].
    destruct (Hown eq_refl) as (_ & Hf & Hq & Ht & Hs). exfalso.
    destruct Hne as [H|[H|[[H1 H2]|H]]]; try contradiction. destruct Ht; contradiction.
  - intros Hs. unfold App.render, App.visibleTasks.
    pose proof (filteredTasks_own v now w) as Hown.
    destruct (App.filteredTasks v now w) as [f [|]]; cbn [fst snd] in *; [|reflexivity].
    destruct (Hown eq_refl) as (-> & _). rewrite (sortByCreation_id _ Hs).
    apply setTasks_same.
Qed.

End ViewFacts.

(** ** Export and import *)

Section TransferFacts.
Context {P : Platform}.

Lemma jsonTask_jsonOfTask t : jsonSafeTask t -> App.jsonTask (App.jsonOfTask t) = t.
Proof.
  intros [[z Hz] Hc]. destruct t as [i s d c ca p tg r]. cbn in *. subst c.
  unfold App.jsonTask, App.jsonOfTask, Task.withDates. cbn.
  destruct Hc as [-> | (c & Hc & ->)]; cbn; [reflexivity|].
  destruct (Z.eqb_spec c 0); [contradiction|reflexivity].
Qed.

Lemma jsonActivity_jsonOfActivity a :
  jsonSafeActivity a -> App.jsonActivity (App.jsonOfActivity a) = a.
Proof.
  intros [z Hz]. destruct a as [i ty ti tt ts d]. cbn in *. subst ts. reflexivity.
Qed.

Lemma map_fixed {A : Type} (f : A -> A) (l : list A) :
  Forall (fun x => f x = x) l -> map f l = l.
Proof. intros H. induction H as [|a l Ha _ IH]; simpl; [reflexivity|]. rewrite Ha, IH. reflexivity. Qed.


(** X21: importing (confirmed) the file that [exportToJSON] wrote
    for a page whose dates are numbers (completion instants other than 0)
    gives back as stored the same tasks and the same available tags; the
    tasks are in the exported order when the view of the importing page is
    filtered or the exported tasks were latest first, and in the order in
    which the redrawing leaves them in general.  The Activity Log becomes
    the import entry followed by the first 99 entries of the exported log.
    The selection, the reminders, the timers and the notifications of the
    importing page are kept. *)
Theorem json_export_then_import_restores_the_data :
  forall (now now' : Z) (w w0 : World),
    Forall jsonSafeTask (tasks w) ->
    Forall jsonSafeActivity (activities w) ->
    exists w',
      App.importFromJSON now' (fst (App.exportToJSON now w)) true w0 = Some w' /\
      tasks w' ≡ₚ tasks w /\
      (~ unfiltered w0 \/ newestFirst (tasks w) -> tasks w' = tasks w) /\
      availableTags w' = availableTags w /\
      activities w'
      = Activity.mk (fst (App.uid w0)) ActivityType.import None None (Int now')
          (Some (showNat (length (tasks w)) ++ str " tareas importadas desde JSON"))
          :: firstn 99 (activities w) /\
      selectedTags w' = selectedTags w0 /\
      activeReminders w' = activeReminders w0 /\
      timers w' = timers w0 /\
      notifications w' = notifications w0.
Proof.
  intros now now' w w0 Ht Ha. unfold App.exportToJSON, App.importFromJSON.
  cbn [fst Json.tasks Json.availableTags Json.activities negb].
  eexists. split; [reflexivity|].
  assert (Hts : map App.jsonTask (map App.jsonOfTask (tasks w)) = tasks w).
  { rewrite map_map. apply map_fixed. eapply Forall_impl; [exact Ht|].
    intros t. apply jsonTask_jsonOfTask. }
  assert (Has : map App.jsonActivity (map App.jsonOfActivity (activities w)) = activities w).
  { rewrite map_map. apply map_fixed. eapply Forall_impl; [exact Ha|].
    intros a. apply jsonActivity_jsonOfActivity. }
  rewrite Hts, Has, length_map.
  set (x := setActivities (activities w) (setAvailableTags (availableTags w)
                                            (setTasks (tasks w) w0))).
  cbn [tasks availableTags selectedTags activeReminders timers notifications activities show].
  rewrite activities_addActivity.
  destruct (addActivity_frame now' ActivityType.import None None
              (Some (showNat (length (tasks w)) ++ str " tareas importadas desde JSON"))
              (App.render (view x) now' x))
    as (Htm & Hr & _ & Htk & Hno).
  rewrite Hr, Htm, Hno, Htk.
  cbn [App.addActivity selectedTags availableTags setActivities setDraws App.uid fst snd].
  rewrite render_activeReminders, render_timers, render_notifications, render_selectedTags,
    render_availableTags, render_activities, render_draws.
  split; [apply (render_tasks_perm (view x) now' x)|].
  split; [|repeat split].
  intros Ho. rewrite (redraw_same now' w0 x eq_refl eq_refl); [reflexivity|exact Ho].
Qed.

Lemma trimStart_idem s : trimStart (trimStart s) = trimStart s.
Proof.
  induction s as [|c s IH]; simpl; [reflexivity|].
  destruct (isWhiteSpace c) eqn:Hc; [exact IH|]. simpl. rewrite Hc. reflexivity.
Qed.



Lemma trimEnd_last s c : isWhiteSpace c = false -> trimEnd (s ++ [c]) = s ++ [c].
Proof. intros Hc. rewrite (trimEnd_app s c [] Hc). reflexivity. Qed.







(** X23: an import that is refused or declined keeps the data.
    [importFromJSON] throws when the file has no array of tasks and leaves
    the page as it was when the dialog is declined; [importFromCSV] throws
    when the first line has fewer than three columns, and when the dialog is
    declined it leaves the page as it was but for the random draws used up
    for missing identifiers. *)
Theorem declined_or_invalid_import_keeps_the_data :
  forall (now : Z) (data : Json.file) (content : jsstring) (w : World),
    (Json.tasks data = None -> forall c, App.importFromJSON now data c w = None) /\
    (Json.tasks data <> None -> App.importFromJSON now data false w = Some w) /\
    ((length (split COMMA (hd [] (split LF content))) < 3)%nat ->
     forall c, App.importFromCSV now content c w = None) /\
    ((3 <= length (split COMMA (hd [] (split LF content))))%nat ->
     exists n, App.importFromCSV now content false w = Some (setDraws n w)).
Proof.
  intros now data content w. split; [|split; [|split]].
  - intros H c. unfold App.importFromJSON. rewrite H. reflexivity.
  - intros H. unfold App.importFromJSON. destruct (Json.tasks data); [reflexivity|contradiction].
  - intros H c. unfold App.importFromCSV, App.csvParse. rewrite length_map.
    destruct (Nat.ltb_spec (length (split COMMA (hd [] (split LF content)))) 3); [reflexivity|lia].
  - intros H. unfold App.importFromCSV, App.csvParse. rewrite length_map.
    destruct (Nat.ltb_spec (length (split COMMA (hd [] (split LF content)))) 3); [lia|].
    destruct (csvLines_world now (tl (split LF content)) w) as [n Hn].
    destruct (App.csvLines now (tl (split LF content)) w) as [ts w1]. cbn [snd negb] in *.
    exists n. rewrite Hn. reflexivity.
Qed.

End TransferFacts.

Section CsvRoundTrip.
Context {P : Platform}.

Lemma doubleQuotes_In c s : c <> DQUOTE -> In c (doubleQuotes s) -> In c s.
Proof.
  intros Hc. unfold doubleQuotes. induction s as [|a s IH]; simpl; [tauto|].
  intros H. apply in_app_or in H. destruct H as [H|H]; [|right; apply IH, H].
  destruct (a =? DQUOTE)%N.
  - destruct H as [H|[H|[]]]; congruence.
  - destruct H as [H|[]]. left. exact H.
Qed.

Lemma doubleQuotes_plain s : ~ In DQUOTE s -> doubleQuotes s = s.
Proof.
  unfold doubleQuotes. induction s as [|a s IH]; simpl; [reflexivity|].
  intros H. destruct (N.eqb_spec a DQUOTE) as [->|_]; [exfalso; apply H; left; reflexivity|].
  simpl. f_equal. apply IH. intros Hin. apply H. right. exact Hin.
Qed.

Lemma csvTitleField_plain c t :
  c <> DQUOTE -> ~ In c (Task.title t) -> ~ In c (App.csvTitleField t).
Proof.
  intros Hc Hnot. unfold App.csvTitleField. intros H. simpl in H.
  destruct H as [H|H]; [congruence|].
  apply in_app_or in H. destruct H as [H|[H|[]]]; [|congruence].
  apply Hnot. eapply doubleQuotes_In; eassumption.
Qed.

Lemma stripQuotes_quoted s : stripQuotes ([DQUOTE] ++ s ++ [DQUOTE]) = s.
Proof.
  unfold stripQuotes. cbn [app]. rewrite N.eqb_refl.
  rewrite rev_app_distr. cbn [rev app]. rewrite N.eqb_refl. apply rev_involutive.
Qed.

Lemma trim_quoted s : trim ([DQUOTE] ++ s ++ [DQUOTE]) = [DQUOTE] ++ s ++ [DQUOTE].
Proof.
  unfold trim. cbn [app trimStart]. change (isWhiteSpace DQUOTE) with false. cbn iota.
  change (DQUOTE :: s ++ [DQUOTE]) with ((DQUOTE :: s) ++ [DQUOTE]).
  apply trimEnd_last. reflexivity.
Qed.

Lemma includes_completada t :
  includes (str "completada") (toLowerCase (csvStateText t)) = Task.done t.
Proof.
  unfold csvStateText.
  destruct (Task.done t);
    (rewrite toLowerCase_basicLatin; [vm_compute; reflexivity|]);
    repeat constructor.
Qed.

Lemma trim_stateText t : trim (csvStateText t) = csvStateText t.
Proof. unfold csvStateText. destruct (Task.done t); vm_compute; reflexivity. Qed.

Lemma stripQuotes_stateText t : stripQuotes (csvStateText t) = csvStateText t.
Proof. unfold csvStateText. destruct (Task.done t); vm_compute; reflexivity. Qed.

Lemma csvLine_regroup (i f s tail : jsstring) :
  i ++ COMMA :: f ++ COMMA :: s ++ COMMA :: tail
  = (i ++ COMMA :: (f ++ COMMA :: s) ++ [COMMA]) ++ tail.
Proof. repeat (rewrite <- ?app_assoc, <- ?app_comm_cons; simpl). reflexivity. Qed.

Lemma csvLine_first (i f s r0 : jsstring) :
  (i ++ COMMA :: (f ++ COMMA :: s) ++ [COMMA]) ++ r0
  = i ++ COMMA :: (f ++ COMMA :: s) ++ COMMA :: r0.
Proof. repeat (rewrite <- ?app_assoc, <- ?app_comm_cons; simpl). reflexivity. Qed.

(** The fields read from the first line of the row exported for a task. *)
Lemma csvRow_fields (t : Task.t) (tail : jsstring) :
  ~ In COMMA (Task.id t) -> ~ In COMMA (Task.title t) ->
  split COMMA (trim (Task.id t ++ COMMA :: (App.csvTitleField t ++ COMMA :: csvStateText t)
                       ++ COMMA :: tail))
  = trimStart (Task.id t) :: App.csvTitleField t :: csvStateText t
      :: split COMMA (trimEnd tail).
Proof.
  intros Hi Ht. rewrite trim_line.
  rewrite split_app_sep by (intros H; apply Hi, trimStart_incl, H).
  rewrite <- app_assoc, <- app_comm_cons.
  rewrite split_app_sep by (apply csvTitleField_plain; [discriminate|exact Ht]).
  rewrite split_app_sep by apply csvStateText_plain.
  reflexivity.
Qed.

Lemma csvParse_single (t : Task.t) (now : Z) (w : World) :
  ~ In COMMA (Task.id t) -> ~ In LF (Task.id t) ->
  ~ In COMMA (Task.title t) -> ~ In LF (Task.title t) ->
  exists t' rest w',
    App.csvParse now (App.csvContent [t]) w = Some (t' :: rest, w') /\
    Task.title t' = (if nonEmpty (Task.title t) then doubleQuotes (Task.title t)
                     else str "Tarea sin t" ++ [237%N] ++ str "tulo") /\
    Task.done t' = Task.done t /\
    (nonEmpty (stripQuotes (trim (Task.id t))) = true ->
     Task.id t' = stripQuotes (trim (Task.id t))).
Proof.
  intros Hcomma Hlf Htc Htl.
  destruct (csvStateText_plain t) as [Hsc Hsl].
  unfold App.csvParse. rewrite csvContent_single.
  rewrite split_app_sep by (vm_compute; intuition discriminate).
  cbn [hd tl].
  replace (length (map (fun h => removeQuotes (trim h))
                     (split COMMA (join [COMMA] App.csvHeaders))) <? 3)%nat
    with false by (vm_compute; reflexivity).
  rewrite csvRow_line.
  rewrite (csvLine_regroup (Task.id t) (App.csvTitleField t) (csvStateText t) (csvRowTail t)).
  rewrite split_app_prefix.
  2:{ apply not_In_app; [exact Hlf|]. intros [H|H]; [discriminate H|].
      apply in_app_or in H. destruct H as [H|[H|[]]]; [|discriminate H].
      apply in_app_or in H. destruct H as [H|[H|H]]; [|discriminate H|exact (Hsl H)].
      revert H. apply csvTitleField_plain; [discriminate|exact Htl]. }
  set (r0 := hd [] (split LF (csvRowTail t))).
  set (rs := tl (split LF (csvRowTail t))).
  rewrite (csvLine_first (Task.id t) (App.csvTitleField t) (csvStateText t) r0).
  cbn [App.csvLines].
  rewrite (csvRow_fields t r0 Hcomma Htc).
  rewrite trim_line.
  replace (nonEmpty (trimStart (Task.id t) ++ COMMA
                     :: (App.csvTitleField t ++ COMMA :: csvStateText t)
                     ++ COMMA :: trimEnd r0))
    with true by (destruct (trimStart (Task.id t)); reflexivity).
  cbn [negb map length Nat.ltb Nat.leb].
  set (values := stripQuotes (trim (trimStart (Task.id t))) :: _).
  assert (Hv1 : nth_error values 1 = Some (doubleQuotes (Task.title t))).
  { subst values. cbn [nth_error]. unfold App.csvTitleField.
    rewrite trim_quoted, stripQuotes_quoted. reflexivity. }
  assert (Hv2 : nth_error values 2 = Some (csvStateText t)).
  { subst values. cbn [nth_error]. rewrite trim_stateText, stripQuotes_stateText.
    reflexivity. }
  assert (Hv0 : nth_error values 0 = Some (stripQuotes (trim (Task.id t)))).
  { subst values. cbn [nth_error]. f_equal. f_equal. unfold trim.
    rewrite trimStart_idem. reflexivity. }
  assert (Hres : Task.title (fst (App.csvTask now values w))
                 = (if nonEmpty (Task.title t) then doubleQuotes (Task.title t)
                    else str "Tarea sin t" ++ [237%N] ++ str "tulo") /\
                 Task.done (fst (App.csvTask now values w)) = Task.done t /\
                 (nonEmpty (stripQuotes (trim (Task.id t))) = true ->
                  Task.id (fst (App.csvTask now values w)) = stripQuotes (trim (Task.id t)))).
  { unfold App.csvTask, App.field. rewrite Hv0, Hv1, Hv2. clearbody values.
    split; [|split].
    - destruct (nonEmpty (stripQuotes (trim (Task.id t)))); cbn [fst Task.title];
        (destruct (Task.title t) as [|c r]; [reflexivity|]);
        (replace (nonEmpty (doubleQuotes (c :: r))) with true; [reflexivity|]);
        unfold doubleQuotes; cbn [flat_map]; destruct (c =? DQUOTE)%N; reflexivity.
    - destruct (nonEmpty (stripQuotes (trim (Task.id t)))); cbn [fst Task.done];
        apply includes_completada.
    - intros Hid. rewrite Hid. reflexivity. }
  destruct (App.csvTask now values w) as [t' w1].
  destruct (App.csvLines now rs w1) as [ts w2].
  exists t', ts, w2. split; [reflexivity|exact Hres].
Qed.

End CsvRoundTrip.

Section CsvRoundTripTheorem.
Context {P : Platform}.

(** X24: for a page with one task whose identifier and title hold
    neither a comma nor a line feed, and whose title is not empty, importing
    (confirmed) the text that [exportToCSV] wrote gives a task with the
    title of the exported task with every double quote doubled (so the very
    title when it holds no double quote), the same done flag, and as
    identifier the exported one trimmed and without a quote at either end,
    when that is not empty.  That task is the first one, followed by
    whatever the rest of the file gives, when the view of the importing page
    is filtered or the tasks read are latest first; in general the redrawing
    decides the order. *)
Theorem csv_export_then_import_of_one_task :
  forall (t : Task.t) (now now' : Z) (w0 w : World),
    tasks w0 = [t] ->
    ~ In COMMA (Task.id t) -> ~ In LF (Task.id t) ->
    ~ In COMMA (Task.title t) -> ~ In LF (Task.title t) ->
    nonEmpty (Task.title t) = true ->
    exists t' rest w',
      App.importFromCSV now' (fst (App.exportToCSV now w0)) true w = Some w' /\
      tasks w' ≡ₚ t' :: rest /\
      (~ unfiltered w \/ newestFirst (t' :: rest) -> tasks w' = t' :: rest) /\
      Task.title t' = doubleQuotes (Task.title t) /\
      (~ In DQUOTE (Task.title t) -> Task.title t' = Task.title t) /\
      Task.done t' = Task.done t /\
      (nonEmpty (stripQuotes (trim (Task.id t))) = true ->
       Task.id t' = stripQuotes (trim (Task.id t))).
Proof.
  intros t now now' w0 w Htasks Hic Hil Htc Htl Hne.
  destruct (csvParse_single t now' w Hic Hil Htc Htl)
    as (t' & rest & w1 & Hparse & Ht' & Hd & Hid).
  rewrite Hne in Ht'.
  unfold App.exportToCSV. cbn [fst]. rewrite Htasks.
  destruct (importFromCSV_parsed _ _ _ _ _ Hparse) as (w' & Himp & Hp & Ho).
  exists t', rest, w'. split; [exact Himp|]. split; [exact Hp|]. split; [exact Ho|].
  split; [exact Ht'|]. split; [|split; [exact Hd|exact Hid]].
  intros Hq. rewrite Ht'. apply doubleQuotes_plain, Hq.
Qed.

End CsvRoundTripTheorem.

(** ** Completing and reopening a task *)

Section ToggleExtras.
Context {P : Platform}.

Lemma scheduleReminder_notifications now taskId taskTitle datetime w :
  notifications (snd (Notifications.scheduleReminder now taskId taskTitle datetime w))
  = notifications w.
Proof.
  destruct (Z_lt_le_dec now datetime) as [Hfut|Hpast].
  - apply (scheduleReminder_future now taskId taskTitle datetime w Hfut).
  - rewrite (scheduleReminder_past now taskId taskTitle datetime w Hpast). reflexivity.
Qed.

Lemma cancelReminder_lists taskId w :
  activities (Notifications.cancelReminder taskId w) = activities w /\
  notifications (Notifications.cancelReminder taskId w) = notifications w.
Proof.
  unfold Notifications.cancelReminder. destruct (activeReminders w !! taskId); split; reflexivity.
Qed.

(** What the callback of [toggleTask] does for the task with the identifier. *)
Lemma toggleOne_match now t w :
  let r := App.toggleOne now (Task.id t) t w in
  fst r = Task.withCompletion t (negb (Task.done t))
            (if Task.done t then None else Some (Int now)) /\
  activities (snd r)
  = Activity.mk (fst (App.uid w))
      (if Task.done t then ActivityType.uncomplete else ActivityType.complete)
      (Some (Task.id t)) (Some (Task.title t)) (Int now) None
      :: firstn 99 (activities w) /\
  (Task.done t = true -> notifications (snd r) = notifications w) /\
  (Task.done t = false ->
   exists n, notifications (snd r) = n :: firstn 49 (notifications w) /\
             Notification.type n = NotificationType.task_completed /\
             Notification.message n
             = [161%N] ++ str "Felicidades! Has completado: " ++ Task.title t /\
             Notification.read n = false).
Proof.
  intros r. subst r. unfold App.toggleOne. rewrite bool_decide_eq_true_2 by reflexivity.
  cbn [fst snd].
  destruct (Task.done t) eqn:Hd; cbn [negb].
  - split; [reflexivity|]. split; [|split; [|discriminate]].
    + destruct (Task.reminder t) as [rm|]; [|apply activities_addActivity].
      destruct (now <? Reminder.datetime rm); [|apply activities_addActivity].
      unfold Notifications.scheduleTaskReminder. rewrite scheduleReminder_activities.
      apply activities_addActivity.
    + intros _. destruct (Task.reminder t) as [rm|]; [|reflexivity].
      destruct (now <? Reminder.datetime rm); [|reflexivity].
      unfold Notifications.scheduleTaskReminder. rewrite scheduleReminder_notifications.
      reflexivity.
  - split; [reflexivity|]. split; [|split; [discriminate|]].
    + unfold Notifications.createTaskCompletedNotification. cbn [Notifications.generateId].
      change (activities (Notifications.addNotification ?n ?x)) with (activities x).
      cbn [activities setDraws].
      destruct (Task.reminder t) as [rm|]; [|apply activities_addActivity].
      unfold Notifications.cancelTaskReminder.
      rewrite (proj1 (cancelReminder_lists _ _)). apply activities_addActivity.
    + intros _. unfold Notifications.createTaskCompletedNotification.
      cbn [Notifications.generateId].
      destruct (Task.reminder t) as [rm|]; eexists; rewrite notifications_addNotification;
        cbn [notifications setDraws].
      * split.
        -- unfold Notifications.cancelTaskReminder.
           rewrite (proj2 (cancelReminder_lists _ _)). reflexivity.
        -- repeat split.
      * split; [reflexivity|]. repeat split.
Qed.

(** [toggleOne] leaves the settings of the view alone. *)
Lemma toggleOne_settings now i t w :
  view (snd (App.toggleOne now i t w)) = view w /\
  selectedTags (snd (App.toggleOne now i t w)) = selectedTags w.
Proof.
  unfold App.toggleOne. destruct (bool_decide (Task.id t = i)); [|split; reflexivity].
  cbn [fst snd].
  destruct (Task.done t); cbn [negb].
  - destruct (Task.reminder t) as [rm|]; [|split; reflexivity].
    destruct (now <? Reminder.datetime rm); [|split; reflexivity].
    unfold Notifications.scheduleTaskReminder.
    destruct (scheduleReminder_state now (Task.id t) (Task.title t) (Reminder.datetime rm)
                (App.addActivity now ActivityType.uncomplete (Some (Task.id t))
                   (Some (Task.title t)) None w)) as (_ & Hs & Hv & _).
    rewrite Hs, Hv. split; reflexivity.
  - unfold Notifications.createTaskCompletedNotification. cbn [Notifications.generateId].
    change (view (Notifications.addNotification ?n ?x)) with (view x).
    change (selectedTags (Notifications.addNotification ?n ?x)) with (selectedTags x).
    cbn [view selectedTags setDraws].
    destruct (Task.reminder t) as [rm|]; [|split; reflexivity].
    unfold Notifications.cancelTaskReminder, Notifications.cancelReminder.
    destruct (activeReminders _ !! Task.id t); split; reflexivity.
Qed.

Lemma newestFirst_replace (f : Task.t -> Task.t) (before after : list Task.t) (t : Task.t) :
  Task.createdAt (f t) = Task.createdAt t ->
  newestFirst (before ++ t :: after) -> newestFirst (before ++ f t :: after).
Proof.
  intros Hf Hs.
  assert (Hk : forall a b x, Task.createdAt x = Task.createdAt a -> 
                             App.byCreation b x = App.byCreation b a /\
                             App.byCreation x b = App.byCreation a b).
  { intros a b x Hx. unfold App.byCreation. rewrite Hx. split; reflexivity. }
  induction before as [|b r IH]; cbn [app] in *.
  - inversion Hs as [|? ? Hr Ha]; subst. constructor; [exact Hr|].
    eapply List.Forall_impl; [|exact Ha]. intros x Hx. cbv beta in *.
    rewrite (proj2 (Hk t x (f t) Hf)). exact Hx.
  - inversion Hs as [|? ? Hr Ha]; subst. constructor; [apply IH, Hr|].
    rewrite List.Forall_forall in *. intros x Hx. apply in_app_or in Hx.
    destruct Hx as [Hx|[<-|Hx]].
    + apply Ha, in_or_app. left. exact Hx.
    + rewrite (proj1 (Hk t b (f t) Hf)). apply Ha, in_or_app. right. left. reflexivity.
    + apply Ha, in_or_app. right. right. exact Hx.
Qed.

(** X25: for a task whose identifier no other task of the list has,
    [toggleTask] replaces it by the task with the done flag flipped and the
    completion instant set to [now] (on completing) or cleared (on
    reopening), and puts a complete or uncomplete entry in front of the
    Activity Log; completing also puts an unread task_completed notification
    in front of the feed, reopening leaves the feed as it was.  The task is
    replaced in its place, the others keeping theirs, when the view is
    filtered or the array was latest first; in general the redrawing decides
    the order.  Toggling twice a task that was not done and had no
    completion instant gives back the tasks of before, in their order under
    the same condition. *)
Theorem toggleTask_completes_or_reopens_the_task :
  forall (now now' : Z) (before after : list Task.t) (t : Task.t) (w : World),
    tasks w = before ++ t :: after ->
    ~ In (Task.id t) (map Task.id (before ++ after)) ->
    let w' := App.toggleTask now (Task.id t) w in
    let t' := Task.withCompletion t (negb (Task.done t))
                (if Task.done t then None else Some (Int now)) in
    tasks w' ≡ₚ before ++ t' :: after /\
    (~ unfiltered w \/ newestFirst (tasks w) -> tasks w' = before ++ t' :: after) /\
    activities w'
    = Activity.mk (fst (App.uid w))
        (if Task.done t then ActivityType.uncomplete else ActivityType.complete)
        (Some (Task.id t)) (Some (Task.title t)) (Int now) None
        :: firstn 99 (activities w) /\
    (Task.done t = true -> notifications w' = notifications w) /\
    (Task.done t = false ->
     exists n, notifications w' = n :: firstn 49 (notifications w) /\
               Notification.type n = NotificationType.task_completed /\
               Notification.message n
               = [161%N] ++ str "Felicidades! Has completado: " ++ Task.title t /\
               Notification.read n = false) /\
    (Task.done t = false -> Task.completedAt t = None ->
     tasks (App.toggleTask now' (Task.id t) w') ≡ₚ tasks w /\
     (~ unfiltered w \/ newestFirst (tasks w) ->
      tasks (App.toggleTask now' (Task.id t) w') = tasks w)).
Proof.
  intros now now' before after t w Htasks Hnot w' t'. subst w' t'.
  rewrite (toggleTask_single now before t after w Htasks Hnot).
  destruct (toggleOne_match now t w) as (Hfst & Hact & Hkeep & Hnew).
  destruct (toggleOne_settings now (Task.id t) t w) as (Hv & Hsel).
  set (t1 := Task.withCompletion t (negb (Task.done t))
               (if Task.done t then None else Some (Int now))) in *.
  rewrite Hfst.
  set (w1 := snd (App.toggleOne now (Task.id t) t w)) in *.
  set (x := setTasks (before ++ t1 :: after) w1).
  change (view w1) with (view x).
  assert (Hxv : view x = view w) by exact Hv.
  assert (Hxs : selectedTags x = selectedTags w) by exact Hsel.
  assert (Hsame : ~ unfiltered w \/ newestFirst (tasks w) -> App.render (view x) now x = x).
  { intros Ho. apply (redraw_same now w x Hxv Hxs).
    destruct Ho as [Ho|Ho]; [left; exact Ho|right].
    rewrite Htasks in Ho. apply (newestFirst_replace (fun _ => t1) before after t); [reflexivity|exact Ho]. }
  rewrite render_activities, render_notifications.
  split; [apply (render_tasks_perm (view x) now x)|].
  split; [intros Ho; rewrite (Hsame Ho); reflexivity|].
  split; [exact Hact|]. split; [exact Hkeep|]. split; [exact Hnew|].
  intros Hd Hc.
  assert (Ht1 : Task.id t1 = Task.id t) by reflexivity.
  assert (Hback : Task.withCompletion t1 (negb (Task.done t1))
                    (if Task.done t1 then None else Some (Int now')) = t).
  { subst t1. rewrite Hd. destruct t as [i s d c ca p tg r]. cbn in *. subst d ca.
    reflexivity. }
  split.
  - pose proof (render_tasks_perm (view x) now x) as Hp. cbn [tasks x setTasks] in Hp.
    assert (Hin : In t1 (tasks (App.render (view x) now x))).
    { eapply Permutation_in; [symmetry; exact Hp|]. apply in_or_app. right. left.
      reflexivity. }
    destruct (in_split _ _ Hin) as (b' & a' & Hsplit).
    assert (Hrest : b' ++ a' ≡ₚ before ++ after).
    { apply (Permutation_app_inv b' a' before after t1). rewrite <- Hsplit. exact Hp. }
    assert (Hnot' : ~ In (Task.id t1) (map Task.id (b' ++ a'))).
    { rewrite Ht1. intros Hi. apply Hnot. rewrite List.in_map_iff in *.
      destruct Hi as (y & Hy & Hiny). exists y. split; [exact Hy|].
      eapply Permutation_in; [exact Hrest|exact Hiny]. }
    rewrite <- Ht1.
    rewrite (toggleTask_single now' b' t1 a' _ Hsplit Hnot').
    destruct (toggleOne_match now' t1 (App.render (view x) now x)) as (Hfst1 & _).
    rewrite Hfst1, Hback.
    etransitivity; [apply render_tasks_perm|]. cbn [tasks setTasks].
    rewrite Htasks, <- !Permutation_middle. apply Permutation_cons; [reflexivity|exact Hrest].
  - intros Ho. rewrite (Hsame Ho). rewrite <- Ht1.
    rewrite (toggleTask_single now' before t1 after x eq_refl Hnot).
    destruct (toggleOne_match now' t1 x) as (Hfst1 & _).
    destruct (toggleOne_settings now' (Task.id t1) t1 x) as (Hv1 & Hsel1).
    rewrite Hfst1, Hback.
    set (y := setTasks (before ++ t :: after) (snd (App.toggleOne now' (Task.id t1) t1 x))).
    change (view (snd (App.toggleOne now' (Task.id t1) t1 x))) with (view y).
    rewrite (redraw_same now' w y).
    + cbn [tasks y setTasks]. symmetry. exact Htasks.
    + change (view y) with (view (snd (App.toggleOne now' (Task.id t1) t1 x))).
      rewrite Hv1. exact Hxv.
    + change (selectedTags y) with (selectedTags (snd (App.toggleOne now' (Task.id t1) t1 x))).
      rewrite Hsel1. exact Hxs.
    + destruct Ho as [Ho|Ho]; [left; exact Ho|right]. cbn [tasks y setTasks].
      rewrite <- Htasks. exact Ho.
Qed.

End ToggleExtras.

(** ** Streak and statistics *)

Section StatisticsFacts.
Import UserProfile.

Lemma streakLoop_bounds {Zn : Zone} l s d :
  s <= streakLoop l s d <= s + Z.of_nat (length l).
Proof.
  revert s d. induction l as [|t l IH]; intros s d; cbn [streakLoop length].
  - lia.
  - destruct (_ =? s).
    + specialize (IH (s + 1) (previousDay d)). lia.
    + destruct (s <? _); [lia|]. specialize (IH s d). lia.
Qed.

Lemma insertByCompletion_perm a l : insertByCompletion a l ≡ₚ a :: l.
Proof.
  induction l as [|b r IH]; simpl; [reflexivity|].
  destruct (_ <=? 0); [reflexivity|]. rewrite IH. apply Permutation_swap.
Qed.

Lemma sortByCompletion_perm l : sortByCompletion l ≡ₚ l.
Proof.
  induction l as [|a l IH]; simpl; [reflexivity|].
  rewrite insertByCompletion_perm, IH. reflexivity.
Qed.

(** The first task of the sorted list has the latest completion. *)
Lemma insertByCompletion_head a l h r :
  (forall b r', l = b :: r' -> Forall (fun t => completedInstant t <= completedInstant b) l) ->
  insertByCompletion a l = h :: r ->
  Forall (fun t => completedInstant t <= completedInstant h) (a :: l).
Proof.
  intros Hl. destruct l as [|b r']; simpl.
  - intros [= <- <-]. constructor; [lia|constructor].
  - specialize (Hl b r' eq_refl).
    destruct (Z.leb_spec (completedInstant b - completedInstant a) 0) as [Hle|Hgt].
    + intros [= <- <-]. constructor; [lia|].
      eapply Forall_impl; [exact Hl|]. cbn. intros x Hx. lia.
    + intros [= <- <-]. constructor; [lia|exact Hl].
Qed.

Lemma sortByCompletion_head l h r :
  sortByCompletion l = h :: r ->
  Forall (fun t => completedInstant t <= completedInstant h) l.
Proof.
  revert h r. induction l as [|a l IH]; intros h r; simpl; [discriminate|].
  intros H. apply insertByCompletion_head in H; [|].
  - inversion H as [|? ? Ha Hs]; subst. constructor; [exact Ha|].
    rewrite List.Forall_forall in *. intros x Hx. apply Hs.
    eapply Permutation_in; [symmetry; apply sortByCompletion_perm|exact Hx].
  - intros b r' Hb. rewrite Hb. rewrite <- Hb.
    specialize (IH b r' Hb).
    rewrite List.Forall_forall in *. intros x Hx. apply IH.
    eapply Permutation_in; [apply sortByCompletion_perm|exact Hx].
Qed.

Lemma startOfDay_multiple tz t :
  startOfDay (Zone := fixedOffset tz) t + tz = msPerDay * ((t + tz) / msPerDay).
Proof.
  cbn [startOfDay fixedOffset].
  pose proof (Z.div_mod (t + tz) msPerDay ltac:(discriminate)). lia.
Qed.

Lemma days_between tz a b :
  (startOfDay (Zone := fixedOffset tz) a - startOfDay (Zone := fixedOffset tz) b) / msPerDay
  = (a + tz) / msPerDay - (b + tz) / msPerDay.
Proof.
  replace (startOfDay (Zone := fixedOffset tz) a - startOfDay (Zone := fixedOffset tz) b)
    with ((startOfDay (Zone := fixedOffset tz) a + tz)
          - (startOfDay (Zone := fixedOffset tz) b + tz)) by lia.
  rewrite !startOfDay_multiple.
  replace (msPerDay * ((a + tz) / msPerDay) - msPerDay * ((b + tz) / msPerDay))
    with (((a + tz) / msPerDay - (b + tz) / msPerDay) * msPerDay) by lia.
  apply Z.div_mul. discriminate.
Qed.

Lemma calculateStreakDays_bounds {Zn : Zone} now tasks :
  0 <= calculateStreakDays now tasks
    <= Z.of_nat (length (List.filter hasCompletedAt tasks)).
Proof.
  unfold calculateStreakDays. destruct tasks as [|t0 l0] eqn:Htasks; [cbn; lia|].
  rewrite <- Htasks. clear Htasks t0 l0.
  pose proof (sortByCompletion_perm (List.filter hasCompletedAt tasks)) as Hp.
  destruct (sortByCompletion (List.filter hasCompletedAt tasks)) as [|h r] eqn:Hs; [lia|].
  pose proof (streakLoop_bounds (h :: r) 0 (startOfDay now)) as Hb.
  rewrite <- (Permutation_length Hp). lia.
Qed.

(** X26: in every zone, [calculateStreakDays] is never negative and
    never more than the number of tasks with a completion instant.  In a
    zone of fixed offset from UTC, where every local day has 24 hours, it is
    0 when every completion is before the start of the local day of [now],
    and at least 1 when some task was completed on that day and none after
    it. *)
Theorem calculateStreakDays_counts_from_today :
  forall (Zn : Zone) (tz now : Z) (tasks : list Task.t),
    0 <= calculateStreakDays (Zn := Zn) now tasks
      <= Z.of_nat (length (List.filter hasCompletedAt tasks)) /\
    let streak := calculateStreakDays (Zn := fixedOffset tz) now tasks in
    let today := startOfDay (Zone := fixedOffset tz) now in
    (Forall (fun t => hasCompletedAt t = true -> completedInstant t < today) tasks ->
     streak = 0) /\
    (Forall (fun t => hasCompletedAt t = true -> completedInstant t < today + msPerDay)
       tasks ->
     Exists (fun t => hasCompletedAt t = true /\ today <= completedInstant t) tasks ->
     1 <= streak).
Proof.
  intros Zn tz now tasks. split; [apply calculateStreakDays_bounds|].
  intros streak today. subst streak today. unfold calculateStreakDays.
  destruct tasks as [|t0 l0] eqn:Htasks; [cbn; repeat split; try lia; intros _ H; inversion H|].
  rewrite <- Htasks. clear Htasks t0 l0.
  pose proof (sortByCompletion_perm (List.filter hasCompletedAt tasks)) as Hp.
  pose proof (sortByCompletion_head (List.filter hasCompletedAt tasks)) as Hhead.
  destruct (sortByCompletion (List.filter hasCompletedAt tasks)) as [|h r] eqn:Hs.
  - split; [reflexivity|]. intros _ Hex. exfalso.
    apply List.Exists_exists in Hex. destruct Hex as (t & Hin & Hc & _).
    assert (Hf : In t (List.filter hasCompletedAt tasks)) by (apply filter_In; tauto).
    eapply Permutation_in in Hf; [|symmetry; exact Hp]. destruct Hf.
  - specialize (Hhead h r eq_refl).
    assert (Hh : In h tasks /\ hasCompletedAt h = true).
    { apply filter_In. eapply Permutation_in; [exact Hp|]. left. reflexivity. }
    destruct Hh as [Hhin Hhc].
    split.
    + intros Hall. rewrite List.Forall_forall in Hall. specialize (Hall h Hhin Hhc).
      cbn [streakLoop]. rewrite days_between.
      assert (Hlt : (completedInstant h + tz) / msPerDay < (now + tz) / msPerDay).
      { pose proof (startOfDay_multiple tz now) as Hm.
        apply Z.div_lt_upper_bound; [reflexivity|]. lia. }
      destruct (Z.eqb_spec ((now + tz) / msPerDay - (completedInstant h + tz) / msPerDay) 0);
        [lia|].
      destruct (Z.ltb_spec 0 ((now + tz) / msPerDay - (completedInstant h + tz) / msPerDay));
        [reflexivity|lia].
    + intros Hall Hex. rewrite List.Forall_forall in Hall. specialize (Hall h Hhin Hhc).
      apply List.Exists_exists in Hex. destruct Hex as (t & Hin & Hc & Htoday).
      assert (Hf : In t (List.filter hasCompletedAt tasks)) by (apply filter_In; tauto).
      rewrite List.Forall_forall in Hhead. specialize (Hhead t Hf).
      cbn [streakLoop]. rewrite days_between.
      pose proof (startOfDay_multiple tz now) as Hm.
      assert (Hd : (completedInstant h + tz) / msPerDay = (now + tz) / msPerDay).
      { symmetry. apply Z.div_unique_pos with (r := completedInstant h + tz
                                                     - msPerDay * ((now + tz) / msPerDay));
          [|lia]. unfold msPerDay in *. lia. }
      rewrite Hd, Z.sub_diag. cbn [Z.eqb].
      pose proof (streakLoop_bounds (Zn := fixedOffset tz) r (0 + 1)
                    (previousDay (Zone := fixedOffset tz)
                       (startOfDay (Zone := fixedOffset tz) now))). lia.
Qed.

Lemma filter_partition_length {A : Type} (f : A -> bool) (l : list A) :
  (length (List.filter f l) + length (List.filter (fun x => negb (f x)) l) = length l)%nat.
Proof.
  induction l as [|a l IH]; simpl; [reflexivity|]. destruct (f a); simpl; lia.
Qed.


(** X27: in every zone, [getDetailedStatistics] returns nothing
    without a current profile; otherwise the counts it returns fit together:
    all tasks are counted, done and active tasks add up to the total, the
    two counts of the week are within the total, the streak is between 0 and
    the total, the score is the formula of the score on the counts returned,
    the login count is the stored one and the last activity is [now]. *)
Theorem getDetailedStatistics_counts_are_consistent :
  forall (Zn : Zone) (now : Z) (tasks : list Task.t) (stored : option UserStatistics),
    (stored = None -> getDetailedStatistics now tasks stored = None) /\
    (forall st, stored = Some st ->
       exists s,
         getDetailedStatistics now tasks stored = Some s /\
         totalTasks s = length tasks /\
         (completedTasks s + activeTasks s = totalTasks s)%nat /\
         (tasksCreatedThisWeek s <= totalTasks s)%nat /\
         (tasksCompletedThisWeek s <= totalTasks s)%nat /\
         0 <= streakDays s <= Z.of_nat (totalTasks s) /\
         productivityScore s
         = scoreFormula (completedTasks s) (totalTasks s) (tasksCreatedThisWeek s)
             (tasksCompletedThisWeek s) /\
         loginCount s = loginCount st /\
         lastActivityAt s = now).
Proof.
  intros Zn now tasks stored. split; [intros ->; reflexivity|].
  intros st ->. eexists. split; [reflexivity|].
  cbn [totalTasks completedTasks activeTasks tasksCreatedThisWeek tasksCompletedThisWeek
       streakDays productivityScore loginCount lastActivityAt enrichStatistics].
  split; [reflexivity|]. split; [apply filter_partition_length|].
  split; [apply List.filter_length_le|]. split; [apply List.filter_length_le|].
  split; [|split; [|split; reflexivity]].
  - pose proof (calculateStreakDays_bounds now tasks). 
    pose proof (List.filter_length_le hasCompletedAt tasks). lia.
  - destruct tasks as [|t l]; [vm_compute; reflexivity|]. reflexivity.
Qed.

End StatisticsFacts.

(** ** Sanitized input *)

Section SanitizeFacts.
Import UserProfile.

Lemma trimStart_length s : (length (trimStart s) <= length s)%nat.
Proof.
  induction s as [|c s IH]; simpl; [lia|]. destruct (isWhiteSpace c); simpl; lia.
Qed.

Lemma trim_incl s x : In x (trim s) -> In x s.
Proof.
  unfold trim, trimEnd. intros H. apply in_rev in H. apply trimStart_incl in H.
  apply in_rev in H. apply trimStart_incl in H. exact H.
Qed.

Lemma trim_length s : (length (trim s) <= length s)%nat.
Proof.
  unfold trim, trimEnd. rewrite length_rev.
  pose proof (trimStart_length (rev (trimStart s))) as H1.
  rewrite length_rev in H1. pose proof (trimStart_length s). lia.
Qed.

(** X28: the result of [sanitizeString] holds no angle bracket: it is
    the trimmed input without its angle brackets (so the trimmed input
    itself when there is none), never longer than the input. *)
Theorem sanitizeString_removes_angle_brackets :
  forall (input : jsstring),
    ~ In 60%N (sanitizeString input) /\
    ~ In 62%N (sanitizeString input) /\
    (forall c, In c (sanitizeString input) <-> In c (trim input) /\ c <> 60%N /\ c <> 62%N) /\
    (length (sanitizeString input) <= length input)%nat /\
    (~ In 60%N input -> ~ In 62%N input -> sanitizeString input = trim input).
Proof.
  intros input. unfold sanitizeString.
  assert (Hin : forall c, In c (List.filter (fun c => negb ((c =? 60)%N || (c =? 62)%N))
                                  (trim input))
                          <-> In c (trim input) /\ c <> 60%N /\ c <> 62%N).
  { intros c. rewrite filter_In, negb_true_iff, orb_false_iff, !N.eqb_neq. reflexivity. }
  split; [intros H; apply Hin in H; tauto|]. split; [intros H; apply Hin in H; tauto|].
  split; [exact Hin|]. split.
  - pose proof (List.filter_length_le (fun c => negb ((c =? 60)%N || (c =? 62)%N))
                  (trim input)).
    pose proof (trim_length input). lia.
  - intros H60 H62.
    assert (Hall : forall l : jsstring, ~ In 60%N l -> ~ In 62%N l ->
              List.filter (fun c => negb ((c =? 60)%N || (c =? 62)%N)) l = l).
    { clear. induction l as [|a l IH]; intros Ha Hb; simpl; [reflexivity|].
      destruct (N.eqb_spec a 60) as [->|_]; [exfalso; apply Ha; left; reflexivity|].
      destruct (N.eqb_spec a 62) as [->|_]; [exfalso; apply Hb; left; reflexivity|].
      simpl. f_equal. apply IH; intros H; [apply Ha|apply Hb]; right; exact H. }
    apply Hall; intros H; [apply H60|apply H62]; apply trim_incl, H.
Qed.

End SanitizeFacts.

(** ** The theorems at concrete inputs *)

Lemma streak_with_gap_at_day_two_witness :
  UserProfile.hasCompletedAt (completedTask "a" (1700000000000 - 3600000)) = true /\
  Permutation
    [completedTask "c" (1700000000000 - 3 * UserProfile.msPerDay);
     completedTask "a" (1700000000000 - 3600000);
     completedTask "b" (1700000000000 - UserProfile.msPerDay)]
    [completedTask "a" (1700000000000 - 3600000);
     completedTask "b" (1700000000000 - UserProfile.msPerDay);
     completedTask "c" (1700000000000 - 3 * UserProfile.msPerDay)] /\
  UserProfile.calculateStreakDays (Zn := fixedOffset 0) 1700000000000
    [completedTask "c" (1700000000000 - 3 * UserProfile.msPerDay);
     completedTask "a" (1700000000000 - 3600000);
     completedTask "b" (1700000000000 - UserProfile.msPerDay)] = 1.
Proof.
  split; [reflexivity|].
  split; [exact (Permutation_cons_append _ _)|].
  apply (streak_with_gap_at_day_two 0 1700000000000
           (completedTask "a" (1700000000000 - 3600000))
           (completedTask "b" (1700000000000 - UserProfile.msPerDay))
           (completedTask "c" (1700000000000 - 3 * UserProfile.msPerDay)));
    try reflexivity.
  exact (Permutation_cons_append _ _).
Defined.

Lemma csv_title_export_and_import_witness :
  Task.title sayHiTask = sayHi /\
  ~ In COMMA (Task.id sayHiTask) /\
  ~ In LF (Task.id sayHiTask) /\
  nth_error (App.csvRow (P := refPlatform) sayHiTask) 1 = Some sayHiField.
Proof.
  assert (Hc : ~ In COMMA (Task.id sayHiTask)) by (vm_compute; intuition discriminate).
  assert (Hl : ~ In LF (Task.id sayHiTask)) by (vm_compute; intuition discriminate).
  split; [reflexivity|]. split; [exact Hc|]. split; [exact Hl|].
  exact (proj1 (csv_title_export_and_import (P := refPlatform) sayHiTask 1700000000000
                  1700000000000 (setTasks [sayHiTask] initialWorld) initialWorld
                  eq_refl eq_refl Hc Hl)).
Defined.

Lemma completedAt_iff_done_preserved_witness :
  Forall completionInvariant (tasks initialWorld) /\
  Forall completionInvariant
    (tasks (taskRun (P := refPlatform)
              [callAddTask 1700000000000 1700000000000 (str "Comprar pan") [] [];
               callToggleTask 1700000001000 (str "0abcdefg")]
              initialWorld)).
Proof.
  split; [constructor|].
  apply (completedAt_iff_done_preserved (P := refPlatform)). constructor.
Defined.

Lemma productivity_score_formula_and_range_witness :
  Z.of_nat (length [futureDatedTask]) < 2 ^ 32 /\
  exists z, 0 <= z <= 100 /\
            UserProfile.calculateProductivityScore 1700000000000 [futureDatedTask] = ofZ z.
Proof.
  split; [reflexivity|].
  apply (productivity_score_formula_and_range 1700000000000 [futureDatedTask]). reflexivity.
Defined.

Lemma scheduleReminder_past_fails_witness :
  1699999999000 <= 1700000000000 /\
  fst (Notifications.scheduleReminder (P := refPlatform) 1700000000000 (str "t0")
         (str "Comprar pan") 1699999999000 remindedWorld) = false.
Proof.
  assert (H : 1699999999000 <= 1700000000000) by (intros Hgt; discriminate Hgt).
  split; [exact H|].
  apply (scheduleReminder_past_fails (P := refPlatform) 1700000000000 (str "t0")
           (str "Comprar pan") 1699999999000 remindedWorld H).
Defined.

Lemma at_most_one_pending_timer_per_task_witness :
  let w := reminderRun (P := refPlatform)
             [callSchedule 1700000000000 (str "t0") (str "Comprar pan") 1700003600000]
             initialWorld in
  activeReminders w !! str "t0"
  = Some (ActiveReminder.mk (str "t0") (str "Comprar pan") 1700003600000 1%N) /\
  1700000000000 < 1700007200000 /\
  timers (snd (Notifications.scheduleReminder (P := refPlatform) 1700000000000 (str "t0")
                 (str "Comprar pan") 1700007200000 w)) !! 1%N = None.
Proof.
  intros w.
  assert (H1 : activeReminders w !! str "t0"
               = Some (ActiveReminder.mk (str "t0") (str "Comprar pan") 1700003600000 1%N))
    by (vm_compute; reflexivity).
  split; [exact H1|]. split; [reflexivity|].
  destruct (proj2 (at_most_one_pending_timer_per_task (P := refPlatform)
                     [callSchedule 1700000000000 (str "t0") (str "Comprar pan")
                        1700003600000])
              1700000000000 (str "t0") (str "Comprar pan") 1700007200000 _ H1 eq_refl)
    as (_ & _ & Hgone & _).
  exact Hgone.
Defined.

Lemma activity_log_never_exceeds_100_witness :
  length (activities fullLogWorld) = 100%nat /\
  length (activities (callAddActivity (P := refPlatform) fullLogWorld sampleCall)) = 100%nat.
Proof.
  split; [reflexivity|].
  destruct (proj2 (proj2 (activity_log_never_exceeds_100 (P := refPlatform) [] sampleCall
                            fullLogWorld)) eq_refl)
    as (oldest & _ & _ & _ & H & _).
  exact H.
Defined.

Lemma notification_feed_never_exceeds_50_witness :
  (length (notifications initialWorld) < 50)%nat /\
  notifications (Notifications.addNotification sampleNotification initialWorld)
  = [sampleNotification].
Proof.
  assert (H : (length (notifications initialWorld) < 50)%nat) by (cbn; lia).
  split; [exact H|].
  exact (proj2 (proj2 (proj2 (proj2 (notification_feed_never_exceeds_50 [] sampleNotification
                                       initialWorld)))) H).
Defined.

Lemma toggleTask_reminder_witness :
  tasks remindedWorld = [] ++ remindedTask :: [] /\
  ~ In (Task.id remindedTask) (map Task.id ([] ++ [])) /\
  Task.reminder remindedTask = Some (Reminder.mk 1700003600000 false) /\
  Task.done remindedTask = false /\
  activeReminders (App.toggleTask (P := refPlatform) 1700000060000 (Task.id remindedTask)
                     remindedWorld) !! Task.id remindedTask = None.
Proof.
  assert (Ht : tasks remindedWorld = [] ++ remindedTask :: []) by reflexivity.
  assert (Hn : ~ In (Task.id remindedTask) (map Task.id ([] ++ []))) by (intros []).
  split; [exact Ht|]. split; [exact Hn|]. split; [reflexivity|]. split; [reflexivity|].
  exact (proj1 (proj1 (toggleTask_reminder (P := refPlatform) 1700000060000 [] []
                         remindedTask (Reminder.mk 1700003600000 false) remindedWorld
                         Ht Hn eq_refl) eq_refl)).
Defined.

Lemma toggleTask_unknown_id_witness :
  ~ In (str "zz") (map Task.id (tasks remindedWorld)) /\
  newestFirst (tasks remindedWorld) /\
  App.toggleTask (P := refPlatform) 1700000060000 (str "zz") remindedWorld = remindedWorld.
Proof.
  assert (H : ~ In (str "zz") (map Task.id (tasks remindedWorld)))
    by (vm_compute; intuition discriminate).
  assert (Hs : newestFirst (tasks remindedWorld)) by (repeat constructor).
  split; [exact H|]. split; [exact Hs|].
  destruct (toggleTask_unknown_id (P := refPlatform) 1700000060000 (str "zz") remindedWorld H)
    as (_ & _ & _ & _ & _ & _ & Hsame).
  exact (Hsame Hs).
Defined.

Lemma timersRecorded_remindedWorld : timersRecorded remindedWorld.
Proof.
  apply (scheduleReminder_recorded (P := refPlatform)).
  apply (timersRecorded_ext initialWorld); [reflexivity..|apply timersRecorded_initial].
Qed.

Lemma cancelReminder_only_its_task_witness :
  timersRecorded remindedWorld /\
  str "t0" <> str "t1" /\
  activeReminders (Notifications.cancelReminder (str "t0") remindedWorld) !! str "t0" = None.
Proof.
  assert (H : str "t0" <> str "t1") by (vm_compute; discriminate).
  split; [exact timersRecorded_remindedWorld|]. split; [exact H|].
  exact (proj1 (cancelReminder_only_its_task (str "t0") (str "t1") remindedWorld
                  timersRecorded_remindedWorld H)).
Defined.

Lemma clearAllReminders_leaves_nothing_pending_witness :
  timersRecorded remindedWorld /\
  timers (Notifications.clearAllReminders remindedWorld) = ∅.
Proof.
  split; [exact timersRecorded_remindedWorld|].
  exact (proj1 (proj2 (clearAllReminders_leaves_nothing_pending remindedWorld
                         timersRecorded_remindedWorld))).
Defined.

Lemma schedule_then_cancel_restores_witness :
  timersRecorded initialWorld /\
  1700000000000 < 1700003600000 /\
  Notifications.hasActiveReminder (str "t0")
    (Notifications.cancelReminder (str "t0")
       (snd (Notifications.scheduleReminder (P := refPlatform) 1700000000000 (str "t0")
               (str "Comprar pan") 1700003600000 initialWorld))) = false.
Proof.
  split; [exact timersRecorded_initial|]. split; [reflexivity|].
  exact (proj1 (proj2 (schedule_then_cancel_restores (P := refPlatform) 1700000000000
                         (str "t0") (str "Comprar pan") 1700003600000 initialWorld
                         timersRecorded_initial eq_refl))).
Defined.

Lemma fireTimer_notifies_and_forgets_witness :
  timersRecorded remindedWorld /\
  timers remindedWorld !! 1%N
  = Some (Timer.mk (str "t0") (str "Comprar pan") 1700003600000) /\
  activeReminders firedWorld !! str "t0" = None.
Proof.
  assert (H : timers remindedWorld !! 1%N
              = Some (Timer.mk (str "t0") (str "Comprar pan") 1700003600000))
    by (vm_compute; reflexivity).
  split; [exact timersRecorded_remindedWorld|]. split; [exact H|].
  exact (proj1 (proj2 (fireTimer_notifies_and_forgets (P := refPlatform) 1700003600000 1%N _
                         remindedWorld timersRecorded_remindedWorld H))).
Defined.

Lemma snooze_action_reschedules_fired_reminder_witness :
  notifications firedWorld = [firedNotification] /\
  Notification.taskId firedNotification = Some (str "t0") /\
  nonEmpty (str "t0") = true /\
  Notification.message firedNotification = str "Es hora de: " ++ str "Comprar pan" /\
  exists h,
    activeReminders
      (Notifications.handleNotificationAction (P := refPlatform) 1700003660000
         firedNotification (str "snooze") firedWorld) !! str "t0"
    = Some (ActiveReminder.mk (str "t0") (str "Comprar pan") (1700003660000 + 600000) h) /\
    timers
      (Notifications.handleNotificationAction (P := refPlatform) 1700003660000
         firedNotification (str "snooze") firedWorld) !! h
    = Some (Timer.mk (str "t0") (str "Comprar pan") (1700003660000 + 600000)).
Proof.
  split; [vm_compute; reflexivity|].
  split; [reflexivity|]. split; [reflexivity|]. split; [reflexivity|].
  exact (proj1 (snooze_action_reschedules_fired_reminder (P := refPlatform) 1700003660000
                  firedNotification (str "t0") (str "Comprar pan") firedWorld
                  eq_refl eq_refl eq_refl)).
Defined.

Lemma deleting_tasks_keeps_their_reminders_witness :
  timersRecorded remindedWorld /\
  activeReminders remindedWorld !! str "t0" = Some recordedReminder /\
  tasks (App.removeTask (P := refPlatform) 1700000060000 (str "t0") remindedWorld) = [] /\
  Notifications.hasActiveReminder (str "t0")
    (App.removeTask (P := refPlatform) 1700000060000 (str "t0") remindedWorld) = true.
Proof.
  assert (H : activeReminders remindedWorld !! str "t0" = Some recordedReminder)
    by (vm_compute; reflexivity).
  split; [exact timersRecorded_remindedWorld|]. split; [exact H|].
  split; [vm_compute; reflexivity|].
  exact (proj1 (proj2 (proj2 (deleting_tasks_keeps_their_reminders (P := refPlatform)
                                1700000060000 1700003600000 (str "t0") recordedReminder
                                remindedWorld _ timersRecorded_remindedWorld H
                                (or_introl eq_refl))))).
Defined.

Lemma addTask_schedules_future_reminders_only_witness :
  0 <= 1700000000000 /\
  nonEmpty (trim (str " Comprar pan ")) = true /\
  App.getReminderDatetime (P := fixedDatePlatform) 1700000000000 (str "2023-11-14")
    (str "23:13") = Some 1700003600000 /\
  timers (App.addTask (P := fixedDatePlatform) 1700000000000 1700000000002
            (str " Comprar pan ") (str "2023-11-14") (str "23:13") initialWorld) !! 1%N
  = Some (Timer.mk (str "0abcdefg") (str "Comprar pan") 1700003600000) /\
  shown (App.addTask (P := fixedDatePlatform) 1700003599999 1700003600000
           (str " Comprar pan ") (str "2023-11-14") (str "23:13") initialWorld)
  = [pastDateError].
Proof.
  assert (H0 : 0 <= 1700000000000) by (intros H; discriminate H).
  assert (H1 : 0 <= 1700003599999) by (intros H; discriminate H).
  assert (Hg : App.getReminderDatetime (P := fixedDatePlatform) 1700000000000
                 (str "2023-11-14") (str "23:13") = Some 1700003600000)
    by (vm_compute; reflexivity).
  assert (Hg1 : App.getReminderDatetime (P := fixedDatePlatform) 1700003599999
                  (str "2023-11-14") (str "23:13") = Some 1700003600000)
    by (vm_compute; reflexivity).
  split; [exact H0|]. split; [reflexivity|]. split; [exact Hg|].
  pose proof (addTask_schedules_future_reminders_only (P := fixedDatePlatform) 1700000000000
                1700000000002 (str " Comprar pan ") (str "2023-11-14") (str "23:13")
                initialWorld H0 eq_refl) as H.
  pose proof (addTask_schedules_future_reminders_only (P := fixedDatePlatform) 1700003599999
                1700003600000 (str " Comprar pan ") (str "2023-11-14") (str "23:13")
                initialWorld H1 eq_refl) as H'.
  cbv zeta in H, H'. rewrite Hg in H. rewrite Hg1 in H'.
  destruct H as (_ & _ & _ & Hfut & _). destruct H' as (_ & _ & _ & _ & Hpast).
  split.
  - exact (proj1 (proj2 (Hfut eq_refl))).
  - exact (proj2 (proj2 (Hpast (fun Hc : (1700003600000 ?= 1700003600000) = Gt =>
                                  ltac:(discriminate Hc))))).
Defined.

Lemma toggleTagSelection_flips_one_tag_witness :
  List.NoDup (selectedTags taggedWorld) /\
  selectedTags (App.toggleTagSelection (str "Urgente") taggedWorld)
  = [str "Trabajo"; str "Urgente"] /\
  List.NoDup (selectedTags (App.toggleTagSelection (str "Urgente") taggedWorld)).
Proof.
  assert (H : List.NoDup (selectedTags taggedWorld))
    by (constructor; [intros []|constructor]).
  split; [exact H|]. split; [vm_compute; reflexivity|].
  exact (proj1 (toggleTagSelection_flips_one_tag (str "Urgente") taggedWorld H)).
Defined.

Lemma json_export_then_import_restores_the_data_witness :
  Forall jsonSafeTask (tasks remindedWorld) /\
  Forall jsonSafeActivity (activities fullLogWorld) /\
  exists w',
    App.importFromJSON (P := refPlatform) 1700000060000
      (fst (App.exportToJSON (P := refPlatform) 1700000000000
              (setTasks (tasks remindedWorld) fullLogWorld)))
      true initialWorld = Some w' /\
    tasks w' = tasks remindedWorld /\
    length (activities w') = 100%nat.
Proof.
  assert (Ht : Forall jsonSafeTask (tasks (setTasks (tasks remindedWorld) fullLogWorld))).
  { constructor; [|constructor]. split; [eexists; reflexivity|left; reflexivity]. }
  assert (Ha : Forall jsonSafeActivity
                 (activities (setTasks (tasks remindedWorld) fullLogWorld))).
  { apply List.Forall_forall. intros a Hin. apply repeat_spec in Hin. subst a.
    eexists; reflexivity. }
  split; [exact Ht|]. split; [exact Ha|].
  destruct (json_export_then_import_restores_the_data (P := refPlatform) 1700000000000
              1700000060000 (setTasks (tasks remindedWorld) fullLogWorld) initialWorld Ht Ha)
    as (w' & Himp & _ & Htasks & _ & Hacts & _).
  exists w'. split; [exact Himp|].
  split; [apply Htasks; right; repeat constructor|].
  rewrite Hacts. reflexivity.
Defined.


Lemma csv_export_then_import_of_one_task_witness :
  tasks (setTasks [remindedTask] initialWorld) = [remindedTask] /\
  ~ In COMMA (Task.id remindedTask) /\ ~ In LF (Task.id remindedTask) /\
  ~ In COMMA (Task.title remindedTask) /\ ~ In LF (Task.title remindedTask) /\
  nonEmpty (Task.title remindedTask) = true /\
  exists t' rest w',
    App.importFromCSV (P := refPlatform) 1700000060000
      (fst (App.exportToCSV (P := refPlatform) 1700000000000
              (setTasks [remindedTask] initialWorld)))
      true initialWorld = Some w' /\
    tasks w' ≡ₚ t' :: rest /\
    Task.title t' = str "Comprar pan".
Proof.
  assert (H1 : ~ In COMMA (Task.id remindedTask)) by (vm_compute; intuition discriminate).
  assert (H2 : ~ In LF (Task.id remindedTask)) by (vm_compute; intuition discriminate).
  assert (H3 : ~ In COMMA (Task.title remindedTask)) by (vm_compute; intuition discriminate).
  assert (H4 : ~ In LF (Task.title remindedTask)) by (vm_compute; intuition discriminate).
  assert (H5 : ~ In DQUOTE (Task.title remindedTask)) by (vm_compute; intuition discriminate).
  split; [reflexivity|]. split; [exact H1|]. split; [exact H2|]. split; [exact H3|].
  split; [exact H4|]. split; [reflexivity|].
  destruct (csv_export_then_import_of_one_task (P := refPlatform) remindedTask 1700000000000
              1700000060000 (setTasks [remindedTask] initialWorld) initialWorld
              eq_refl H1 H2 H3 H4 eq_refl)
    as (t' & rest & w' & Himp & Htasks & _ & _ & Hplain & _).
  exists t', rest, w'. split; [exact Himp|]. split; [exact Htasks|]. exact (Hplain H5).
Defined.

Lemma toggleTask_completes_or_reopens_the_task_witness :
  tasks remindedWorld = [] ++ remindedTask :: [] /\
  ~ In (Task.id remindedTask) (map Task.id ([] ++ [])) /\
  tasks (App.toggleTask (P := refPlatform) 1700000060000 (Task.id remindedTask) remindedWorld)
  ≡ₚ [] ++ Task.withCompletion remindedTask true (Some (Int 1700000060000)) :: [].
Proof.
  assert (Ht : tasks remindedWorld = [] ++ remindedTask :: []) by reflexivity.
  assert (Hn : ~ In (Task.id remindedTask) (map Task.id ([] ++ []))) by (intros []).
  split; [exact Ht|]. split; [exact Hn|].
  exact (proj1 (toggleTask_completes_or_reopens_the_task (P := refPlatform) 1700000060000
                  1700000120000 [] [] remindedTask remindedWorld Ht Hn)).
Defined.
